(** * PyPoker: the Monte Carlo Hold'em equity core, embedded in Rocq

    A shallow embedding of [monte_carlo_poker_equity.py]: the card notation
    ([card_str_to_int], [format_cards]), the 7-card evaluator ([evaluate_7]
    with [straight_high_from_ranks_mask]), the comparator ([compare_hands]),
    the simulator ([simulate_equity]) and the confidence interval closure
    [ci] of [main].

    Conventions of the embedding.
    - Python [int] is [Z]; [//] and [%] by a positive constant are [Z.div]
      and [Z.modulo] (both floor).
    - A Python exception is a value [Err e] of the [result] type; a normal
      return is [Ok v].
    - A Python [str] is a [string] whose characters are the code points
      0..255.
    - A Python [float] is the rational it denotes; each float operation
      rounds through an abstract rounding operator (section [Simulator]). *)

From Stdlib Require Import ZArith QArith Qabs Qround List Sorted Permutation Bool Lia
  Ascii String.
Import ListNotations.

Open Scope Z_scope.

(** ** Exceptions and the error monad *)

Inductive exn : Type :=
| ValueError
| IndexError
| ZeroDivisionError
| OverflowError.

Inductive result (A : Type) : Type :=
| Ok (a : A)
| Err (e : exn).

Arguments Ok {A} a.
Arguments Err {A} e.

Definition bind {A B : Type} (m : result A) (k : A -> result B) : result B :=
  match m with
  | Ok a => k a
  | Err e => Err e
  end.

Notation "x <- m ;; k" := (bind m (fun x => k))
  (at level 61, m at next level, right associativity).
Notation "' p <- m ;; k" := (bind m (fun x => let p := x in k))
  (at level 61, p pattern, m at next level, right associativity).

Definition succeeds {A : Type} (m : result A) : Prop := exists a, m = Ok a.

(** ** Python sequence primitives *)

(** [l[i]] for a Python list: a negative index counts from the end, an index
    outside [-len, len) raises [IndexError]. *)
Definition py_getitem {A : Type} (l : list A) (i : Z) : result A :=
  let n := Z.of_nat (List.length l) in
  let j := if i <? 0 then i + n else i in
  if (0 <=? j) && (j <? n) then
    match nth_error l (Z.to_nat j) with
    | Some a => Ok a
    | None => Err IndexError
    end
  else Err IndexError.

Fixpoint set_nth {A : Type} (l : list A) (n : nat) (a : A) : list A :=
  match l, n with
  | [], _ => []
  | _ :: t, O => a :: t
  | x :: t, S m => x :: set_nth t m a
  end.

(** [l[i] += 1] for a Python list of integers. *)
Definition py_incr (l : list Z) (i : Z) : result (list Z) :=
  let n := Z.of_nat (List.length l) in
  let j := if i <? 0 then i + n else i in
  if (0 <=? j) && (j <? n) then
    Ok (set_nth l (Z.to_nat j) (nth (Z.to_nat j) l 0 + 1))
  else Err IndexError.

(** [l[start:]] and [l[start:stop]]: slice bounds are clipped, a negative
    bound counts from the end. *)
Definition clip_index (len i : Z) : nat :=
  Z.to_nat (if i <? 0 then Z.max 0 (i + len) else Z.min i len).

Definition py_slice_from {A : Type} (l : list A) (start : Z) : list A :=
  skipn (clip_index (Z.of_nat (List.length l)) start) l.

Definition py_slice {A : Type} (l : list A) (start stop : Z) : list A :=
  let n := Z.of_nat (List.length l) in
  let a := clip_index n start in
  let b := clip_index n stop in
  firstn (b - a) (skipn a l).

(** [max(l)]: [ValueError] on the empty list. *)
Definition py_max (l : list Z) : result Z :=
  match l with
  | [] => Err ValueError
  | x :: t => Ok (fold_left Z.max t x)
  end.

(** ** Card notation *)

Open Scope string_scope.

Definition RANKS : string := "23456789TJQKA".
Definition SUITS : string := "cdhs".

(** [str.isspace] on the code points 0..255. *)
Definition is_space (c : ascii) : bool :=
  let n := nat_of_ascii c in
  ((9 <=? n) && (n <=? 13) || (28 <=? n) && (n <=? 32)
   || (n =? 133) || (n =? 160))%nat.

Fixpoint lstrip (s : string) : string :=
  match s with
  | EmptyString => EmptyString
  | String c s' => if is_space c then lstrip s' else s
  end.

Fixpoint rstrip (s : string) : string :=
  match s with
  | EmptyString => EmptyString
  | String c s' =>
      match rstrip s' with
      | EmptyString => if is_space c then EmptyString else String c EmptyString
      | r => String c r
      end
  end.

(** [card.strip()] *)
Definition strip (s : string) : string := rstrip (lstrip s).

(** [c.upper()] and [c.lower()] on one character. On the ASCII letters this
    is Python's mapping. The other code points are left in place: Python
    sends them to characters (or to the two letters SS) that are not in
    [RANKS] or [SUITS] either, so the lookups below fail the same way. *)
Definition upper (c : ascii) : ascii :=
  let n := nat_of_ascii c in
  if ((97 <=? n) && (n <=? 122))%nat then ascii_of_nat (n - 32) else c.

Definition lower (c : ascii) : ascii :=
  let n := nat_of_ascii c in
  if ((65 <=? n) && (n <=? 90))%nat then ascii_of_nat (n + 32) else c.

(** [s.index(c)] for a one-character needle; [None] stands for the
    [ValueError] that the caller catches. *)
Fixpoint str_index (c : ascii) (s : string) : option nat :=
  match s with
  | EmptyString => None
  | String d s' =>
      if Ascii.eqb c d then Some O else option_map S (str_index c s')
  end.

Definition card_str_to_int (card : string) : result Z :=
  let card := strip card in
  if negb (String.length card =? 2)%nat then Err ValueError
  else
    match card with
    | String c0 (String c1 _) =>
        let r := upper c0 in
        let s := lower c1 in
        match str_index r RANKS, str_index s SUITS with
        | Some r_idx, Some s_idx => Ok (Z.of_nat s_idx * 13 + Z.of_nat r_idx)
        | _, _ => Err ValueError
        end
    | _ => Err ValueError
    end.

(** [s[i]] for a Python string. *)
Definition py_str_getitem (s : string) (i : Z) : result ascii :=
  let n := Z.of_nat (String.length s) in
  let j := (if i <? 0 then i + n else i)%Z in
  if ((0 <=? j) && (j <? n))%Z then
    match String.get (Z.to_nat j) s with
    | Some a => Ok a
    | None => Err IndexError
    end
  else Err IndexError.

Fixpoint join (sep : string) (l : list string) : string :=
  match l with
  | [] => ""
  | [x] => x
  | x :: rest => x ++ sep ++ join sep rest
  end.

Fixpoint format_each (cards : list Z) : result (list string) :=
  match cards with
  | [] => Ok []
  | c :: cs =>
      r <- py_str_getitem RANKS (c mod 13) ;;
      s <- py_str_getitem SUITS (c / 13) ;;
      out <- format_each cs ;;
      Ok (String r (String s EmptyString) :: out)
  end.

Definition format_cards (cards : list Z) : result string :=
  out <- format_each cards ;;
  Ok (join " " out).

Close Scope string_scope.

(** ** The 7-card evaluator *)

Definition int_to_rank (card : Z) : Z := card mod 13 + 2.

Definition int_to_suit (card : Z) : Z := card / 13.

(** [range(14, 4, -1)], [range(0, 5)], [range(2, 15)], [range(14, 1, -1)]
    and [range(4)]. *)
Definition straight_highs : list Z := [14; 13; 12; 11; 10; 9; 8; 7; 6; 5].
Definition range_0_5 : list Z := [0; 1; 2; 3; 4].
Definition ranks_asc : list Z := [2; 3; 4; 5; 6; 7; 8; 9; 10; 11; 12; 13; 14].
Definition ranks_desc : list Z := [14; 13; 12; 11; 10; 9; 8; 7; 6; 5; 4; 3; 2].
Definition range_4 : list Z := [0; 1; 2; 3].

(** The inner loop of [straight_high_from_ranks_mask]: the five bits
    [high], [high-1], ..., [high-4]. *)
Definition need_mask (high : Z) : Z :=
  fold_left (fun need d => Z.lor need (Z.shiftl 1 (high - d))) range_0_5 0.

Fixpoint first_straight (highs : list Z) (mask : Z) : Z :=
  match highs with
  | [] => 0
  | high :: rest =>
      if Z.land mask (need_mask high) =? need_mask high then high
      else first_straight rest mask
  end.

Definition straight_high_from_ranks_mask (mask : Z) : Z :=
  first_straight straight_highs mask.

(** A hand evaluation: the category and the tuple of tiebreakers. *)
Definition hand : Type := (Z * list Z)%type.

(** [rank_counts[r]] (and [suit_counts[s]]) read at an index of the loop
    range, which is inside the list. *)
Definition cnt (counts : list Z) (r : Z) : Z := nth (Z.to_nat r) counts 0.

(** The counting loop over the cards. *)
Fixpoint count_cards (cards : list Z) (rank_counts suit_counts : list Z)
  : result (list Z * list Z) :=
  match cards with
  | [] => Ok (rank_counts, suit_counts)
  | c :: cs =>
      let r := int_to_rank c in
      let s := int_to_suit c in
      rank_counts' <- py_incr rank_counts r ;;
      suit_counts' <- py_incr suit_counts s ;;
      count_cards cs rank_counts' suit_counts'
  end.

Definition build_rank_mask (rank_counts : list Z) : Z :=
  let rank_mask :=
    fold_left
      (fun m r => if 0 <? cnt rank_counts r then Z.lor m (Z.shiftl 1 r) else m)
      ranks_asc 0 in
  if negb (cnt rank_counts 14 =? 0) then Z.lor rank_mask (Z.shiftl 1 1)
  else rank_mask.

Fixpoint first_flush (suits : list Z) (suit_counts : list Z) : Z :=
  match suits with
  | [] => -1
  | s :: rest =>
      if 5 <=? cnt suit_counts s then s else first_flush rest suit_counts
  end.

Definition find_flush_suit (suit_counts : list Z) : Z :=
  first_flush range_4 suit_counts.

Definition flush_ranks_of (cards : list Z) (flush_suit : Z) : list Z :=
  map int_to_rank (filter (fun c => int_to_suit c =? flush_suit) cards).

(** The mask of the ranks of the flush suit. [set(flush_ranks)] is the list
    of the ranks without repetition; the loop body only ors bits in, so the
    order of the iteration does not matter. *)
Definition build_flush_mask (cards : list Z) (flush_suit : Z) : Z :=
  let '(flush_mask, present_ace) :=
    fold_left
      (fun (st : Z * bool) r =>
         let '(m, ace) := st in
         (Z.lor m (Z.shiftl 1 r), if r =? 14 then true else ace))
      (nodup Z.eq_dec (flush_ranks_of cards flush_suit)) (0, false) in
  if present_ace then Z.lor flush_mask (Z.shiftl 1 1) else flush_mask.

(** The loop that sorts the ranks, from 14 down to 2, into quads, trips,
    pairs and kickers. *)
Definition classify_step (rank_counts : list Z)
  (st : list Z * list Z * list Z * list Z) (r : Z)
  : list Z * list Z * list Z * list Z :=
  let '(quads, trips, pairs, kickers) := st in
  let c := cnt rank_counts r in
  if c =? 4 then (quads ++ [r], trips, pairs, kickers)
  else if c =? 3 then (quads, trips ++ [r], pairs, kickers)
  else if c =? 2 then (quads, trips, pairs ++ [r], kickers)
  else if c =? 1 then (quads, trips, pairs, kickers ++ [r])
  else st.

Definition classify_ranks (rank_counts : list Z)
  : list Z * list Z * list Z * list Z :=
  fold_left (classify_step rank_counts) ranks_desc ([], [], [], []).

(** [sorted(l, reverse=True)] on integers. *)
Fixpoint insert_desc (x : Z) (l : list Z) : list Z :=
  match l with
  | [] => [x]
  | y :: t => if y <=? x then x :: l else y :: insert_desc x t
  end.

Fixpoint sorted_desc (l : list Z) : list Z :=
  match l with
  | [] => []
  | x :: t => insert_desc x (sorted_desc t)
  end.

Definition nonempty {A : Type} (l : list A) : bool :=
  match l with [] => false | _ => true end.

Definition len {A : Type} (l : list A) : Z := Z.of_nat (List.length l).

Definition evaluate_7 (cards : list Z) : result hand :=
  '(rank_counts, suit_counts) <-
      count_cards cards (repeat 0 15%nat) (repeat 0 4%nat) ;;
  let rank_mask := build_rank_mask rank_counts in
  let flush_suit := find_flush_suit suit_counts in
  let unique_ranks := filter (fun r => 0 <? cnt rank_counts r) ranks_desc in
  (* Straight flush check *)
  let sf_high :=
    if negb (flush_suit =? -1)
    then straight_high_from_ranks_mask (build_flush_mask cards flush_suit)
    else 0 in
  if negb (sf_high =? 0) then Ok (8, [sf_high])
  else
    let '(quads, trips, pairs, kickers) := classify_ranks rank_counts in
    if nonempty quads then
      quad_rank <- py_getitem quads 0 ;;
      kicker <- py_max (filter (fun r => negb (r =? quad_rank)) unique_ranks) ;;
      Ok (7, [quad_rank; kicker])
    else if nonempty trips && (nonempty pairs || (2 <=? len trips)) then
      trip_rank <- py_getitem trips 0 ;;
      pair_rank <- (if 2 <=? len trips then py_getitem trips 1
                    else py_getitem pairs 0) ;;
      Ok (6, [trip_rank; pair_rank])
    else if negb (flush_suit =? -1) then
      let flush_cards := sorted_desc (flush_ranks_of cards flush_suit) in
      Ok (5, firstn 5 flush_cards)
    else
      let st_high := straight_high_from_ranks_mask rank_mask in
      if negb (st_high =? 0) then Ok (4, [st_high])
      else if nonempty trips then
        trip_rank <- py_getitem trips 0 ;;
        let ks := filter (fun r => negb (r =? trip_rank)) unique_ranks in
        k1 <- py_getitem ks 0 ;;
        k2 <- py_getitem ks 1 ;;
        Ok (3, [trip_rank; k1; k2])
      else if 2 <=? len pairs then
        p1 <- py_getitem pairs 0 ;;
        p2 <- py_getitem pairs 1 ;;
        kicker <- py_max (filter (fun r => negb (r =? p1) && negb (r =? p2))
                            unique_ranks) ;;
        Ok (2, [p1; p2; kicker])
      else if len pairs =? 1 then
        p <- py_getitem pairs 0 ;;
        let ks := filter (fun r => negb (r =? p)) unique_ranks in
        k1 <- py_getitem ks 0 ;;
        k2 <- py_getitem ks 1 ;;
        k3 <- py_getitem ks 2 ;;
        Ok (1, [p; k1; k2; k3])
      else
        Ok (0, firstn 5 unique_ranks).

(** ** The comparator *)

(** Python's [==] and [>] on tuples of integers (lexicographic, a proper
    prefix is smaller). *)
Fixpoint tuple_eqb (a b : list Z) : bool :=
  match a, b with
  | [], [] => true
  | x :: a', y :: b' => (x =? y) && tuple_eqb a' b'
  | _, _ => false
  end.

Fixpoint tuple_gtb (a b : list Z) : bool :=
  match a, b with
  | [], _ => false
  | _ :: _, [] => true
  | x :: a', y :: b' => if x =? y then tuple_gtb a' b' else y <? x
  end.

Definition compare_hands (a b : hand) : Z :=
  if negb (fst a =? fst b) then (if fst b <? fst a then 1 else -1)
  else if tuple_eqb (snd a) (snd b) then 0
  else if tuple_gtb (snd a) (snd b) then 1 else -1.

Definition deck_without (exclude : list Z) : list Z :=
  filter (fun c => negb (existsb (Z.eqb c) exclude)) (map Z.of_nat (seq 0 52)).

(** The comprehension of [parse_cards_str], over the tokens of the split
    text. *)
Fixpoint parse_tokens (toks : list string) : result (list Z) :=
  match toks with
  | [] => Ok []
  | t :: rest =>
      c <- card_str_to_int t ;;
      cs <- parse_tokens rest ;;
      Ok (c :: cs)
  end.

(** ** The simulator and the reporter *)

(** Magnitudes from which the conversion of an integer to a binary64 float
    raises [OverflowError], and up to which every integer is a float. *)
Definition float_overflow_limit : Z := 2 ^ 1024 - 2 ^ 970.
Definition float_exact_limit : Z := 2 ^ 53.

Record stats : Type := mkStats {
  wins : Z;
  ties : Z;
  losses : Z;
  equity_shares : Q
}.

(** [range(n)] *)
Definition range (n : Z) : list Z := map Z.of_nat (seq 0 (Z.to_nat n)).

Definition Qltb (x y : Q) : bool := negb (Qle_bool y x).

(** [max(a, b)] and [min(a, b)] of two floats: the first argument unless the
    second is strictly better. *)
Definition py_fmax (a b : Q) : Q := if Qltb a b then b else a.
Definition py_fmin (a b : Q) : Q := if Qltb b a then b else a.

Section Simulator.

(** Rounding of a real result to the nearest float. *)
Variable fl : Q -> Q.
(** [math.sqrt] on a non-negative float. *)
Variable fsqrt : Q -> Q.
(** The state of the generator behind [random], [random.seed] and the
    choice that [random.sample] makes of [k] elements of a population. *)
Variable rng : Type.
Variable seed_rng : Z -> rng.
Variable choose : rng -> list Z -> nat -> list Z * rng.

(** [float(n)] for an integer operand of a float operation. *)
Definition float_of_int (n : Z) : result Q :=
  if Z.abs n <? float_overflow_limit then Ok (fl (inject_Z n))
  else Err OverflowError.

(** [a / b] on two integers. *)
Definition int_truediv (a b : Z) : result Q :=
  if b =? 0 then Err ZeroDivisionError
  else
    let q := (inject_Z a / inject_Z b)%Q in
    if Qle_bool (inject_Z float_overflow_limit) (Qabs q)
    then Err OverflowError
    else Ok (fl q).

(** [x / n] for a float [x] and an integer [n]. The quotients taken in
    this program have a divisor of magnitude at least 1, so they stay
    finite. *)
Definition float_div_int (x : Q) (n : Z) : result Q :=
  y <- float_of_int n ;;
  if Qeq_bool y 0 then Err ZeroDivisionError
  else Ok (fl (x / y)%Q).

Definition fadd (x y : Q) : Q := fl (x + y)%Q.
Definition fsub (x y : Q) : Q := fl (x - y)%Q.
Definition fmul (x y : Q) : Q := fl (x * y)%Q.

(** [random.sample(population, k)] *)
Definition random_sample (g : rng) (population : list Z) (k : Z)
  : result (list Z * rng) :=
  let n := len population in
  if (0 <=? k) && (k <=? n) then Ok (choose g population (Z.to_nat k))
  else Err ValueError.

(** The loop over the opponents, with its [break]. *)
Fixpoint scan_opponents (opp_cards : list (list Z)) (full_board : list Z)
  (hero_eval : hand) (best_cmp n_best : Z) : result (Z * Z) :=
  match opp_cards with
  | [] => Ok (best_cmp, n_best)
  | oc :: rest =>
      opp_eval <- evaluate_7 (oc ++ full_board) ;;
      let cmp := compare_hands opp_eval hero_eval in
      if 0 <? cmp then Ok (-1, 1)
      else if cmp =? 0 then
        scan_opponents rest full_board hero_eval 0 (n_best + 1)
      else scan_opponents rest full_board hero_eval best_cmp n_best
  end.

Definition opp_cards_of (draw : list Z) (n_opponents : Z) : list (list Z) :=
  map (fun i => py_slice draw (i * 2) ((i + 1) * 2)) (range n_opponents).

(** The body of the simulation loop once the draw is made. *)
Definition iteration (hero board : list Z) (n_opponents : Z)
  (draw : list Z) (st : stats) : result stats :=
  let opp_cards := opp_cards_of draw n_opponents in
  let runout := py_slice_from draw (n_opponents * 2) in
  let full_board := board ++ runout in
  hero_eval <- evaluate_7 (hero ++ full_board) ;;
  '(best_cmp, n_best) <-
      scan_opponents opp_cards full_board hero_eval 1 1 ;;
  if best_cmp =? 1 then
    Ok (mkStats (wins st + 1) (ties st) (losses st)
                (fadd (equity_shares st) 1))
  else if best_cmp =? 0 then
    share <- float_div_int 1 n_best ;;
    Ok (mkStats (wins st) (ties st + 1) (losses st)
                (fadd (equity_shares st) share))
  else
    Ok (mkStats (wins st) (ties st) (losses st + 1) (equity_shares st)).

Fixpoint run_iterations (n : nat) (hero board : list Z) (n_opponents : Z)
  (base_deck : list Z) (need_cards : Z) (g : rng) (st : stats)
  : result stats :=
  match n with
  | O => Ok st
  | S n' =>
      '(draw, g') <- random_sample g base_deck need_cards ;;
      st' <- iteration hero board n_opponents draw st ;;
      run_iterations n' hero board n_opponents base_deck need_cards g' st'
  end.

(** [simulate_equity], run from the generator state [g]. *)
Definition simulate_equity (g : rng) (hero board : list Z)
  (n_opponents iterations : Z) (seed : option Z)
  : result (Q * Q * Z * Z * Z) :=
  let g := match seed with Some s => seed_rng s | None => g end in
  let known := hero ++ board in
  let base_deck := deck_without known in
  let need_cards := n_opponents * 2 + (5 - len board) in
  st <- run_iterations (Z.to_nat iterations) hero board n_opponents
          base_deck need_cards g (mkStats 0 0 0 0) ;;
  win_rate <- int_truediv (wins st) iterations ;;
  equity <- float_div_int (equity_shares st) iterations ;;
  Ok (win_rate, equity, wins st, ties st, losses st).

(** The closure [ci] of [main], with the [n] it captures. *)
Definition ci (n : Z) (p : Q) : result (Q * Q) :=
  se <- (if 0 <? n then
           x <- float_div_int (fmul p (fsub 1 p)) n ;;
           if Qltb x 0 then Err ValueError else Ok (fsqrt x)
         else Ok 0%Q) ;;
  let c := fl (196 # 100) in
  Ok (py_fmax 0 (fsub p (fmul c se)), py_fmin 1 (fadd p (fmul c se))).

End Simulator.

(** Exact arithmetic as a float format, an exact square root on the squares
    used below, and a generator without state that draws the first [k]
    cards: an instance to run the simulator on. *)
Definition fl_exact (x : Q) : Q := Qred x.
Definition fsqrt_id (x : Q) : Q := x.
Definition choose_first (g : unit) (population : list Z) (k : nat)
  : list Z * unit := (firstn k population, g).
Definition seed_unit (s : Z) : unit := tt.






(** ** The list parser and the normalisation of its callers *)

Open Scope string_scope.

(** [s.replace(",", " ")] *)
Fixpoint replace_commas (s : string) : string :=
  match s with
  | EmptyString => EmptyString
  | String c s' =>
      String (if Ascii.eqb c "," then " "%char else c) (replace_commas s')
  end.

(** [s.split()]: the maximal runs of characters that are not white space.
    [tok] is the run being read. *)
Fixpoint split_ws (s : string) (tok : string) : list string :=
  match s with
  | EmptyString =>
      match tok with EmptyString => [] | _ => [tok] end
  | String c s' =>
      if is_space c then
        match tok with
        | EmptyString => split_ws s' EmptyString
        | _ => tok :: split_ws s' EmptyString
        end
      else split_ws s' (tok ++ String c EmptyString)
  end.

Definition py_split (s : string) : list string := split_ws s EmptyString.

Definition parse_cards_str (cards_str : string) : result (list Z) :=
  let toks :=
    filter (fun t => negb (String.eqb t EmptyString))
      (py_split (replace_commas cards_str)) in
  parse_tokens toks.

(** [s.replace('10', 'T')]: the occurrences are taken from the left and do
    not overlap. *)
Fixpoint replace_10 (s : string) : string :=
  match s with
  | EmptyString => EmptyString
  | String c s' =>
      if Ascii.eqb c "1" then
        match s' with
        | String d s'' =>
            if Ascii.eqb d "0" then String "T" (replace_10 s'')
            else String c (replace_10 s')
        | EmptyString => String c (replace_10 s')
        end
      else String c (replace_10 s')
  end.

(** [PokerAI.normalize_card_notation] of [poker_ai.py], on a string. The
    line it writes to the debug log is left out: [log_to_debug] catches its
    own exceptions and the text returned does not depend on it. *)
Definition normalize_card_notation (cards_str : string) : string :=
  if String.eqb cards_str EmptyString then cards_str
  else replace_10 cards_str.

(** Whether the two characters 10 occur in a string, one after the other. *)
Fixpoint contains_10 (s : string) : bool :=
  match s with
  | EmptyString => false
  | String c s' =>
      match s' with
      | String d _ =>
          (Ascii.eqb c "1" && Ascii.eqb d "0") || contains_10 s'
      | EmptyString => false
      end
  end.

Close Scope string_scope.

(** ** The input checks of [main] *)

(** How the checks of [main] on its two card texts end: with the cards to
    simulate on, with an exception that nothing catches, or with a
    [SystemExit] and its message. *)
Inductive checked (A : Type) : Type :=
| Accepted (a : A)
| Uncaught (e : exn)
| SystemExit (msg : string).
Arguments Accepted {A} a.
Arguments Uncaught {A} e.
Arguments SystemExit {A} msg.

(** [main] from the parsing of [--hero] and [--board] to the call of
    [simulate_equity]. [len(set(l))] is the number of different elements
    of [l]. *)
Definition main_inputs (hero board : string)
  : checked (list Z * list Z) :=
  match parse_cards_str hero with
  | Err e => Uncaught e
  | Ok hero_cards =>
      match parse_cards_str board with
      | Err e => Uncaught e
      | Ok board_cards =>
          if negb (len hero_cards =? 2) then
            SystemExit "Hero must have exactly 2 cards"
          else if 5 <? len board_cards then
            SystemExit "Board cannot exceed 5 cards"
          else if negb (len (nodup Z.eq_dec (hero_cards ++ board_cards))
                        =? len hero_cards + len board_cards) then
            SystemExit "Duplicate cards detected in hero/board inputs"
          else Accepted (hero_cards, board_cards)
      end
  end.

(** ** Vocabulary of the statements *)

Definition valid_card (c : Z) : Prop := 0 <= c < 52.

(** Seven distinct cards of the deck. *)
Definition hand7 (cards : list Z) : Prop :=
  List.length cards = 7%nat /\ NoDup cards /\ Forall valid_card cards.

(** The number of cards of a rank. *)
Definition count_rank (cards : list Z) (r : Z) : Z :=
  len (filter (fun c => int_to_rank c =? r) cards).

Definition count_suit (cards : list Z) (s : Z) : Z :=
  len (filter (fun c => int_to_suit c =? s) cards).

(** The length of the tiebreak tuple of each category. *)
Definition tiebreak_len (category : Z) : nat :=
  match category with
  | 8 | 4 => 1
  | 7 | 6 => 2
  | 3 | 2 => 3
  | 1 => 4
  | _ => 5
  end.

Open Scope string_scope.

Definition rank_chars : list ascii := list_ascii_of_string "23456789TJQKAtjqka".
Definition suit_chars_lower : list ascii := list_ascii_of_string "cdhs".
Definition suit_chars : list ascii := list_ascii_of_string "cdhsCDHS".

(** The tokens of the notation: a rank character in either case, then a
    lowercase suit character. *)
Definition well_formed_token (t : string) : Prop :=
  exists r s, t = String r (String s EmptyString)
              /\ In r rank_chars /\ In s suit_chars_lower.

(** The tokens that [card_str_to_int] takes: surrounding white space is
    stripped, and the suit character may be in either case too. *)
Definition accepted_token (t : string) : Prop :=
  exists r s, strip t = String r (String s EmptyString)
              /\ In r rank_chars /\ In s suit_chars.

(** Uppercase rank character, lowercase suit character. *)
Definition canonical (t : string) : string :=
  match t with
  | String r (String s EmptyString) =>
      String (upper r) (String (lower s) EmptyString)
  | _ => t
  end.

Close Scope string_scope.

(** What the simulator needs of the generator: [random.sample] returns [k]
    elements of the population, taken at [k] different positions. *)
Definition sampler_sound (rng : Type)
  (choose : rng -> list Z -> nat -> list Z * rng) : Prop :=
  forall (g : rng) (population : list Z) (k : nat),
    (k <= List.length population)%nat ->
    NoDup population ->
    List.length (fst (choose g population k)) = k
    /\ NoDup (fst (choose g population k))
    /\ incl (fst (choose g population k)) population.

(** The five bits [high], ..., [high - 4] of a mask. *)
Definition has_straight (mask high : Z) : Prop :=
  forall d, 0 <= d <= 4 -> Z.testbit mask (high - d) = true.

(** The characters between the tokens of a card list, and a test of all
    the characters of a string. *)
Definition blank_char (c : ascii) : bool := is_space c || Ascii.eqb c ",".

Fixpoint all_chars (f : ascii -> bool) (s : string) : bool :=
  match s with
  | EmptyString => true
  | String c s' => f c && all_chars f s'
  end.

(** The cards of one suit, a rank held by one of the cards (rank 1 is the
    ace counted low), and five ranks in a row from [high] down. *)
Definition suited (cards : list Z) (s : Z) : list Z :=
  filter (fun c => int_to_suit c =? s) cards.

Definition rank_present (cards : list Z) (r : Z) : Prop :=
  0 < count_rank cards r \/ (r = 1 /\ 0 < count_rank cards 14).

Definition run_of_five (cards : list Z) (high : Z) : Prop :=
  forall d, 0 <= d <= 4 -> rank_present cards (high - d).

(** The ranks [ks], highest first, are the highest ranks held by the cards
    once the ranks [excl] are set aside. *)
Definition highest_ranks (cards excl ks : list Z) : Prop :=
  StronglySorted Z.gt ks
  /\ (forall k, In k ks -> 0 < count_rank cards k /\ ~ In k excl)
  /\ (forall r, 0 < count_rank cards r -> ~ In r excl -> ~ In r ks ->
                forall k, In k ks -> r < k).

(** ** Auxiliary definitions of the proofs *)

(** The increments of one list of buckets, one index after the other: the
    rank half, or the suit half, of the counting loop. *)
Fixpoint incr_all (counts : list Z) (indices : list Z) : result (list Z) :=
  match indices with
  | [] => Ok counts
  | i :: rest => counts' <- py_incr counts i ;; incr_all counts' rest
  end.

Definition is_some {A : Type} (o : option A) : bool :=
  match o with Some _ => true | None => false end.

Definition with_count (rc : list Z) (k : Z) (l : list Z) : list Z :=
  filter (fun r => cnt rc r =? k) l.

Definition sum_over (f : Z -> Z) (l : list Z) : Z :=
  fold_right (fun r acc => f r + acc) 0 l.

(** The invariant of the simulation loop after [i] iterations. *)
Definition stats_inv (i : Z) (st : stats) : Prop :=
  wins st + ties st + losses st = i
  /\ 0 <= wins st /\ 0 <= ties st /\ 0 <= losses st
  /\ (inject_Z (wins st) <= equity_shares st)%Q
  /\ (equity_shares st <= inject_Z i)%Q.

(** * Theorems *)

(** ** Card notation *)


Lemma rank_lookup_chars (r : ascii) :
  is_some (str_index (upper r) RANKS) = existsb (Ascii.eqb r) rank_chars.
Proof.
  destruct r as [[] [] [] [] [] [] [] []]; reflexivity.
Qed.

Lemma suit_lookup_chars (s : ascii) :
  is_some (str_index (lower s) SUITS) = existsb (Ascii.eqb s) suit_chars.
Proof.
  destruct s as [[] [] [] [] [] [] [] []]; reflexivity.
Qed.

Lemma existsb_ascii_In (c : ascii) (l : list ascii) :
  existsb (Ascii.eqb c) l = true <-> In c l.
Proof.
  rewrite existsb_exists. split.
  - intros [x [Hin Heq]]. apply Ascii.eqb_eq in Heq. now subst.
  - intros Hin. exists c. split; [assumption | apply Ascii.eqb_refl].
Qed.

Lemma card_str_to_int_cases (t : string) :
  (accepted_token t /\ succeeds (card_str_to_int t))
  \/ (~ accepted_token t /\ card_str_to_int t = Err ValueError).
Proof.
  unfold accepted_token, card_str_to_int, succeeds.
  destruct (strip t) as [|c0 [|c1 [|c2 rest]]];
    cbn [String.length Nat.eqb negb].
  - right. split; [intros (r & s & H & _); discriminate H | reflexivity].
  - right. split; [intros (r & s & H & _); discriminate H | reflexivity].
  - pose proof (rank_lookup_chars c0) as Hr.
    pose proof (suit_lookup_chars c1) as Hs.
    destruct (str_index (upper c0) RANKS) as [ri|];
      destruct (str_index (lower c1) SUITS) as [si|];
      cbn [is_some] in Hr, Hs; symmetry in Hr, Hs.
    + left. split.
      * exists c0, c1. repeat split; apply existsb_ascii_In; assumption.
      * eexists; reflexivity.
    + right. split; [|reflexivity].
      intros (r & s & H & _ & Hin). injection H as -> ->.
      apply existsb_ascii_In in Hin. congruence.
    + right. split; [|reflexivity].
      intros (r & s & H & Hin & _). injection H as -> ->.
      apply existsb_ascii_In in Hin. congruence.
    + right. split; [|reflexivity].
      intros (r & s & H & Hin & _). injection H as -> ->.
      apply existsb_ascii_In in Hin. congruence.
  - right. split; [intros (r & s & H & _); discriminate H | reflexivity].
Qed.

(** C7, as the code has it: [card_str_to_int] succeeds exactly on the tokens
    that, once the surrounding white space is stripped, are two characters,
    a rank character of 23456789TJQKA in either case and a suit character
    of cdhs in either case; on every other token it raises [ValueError]. *)
Theorem card_str_to_int_accepts (t : string) :
  (succeeds (card_str_to_int t) <-> accepted_token t)
  /\ (~ accepted_token t -> card_str_to_int t = Err ValueError).
Proof.
  destruct (card_str_to_int_cases t) as [[Ha Hs] | [Hn He]].
  - split; [split; intros _; assumption | intros Hn; contradiction].
  - split; [|intros _; assumption].
    split; [|intros Ha; contradiction].
    intros [c Hc]. rewrite He in Hc. discriminate Hc.
Qed.

(** Witness of C7: the token " AS " is accepted and parses. *)
Lemma card_str_to_int_accepts_witness :
  accepted_token " AS " /\ succeeds (card_str_to_int " AS ").
Proof.
  assert (Ha : accepted_token " AS ").
  { exists "A"%char, "S"%char. repeat split; simpl; tauto. }
  split; [exact Ha|].
  exact (proj2 (proj1 (card_str_to_int_accepts " AS ")) Ha).
Defined.

(** C7 as the specification words it fails: the token "AS", whose suit
    letter is uppercase, is not one of the tokens of the notation and
    parses, to the ace of spades; so does " As", which has three
    characters. *)
Lemma uppercase_suit_parses :
  card_str_to_int "AS" = Ok 51 /\ ~ well_formed_token "AS"
  /\ card_str_to_int " As" = Ok 51 /\ ~ well_formed_token " As".
Proof.
  split; [reflexivity|]. split; [|split; [reflexivity|]].
  - intros (r & s & Heq & _ & Hin). injection Heq as _ <-.
    simpl in Hin. repeat destruct Hin as [Hin | Hin]; try discriminate Hin.
    exact Hin.
  - intros (r & s & Heq & _). discriminate Heq.
Qed.

(** C9: on every well-formed token, [format_cards] of the one parsed card
    is the canonical form of the token. *)
Theorem format_parse_roundtrip (t : string) :
  well_formed_token t ->
  exists c, card_str_to_int t = Ok c /\ format_cards [c] = Ok (canonical t).
Proof.
  intros (r & s & -> & Hr & Hs).
  simpl in Hr, Hs.
  repeat destruct Hr as [Hr | Hr]; try contradiction; subst r;
    repeat destruct Hs as [Hs | Hs]; try contradiction; subst s;
    eexists; split; reflexivity.
Qed.

(** Witness of C9: the token "tc". *)
Lemma format_parse_roundtrip_witness :
  exists c, card_str_to_int "tc" = Ok c /\ format_cards [c] = Ok "Tc"%string.
Proof.
  apply (format_parse_roundtrip "tc").
  exists "t"%char, "c"%char. repeat split; simpl; tauto.
Defined.

(** ** Python sequences *)

Lemma py_getitem_ok {A : Type} (l : list A) (i : Z) :
  0 <= i < len l ->
  exists a, py_getitem l i = Ok a /\ nth_error l (Z.to_nat i) = Some a.
Proof.
  intros Hi. unfold py_getitem, len in *.
  destruct (Z.ltb_spec i 0); [lia|].
  destruct (Z.leb_spec 0 i); [|lia].
  destruct (Z.ltb_spec i (Z.of_nat (List.length l))); [|lia].
  cbn [andb].
  destruct (nth_error l (Z.to_nat i)) as [a|] eqn:Hn.
  - exists a. split; reflexivity.
  - apply nth_error_None in Hn. lia.
Qed.

Lemma py_max_ok (l : list Z) :
  (0 < len l) -> succeeds (py_max l).
Proof.
  destruct l as [|x t]; unfold len; simpl; intros H; [lia|].
  eexists; reflexivity.
Qed.

Lemma length_set_nth {A : Type} (l : list A) (n : nat) (a : A) :
  List.length (set_nth l n a) = List.length l.
Proof.
  revert n. induction l as [|x t IH]; intros [|n]; simpl; auto.
Qed.

Lemma nth_set_nth {A : Type} (l : list A) (i j : nat) (a d : A) :
  (i < List.length l)%nat ->
  nth j (set_nth l i a) d = if (j =? i)%nat then a else nth j l d.
Proof.
  revert i j. induction l as [|x t IH]; intros i j Hi; simpl in Hi; [lia|].
  destruct i as [|i], j as [|j]; simpl; auto.
  apply IH. lia.
Qed.

Lemma py_incr_spec (l : list Z) (i : Z) :
  0 <= i < len l ->
  exists l', py_incr l i = Ok l'
    /\ List.length l' = List.length l
    /\ forall r, 0 <= r -> cnt l' r = cnt l r + (if r =? i then 1 else 0).
Proof.
  intros Hi. unfold py_incr, len in *.
  destruct (Z.ltb_spec i 0); [lia|].
  destruct (Z.leb_spec 0 i); [|lia].
  destruct (Z.ltb_spec i (Z.of_nat (List.length l))); [|lia].
  cbn [andb]. eexists. split; [reflexivity|]. split.
  - apply length_set_nth.
  - intros r Hr. unfold cnt. rewrite nth_set_nth by lia.
    destruct (Z.eqb_spec r i) as [->|Hne].
    + rewrite Nat.eqb_refl. reflexivity.
    + destruct (Nat.eqb_spec (Z.to_nat r) (Z.to_nat i)); [lia|lia].
Qed.

(** ** Counting the cards *)

Lemma int_to_rank_range (c : Z) : 2 <= int_to_rank c <= 14.
Proof.
  unfold int_to_rank. pose proof (Z.mod_pos_bound c 13). lia.
Qed.

Lemma int_to_suit_range (c : Z) : valid_card c -> 0 <= int_to_suit c <= 3.
Proof.
  unfold valid_card, int_to_suit. intros H.
  split; [apply Z.div_pos; lia|].
  assert (c / 13 < 4) by (apply Z.div_lt_upper_bound; lia). lia.
Qed.

Lemma card_of_rank_suit (c : Z) :
  c = 13 * int_to_suit c + (int_to_rank c - 2).
Proof.
  unfold int_to_suit, int_to_rank. pose proof (Z.div_mod c 13). lia.
Qed.

Lemma count_rank_cons (c : Z) (cs : list Z) (r : Z) :
  count_rank (c :: cs) r
  = count_rank cs r + (if r =? int_to_rank c then 1 else 0).
Proof.
  unfold count_rank, len. simpl. rewrite (Z.eqb_sym r).
  destruct (int_to_rank c =? r); simpl List.length; lia.
Qed.

Lemma count_suit_cons (c : Z) (cs : list Z) (s : Z) :
  count_suit (c :: cs) s
  = count_suit cs s + (if s =? int_to_suit c then 1 else 0).
Proof.
  unfold count_suit, len. simpl. rewrite (Z.eqb_sym s).
  destruct (int_to_suit c =? s); simpl List.length; lia.
Qed.

(** The counting loop keeps the fifteen rank buckets and the four suit
    buckets, so the reads [cnt] of [evaluate_7] are inside the lists. *)
Lemma count_cards_length (cards : list Z) :
  forall rc sc rc' sc',
    count_cards cards rc sc = Ok (rc', sc') ->
    List.length rc' = List.length rc /\ List.length sc' = List.length sc.
Proof.
  induction cards as [|c cs IH]; intros rc sc rc' sc'; cbn [count_cards].
  - intros [= <- <-]. split; reflexivity.
  - unfold py_incr at 1.
    destruct (_ && _); [|discriminate]. cbn [bind].
    unfold py_incr at 1.
    destruct (_ && _); [|discriminate]. cbn [bind].
    intros H. apply IH in H. rewrite !length_set_nth in H. exact H.
Qed.

Lemma count_cards_spec (cards : list Z) :
  Forall valid_card cards ->
  forall rc sc,
    List.length rc = 15%nat -> List.length sc = 4%nat ->
    exists rc' sc',
      count_cards cards rc sc = Ok (rc', sc')
      /\ List.length rc' = 15%nat /\ List.length sc' = 4%nat
      /\ (forall r, 0 <= r -> cnt rc' r = cnt rc r + count_rank cards r)
      /\ (forall s, 0 <= s -> cnt sc' s = cnt sc s + count_suit cards s).
Proof.
  induction 1 as [|c cs Hc Hcs IH]; intros rc sc Hrc Hsc.
  - exists rc, sc. repeat split; auto; intros; unfold count_rank, count_suit, len;
      simpl; lia.
  - cbn [count_cards].
    destruct (py_incr_spec rc (int_to_rank c)) as (rc1 & E1 & L1 & C1).
    { pose proof (int_to_rank_range c). unfold len. lia. }
    destruct (py_incr_spec sc (int_to_suit c)) as (sc1 & E2 & L2 & C2).
    { pose proof (int_to_suit_range c Hc). unfold len. lia. }
    rewrite E1, E2. cbn [bind].
    destruct (IH rc1 sc1) as (rc' & sc' & E & Lr & Ls & Cr & Cs);
      [congruence | congruence |].
    exists rc', sc'. repeat split; auto.
    + intros r Hr. rewrite Cr, C1, count_rank_cons by assumption. lia.
    + intros s Hs. rewrite Cs, C2, count_suit_cons by assumption. lia.
Qed.

Lemma cnt_repeat_0 (n : nat) (r : Z) : cnt (repeat 0 n) r = 0.
Proof.
  unfold cnt. generalize (Z.to_nat r) as k.
  induction n as [|n IH]; intros [|k]; simpl; auto.
Qed.

(** The counting loop of [evaluate_7] on cards of the deck. *)
Lemma count_cards_valid (cards : list Z) :
  Forall valid_card cards ->
  exists rc sc,
    count_cards cards (repeat 0 15%nat) (repeat 0 4%nat) = Ok (rc, sc)
    /\ (forall r, 0 <= r -> cnt rc r = count_rank cards r)
    /\ (forall s, 0 <= s -> cnt sc s = count_suit cards s).
Proof.
  intros Hv.
  destruct (count_cards_spec cards Hv (repeat 0 15%nat) (repeat 0 4%nat))
    as (rc & sc & E & _ & _ & Cr & Cs); try reflexivity.
  exists rc, sc. split; [exact E|]. split.
  - intros r Hr. rewrite Cr, cnt_repeat_0 by assumption. lia.
  - intros s Hs. rewrite Cs, cnt_repeat_0 by assumption. lia.
Qed.

(** ** Ranks by multiplicity *)


Lemma classify_fold (rc : list Z) (l : list Z) :
  forall q t p k,
    fold_left (classify_step rc) l (q, t, p, k)
    = (q ++ with_count rc 4 l, t ++ with_count rc 3 l,
       p ++ with_count rc 2 l, k ++ with_count rc 1 l).
Proof.
  unfold with_count.
  induction l as [|r l IH]; intros q t p k; cbn [fold_left filter].
  - now rewrite !app_nil_r.
  - unfold classify_step at 2. cbv zeta.
    destruct (Z.eqb_spec (cnt rc r) 4) as [E4|N4].
    { rewrite E4. cbn [Z.eqb Pos.eqb]. rewrite IH. now rewrite <- app_assoc. }
    destruct (Z.eqb_spec (cnt rc r) 3) as [E3|N3].
    { rewrite E3. cbn [Z.eqb Pos.eqb]. rewrite IH. now rewrite <- app_assoc. }
    destruct (Z.eqb_spec (cnt rc r) 2) as [E2|N2].
    { rewrite E2. cbn [Z.eqb Pos.eqb]. rewrite IH. now rewrite <- app_assoc. }
    destruct (Z.eqb_spec (cnt rc r) 1) as [E1|N1].
    { rewrite IH. now rewrite <- app_assoc. }
    apply IH.
Qed.

Lemma classify_ranks_filters (rc : list Z) :
  classify_ranks rc
  = (with_count rc 4 ranks_desc, with_count rc 3 ranks_desc,
     with_count rc 2 ranks_desc, with_count rc 1 ranks_desc).
Proof.
  unfold classify_ranks. now rewrite classify_fold.
Qed.


Lemma sum_over_plus (f g : Z -> Z) (l : list Z) :
  sum_over (fun r => f r + g r) l = sum_over f l + sum_over g l.
Proof.
  induction l as [|r l IH]; simpl; lia.
Qed.

Lemma sum_over_ext (f g : Z -> Z) (l : list Z) :
  (forall r, f r = g r) -> sum_over f l = sum_over g l.
Proof.
  intros H. induction l as [|r l IH]; simpl; [reflexivity|].
  now rewrite H, IH.
Qed.

Lemma rank_in_ranks_desc (c : Z) : In (int_to_rank c) ranks_desc.
Proof.
  pose proof (int_to_rank_range c) as H. unfold ranks_desc. simpl.
  lia.
Qed.

Lemma sum_over_indicator (x : Z) :
  In x ranks_desc -> sum_over (fun r => if r =? x then 1 else 0) ranks_desc = 1.
Proof.
  unfold ranks_desc. simpl.
  intros H. repeat destruct H as [H | H]; try contradiction; subst x;
    reflexivity.
Qed.

(** Every card has one of the thirteen ranks. *)
Lemma sum_count_rank (cards : list Z) :
  sum_over (count_rank cards) ranks_desc = len cards.
Proof.
  induction cards as [|c cs IH].
  - reflexivity.
  - rewrite (sum_over_ext _ _ _ (count_rank_cons c cs)).
    rewrite sum_over_plus, IH, sum_over_indicator
      by apply rank_in_ranks_desc.
    unfold len. simpl List.length. lia.
Qed.

(** A deck holds four cards of each rank. *)
Lemma count_rank_le_4 (cards : list Z) (r : Z) :
  NoDup cards -> Forall valid_card cards -> count_rank cards r <= 4.
Proof.
  intros Hnd Hv. unfold count_rank, len.
  set (F := filter (fun c => int_to_rank c =? r) cards).
  set (four := [r - 2; r + 11; r + 24; r + 37]).
  assert (Hlen : (List.length F <= List.length four)%nat).
  { apply NoDup_incl_length.
    - apply NoDup_filter. exact Hnd.
    - intros c Hc. apply filter_In in Hc. destruct Hc as [Hin Hr].
      apply Z.eqb_eq in Hr.
      rewrite Forall_forall in Hv. specialize (Hv c Hin).
      pose proof (int_to_suit_range c Hv).
      pose proof (card_of_rank_suit c). simpl. lia. }
  simpl in Hlen. lia.
Qed.

Lemma count_rank_nonneg (cards : list Z) (r : Z) : 0 <= count_rank cards r.
Proof. unfold count_rank, len. lia. Qed.

(** The cards split by the multiplicity of their rank. *)
Lemma multiplicity_split (f : Z -> Z) (l : list Z) :
  (forall r, In r l -> 0 <= f r <= 4) ->
  sum_over f l
  = 4 * len (filter (fun r => f r =? 4) l)
    + 3 * len (filter (fun r => f r =? 3) l)
    + 2 * len (filter (fun r => f r =? 2) l)
    + len (filter (fun r => f r =? 1) l)
  /\ len (filter (fun r => 0 <? f r) l)
     = len (filter (fun r => f r =? 4) l)
       + len (filter (fun r => f r =? 3) l)
       + len (filter (fun r => f r =? 2) l)
       + len (filter (fun r => f r =? 1) l).
Proof.
  unfold len.
  induction l as [|r l IH]; intros H; [split; reflexivity|].
  destruct IH as [IH1 IH2]; [intros x Hx; apply H; now right|].
  assert (Hr : 0 <= f r <= 4) by (apply H; now left).
  cbn [sum_over fold_right filter]. fold (sum_over f l).
  assert (Hc : f r = 0 \/ f r = 1 \/ f r = 2 \/ f r = 3 \/ f r = 4) by lia.
  destruct Hc as [E | [E | [E | [E | E]]]]; rewrite E;
    cbn [Z.eqb Z.ltb Z.compare Pos.eqb Pos.compare Pos.compare_cont];
    cbn [List.length]; lia.
Qed.

(** ** Filters of a list without repetition *)

Lemma filter_partition_length {A : Type} (g : A -> bool) (l : list A) :
  len (filter g l) + len (filter (fun x => negb (g x)) l) = len l.
Proof.
  unfold len. induction l as [|a l IH]; [reflexivity|].
  cbn [filter]. destruct (g a); cbn [negb List.length]; lia.
Qed.

(** Dropping the elements of [ex] from a list without repetition shortens it
    by the length of [ex] at most. *)
Lemma filter_drop_length (g : Z -> bool) (l ex : list Z) :
  NoDup l ->
  (forall r, In r l -> g r = false -> In r ex) ->
  len l <= len (filter g l) + len ex.
Proof.
  intros Hnd Hex.
  pose proof (filter_partition_length g l) as Hp.
  assert (Hle : (List.length (filter (fun x => negb (g x)) l)
                 <= List.length ex)%nat).
  { apply NoDup_incl_length; [now apply NoDup_filter|].
    intros r Hr. apply filter_In in Hr. destruct Hr as [Hin Hg].
    apply Hex; [assumption|]. now destruct (g r). }
  unfold len in *. lia.
Qed.

Lemma drop_one_length (x : Z) (l : list Z) :
  NoDup l -> len l <= len (filter (fun r => negb (r =? x)) l) + 1.
Proof.
  intros Hnd. apply (filter_drop_length _ l [x] Hnd).
  intros r _ Hg. left. apply negb_false_iff, Z.eqb_eq in Hg. now subst.
Qed.

Lemma drop_two_length (x y : Z) (l : list Z) :
  NoDup l ->
  len l <= len (filter (fun r => negb (r =? x) && negb (r =? y)) l) + 2.
Proof.
  intros Hnd. apply (filter_drop_length _ l [x; y] Hnd).
  intros r _ Hg. apply andb_false_iff in Hg. simpl.
  destruct Hg as [Hg | Hg]; apply negb_false_iff, Z.eqb_eq in Hg; auto.
Qed.

Lemma ranks_desc_NoDup : NoDup ranks_desc.
Proof.
  unfold ranks_desc. repeat constructor; simpl; lia.
Qed.

Lemma nonempty_len {A : Type} (l : list A) : nonempty l = (0 <? len l).
Proof. destruct l; reflexivity. Qed.

Lemma sum_over_ext_in (f g : Z -> Z) (l : list Z) :
  (forall r, In r l -> f r = g r) -> sum_over f l = sum_over g l.
Proof.
  induction l as [|r l IH]; intros H; simpl; [reflexivity|].
  rewrite H by now left. rewrite IH; [reflexivity|].
  intros x Hx. apply H. now right.
Qed.

Lemma ranks_desc_nonneg (r : Z) : In r ranks_desc -> 0 <= r.
Proof. unfold ranks_desc. simpl. lia. Qed.

(** ** The flush suit *)

Lemma first_flush_spec (sc : list Z) (suits : list Z) :
  first_flush suits sc <> -1 ->
  In (first_flush suits sc) suits /\ 5 <= cnt sc (first_flush suits sc).
Proof.
  induction suits as [|s rest IH]; cbn [first_flush]; intros H.
  - contradiction.
  - destruct (Z.leb_spec 5 (cnt sc s)).
    + split; [now left | assumption].
    + destruct (IH H) as [Hin Hc]. split; [now right | assumption].
Qed.

Lemma length_insert_desc (x : Z) (l : list Z) :
  List.length (insert_desc x l) = S (List.length l).
Proof.
  induction l as [|y t IH]; simpl; [reflexivity|].
  destruct (y <=? x); simpl; [reflexivity | now rewrite IH].
Qed.

Lemma length_sorted_desc (l : list Z) :
  List.length (sorted_desc l) = List.length l.
Proof.
  induction l as [|x t IH]; simpl; [reflexivity|].
  now rewrite length_insert_desc, IH.
Qed.

Lemma length_flush_ranks (cards : list Z) (s : Z) :
  len (flush_ranks_of cards s) = count_suit cards s.
Proof.
  unfold flush_ranks_of, count_suit, len. now rewrite length_map.
Qed.

(** ** The evaluator on seven cards of the deck *)

Lemma hand7_counts (cards : list Z) :
  hand7 cards ->
  exists rc sc,
    count_cards cards (repeat 0 15%nat) (repeat 0 4%nat) = Ok (rc, sc)
    /\ (forall r, 0 <= r -> cnt rc r = count_rank cards r)
    /\ (forall s, 0 <= s -> cnt sc s = count_suit cards s)
    /\ 7 = 4 * len (with_count rc 4 ranks_desc)
           + 3 * len (with_count rc 3 ranks_desc)
           + 2 * len (with_count rc 2 ranks_desc)
           + len (with_count rc 1 ranks_desc)
    /\ len (filter (fun r => 0 <? cnt rc r) ranks_desc)
       = len (with_count rc 4 ranks_desc) + len (with_count rc 3 ranks_desc)
         + len (with_count rc 2 ranks_desc) + len (with_count rc 1 ranks_desc).
Proof.
  intros (Hlen & Hnd & Hv).
  destruct (count_cards_valid cards Hv) as (rc & sc & E & Cr & Cs).
  exists rc, sc. split; [exact E|]. split; [exact Cr|]. split; [exact Cs|].
  destruct (multiplicity_split (cnt rc) ranks_desc) as [H1 H2].
  { intros r Hr. rewrite Cr by now apply ranks_desc_nonneg.
    pose proof (count_rank_nonneg cards r).
    pose proof (count_rank_le_4 cards r Hnd Hv). lia. }
  split; [|exact H2].
  unfold with_count. rewrite <- H1.
  rewrite (sum_over_ext_in (cnt rc) (count_rank cards)).
  - rewrite sum_count_rank. unfold len. lia.
  - intros r Hr. apply Cr. now apply ranks_desc_nonneg.
Qed.

Ltac getitem l i a :=
  let H := fresh "Hget" in
  destruct (py_getitem_ok l i) as (a & H & _);
  [ lia | rewrite H; cbn [bind] ].

Ltac getmax l m :=
  let H := fresh "Hmax" in
  destruct (py_max_ok l) as (m & H);
  [ lia | rewrite H; cbn [bind] ].

Ltac finish_shape :=
  do 2 eexists; split; [reflexivity | split; [lia | reflexivity]].

Lemma evaluate_7_shape (cards : list Z) :
  hand7 cards ->
  exists category tiebreak,
    evaluate_7 cards = Ok (category, tiebreak)
    /\ 0 <= category <= 8
    /\ List.length tiebreak = tiebreak_len category.
Proof.
  intros H7.
  destruct (hand7_counts cards H7) as (rc & sc & E & Cr & Cs & Hsum & Hu).
  unfold evaluate_7. rewrite E. cbn [bind]. cbv zeta.
  rewrite classify_ranks_filters.
  set (Q := with_count rc 4 ranks_desc) in *.
  set (T := with_count rc 3 ranks_desc) in *.
  set (P := with_count rc 2 ranks_desc) in *.
  set (K := with_count rc 1 ranks_desc) in *.
  set (U := filter (fun r => 0 <? cnt rc r) ranks_desc) in *.
  assert (HU : NoDup U) by (apply NoDup_filter, ranks_desc_NoDup).
  assert (HQ : 0 <= len Q) by (unfold len; lia).
  assert (HT : 0 <= len T) by (unfold len; lia).
  assert (HP : 0 <= len P) by (unfold len; lia).
  assert (HK : 0 <= len K) by (unfold len; lia).
  assert (Hflush : find_flush_suit sc <> -1 ->
            List.length (firstn 5 (sorted_desc
              (flush_ranks_of cards (find_flush_suit sc)))) = 5%nat).
  { intros Hf. destruct (first_flush_spec sc range_4 Hf) as [Hin H5].
    fold (find_flush_suit sc) in Hin, H5.
    assert (0 <= find_flush_suit sc) by (unfold range_4 in Hin; simpl in Hin; lia).
    rewrite Cs in H5 by assumption.
    rewrite <- length_flush_ranks in H5. unfold len in H5.
    rewrite length_firstn, length_sorted_desc. lia. }
  rewrite !nonempty_len.
  match goal with
  | |- context [if negb (?x =? 0) then Ok (8, _) else _] =>
      destruct (negb (x =? 0))
  end.
  { finish_shape. }
  destruct (Z.ltb_spec 0 (len Q)).
  { (* four of a kind *)
    getitem Q 0 quad_rank.
    pose proof (drop_one_length quad_rank U HU).
    getmax (filter (fun r => negb (r =? quad_rank)) U) kicker.
    finish_shape. }
  destruct (Z.ltb_spec 0 (len T)); cbn [andb].
  - destruct (Z.ltb_spec 0 (len P)); cbn [orb].
    { (* full house, with a pair *)
      getitem T 0 trip_rank.
      destruct (Z.leb_spec 2 (len T)).
      - getitem T 1 pair_rank. finish_shape.
      - getitem P 0 pair_rank. finish_shape. }
    destruct (Z.leb_spec 2 (len T)).
    { (* full house, two trips *)
      getitem T 0 trip_rank. getitem T 1 pair_rank. finish_shape. }
    destruct (Z.eqb_spec (find_flush_suit sc) (-1)) as [Hf|Hf]; cbn [negb].
    2: { (* flush *)
      do 2 eexists. split; [reflexivity|]. split; [lia|]. now apply Hflush. }
    match goal with
    | |- context [if negb (?x =? 0) then Ok (4, _) else _] =>
        destruct (negb (x =? 0))
    end.
    { finish_shape. }
    (* three of a kind *)
    getitem T 0 trip_rank.
    pose proof (drop_one_length trip_rank U HU).
    getitem (filter (fun r => negb (r =? trip_rank)) U) 0 k1.
    getitem (filter (fun r => negb (r =? trip_rank)) U) 1 k2.
    finish_shape.
  - destruct (Z.eqb_spec (find_flush_suit sc) (-1)) as [Hf|Hf]; cbn [negb].
    2: { (* flush *)
      do 2 eexists. split; [reflexivity|]. split; [lia|]. now apply Hflush. }
    match goal with
    | |- context [if negb (?x =? 0) then Ok (4, _) else _] =>
        destruct (negb (x =? 0))
    end.
    { finish_shape. }
    destruct (Z.leb_spec 2 (len P)).
    { (* two pair *)
      getitem P 0 p1. getitem P 1 p2.
      pose proof (drop_two_length p1 p2 U HU).
      getmax (filter (fun r => negb (r =? p1) && negb (r =? p2)) U) kicker.
      finish_shape. }
    destruct (Z.eqb_spec (len P) 1).
    { (* one pair *)
      getitem P 0 p.
      pose proof (drop_one_length p U HU).
      getitem (filter (fun r => negb (r =? p)) U) 0 k1.
      getitem (filter (fun r => negb (r =? p)) U) 1 k2.
      getitem (filter (fun r => negb (r =? p)) U) 2 k3.
      finish_shape. }
    (* high card *)
    do 2 eexists. split; [reflexivity|]. split; [lia|].
    rewrite length_firstn. unfold len in *. cbn [tiebreak_len]. lia.
Qed.

(** ** Full houses *)

Lemma count_rank_pos (cards : list Z) (c : Z) :
  In c cards -> 0 < count_rank cards (int_to_rank c).
Proof.
  intros Hin. unfold count_rank, len.
  assert (H : In c (filter (fun c' => int_to_rank c' =? int_to_rank c) cards)).
  { apply filter_In. split; [assumption | apply Z.eqb_refl]. }
  destruct (filter _ cards); [contradiction | simpl List.length; lia].
Qed.

Lemma count_rank_pos_in (cards : list Z) (r : Z) :
  0 < count_rank cards r -> In r ranks_desc.
Proof.
  unfold count_rank, len. intros H.
  destruct (filter (fun c => int_to_rank c =? r) cards) as [|c l] eqn:E;
    [simpl in H; lia|].
  assert (Hin : In c (filter (fun c => int_to_rank c =? r) cards))
    by (rewrite E; now left).
  apply filter_In in Hin. destruct Hin as [_ Hr]. apply Z.eqb_eq in Hr.
  subst r. apply rank_in_ranks_desc.
Qed.

(** Five cards of one suit have five different ranks. *)
Lemma flush_needs_five_ranks (cards rc sc : list Z) :
  NoDup cards ->
  (forall r, 0 <= r -> cnt rc r = count_rank cards r) ->
  (forall s, 0 <= s -> cnt sc s = count_suit cards s) ->
  find_flush_suit sc <> -1 ->
  5 <= len (filter (fun r => 0 <? cnt rc r) ranks_desc).
Proof.
  intros Hnd Cr Cs Hf.
  destruct (first_flush_spec sc range_4 Hf) as [Hin H5].
  fold (find_flush_suit sc) in Hin, H5.
  set (s := find_flush_suit sc) in *.
  assert (Hs : 0 <= s) by (unfold range_4 in Hin; simpl in Hin; lia).
  rewrite Cs in H5 by assumption.
  rewrite <- length_flush_ranks in H5.
  set (U := filter (fun r => 0 <? cnt rc r) ranks_desc).
  assert (Hle : (List.length (flush_ranks_of cards s) <= List.length U)%nat).
  { apply NoDup_incl_length.
    - unfold flush_ranks_of. apply NoDup_map_NoDup_ForallPairs.
      + intros x y Hx Hy Hxy.
        apply filter_In in Hx, Hy.
        destruct Hx as [_ Hx], Hy as [_ Hy].
        apply Z.eqb_eq in Hx, Hy.
        rewrite (card_of_rank_suit x), (card_of_rank_suit y). lia.
      + now apply NoDup_filter.
    - intros r Hr. unfold flush_ranks_of in Hr.
      apply in_map_iff in Hr. destruct Hr as (c & <- & Hc).
      apply filter_In in Hc. destruct Hc as [Hc _].
      apply filter_In. split; [apply rank_in_ranks_desc|].
      pose proof (int_to_rank_range c).
      rewrite Cr by lia. apply Z.ltb_lt. now apply count_rank_pos. }
  unfold len in *. lia.
Qed.

Lemma ranks_desc_sorted : StronglySorted Z.gt ranks_desc.
Proof.
  unfold ranks_desc. repeat constructor; lia.
Qed.

Lemma StronglySorted_filter (g : Z -> bool) (l : list Z) :
  StronglySorted Z.gt l -> StronglySorted Z.gt (filter g l).
Proof.
  induction 1 as [|a l Hs IH Ha]; cbn [filter]; [constructor|].
  destruct (g a); [|assumption].
  constructor; [assumption|].
  rewrite Forall_forall in *. intros x Hx. apply filter_In in Hx.
  apply Ha. tauto.
Qed.

(** A descending list is led by its greatest element. *)
Lemma sorted_desc_head (l : list Z) (p : Z) :
  StronglySorted Z.gt l -> In p l -> (forall r, In r l -> r <= p) ->
  exists tl, l = p :: tl.
Proof.
  intros Hs Hin Hmax. destruct l as [|a tl]; [contradiction|].
  exists tl. f_equal.
  inversion Hs as [|? ? _ Ha]; subst.
  destruct Hin as [-> | Hin]; [reflexivity|].
  rewrite Forall_forall in Ha. specialize (Ha p Hin).
  specialize (Hmax a (or_introl eq_refl)). lia.
Qed.

Lemma sorted_desc_singleton (l : list Z) (t : Z) :
  In t l -> len l <= 1 -> l = [t].
Proof.
  destruct l as [|a [|b tl]]; unfold len; cbn [List.length]; intros Hin Hl.
  - contradiction.
  - destruct Hin as [-> | []]. reflexivity.
  - lia.
Qed.

Lemma sorted_desc_pair (l : list Z) (t1 t2 : Z) :
  StronglySorted Z.gt l -> In t1 l -> In t2 l -> t2 < t1 -> len l <= 2 ->
  l = [t1; t2].
Proof.
  intros Hs H1 H2 Hlt Hl.
  destruct l as [|a [|b [|c tl]]]; unfold len in Hl; cbn [List.length] in Hl;
    try lia; simpl in H1, H2.
  - contradiction.
  - lia.
  - inversion Hs as [|? ? _ Ha]; subst.
    inversion Ha as [|? ? Hab _]; subst.
    assert (a = t1 /\ b = t2) as [-> ->] by lia. reflexivity.
Qed.

Lemma len_0_nil {A : Type} (l : list A) : len l = 0 -> l = [].
Proof. destruct l; unfold len; simpl; [reflexivity | lia]. Qed.

Lemma with_count_In (cards rc : list Z) (k r : Z) :
  (forall r, 0 <= r -> cnt rc r = count_rank cards r) ->
  0 < k -> count_rank cards r = k -> In r (with_count rc k ranks_desc).
Proof.
  intros Cr Hk Hr. unfold with_count. apply filter_In.
  assert (Hin : In r ranks_desc) by (apply (count_rank_pos_in cards); lia).
  split; [assumption|].
  rewrite Cr by now apply ranks_desc_nonneg. now apply Z.eqb_eq.
Qed.

Lemma with_count_sorted (rc : list Z) (k : Z) :
  StronglySorted Z.gt (with_count rc k ranks_desc).
Proof. apply StronglySorted_filter, ranks_desc_sorted. Qed.



(** C2: seven cards of the deck with two ranks held three times evaluate to
    a full house, category 6, of the higher of the two ranks over the lower;
    Ah Ad Ac Kh Kd Kc 2d evaluates to (6, (14, 13)); and seven cards with a
    rank held three times and at least one rank held twice evaluate to
    category 6 of the trip rank over the highest pair rank. No four of a
    kind and no straight flush can come with either pattern. *)
Theorem full_house_evaluation :
  (forall cards t1 t2,
      hand7 cards ->
      count_rank cards t1 = 3 -> count_rank cards t2 = 3 -> t2 < t1 ->
      evaluate_7 cards = Ok (6, [t1; t2]))
  /\ (cs <- parse_tokens ["Ah"; "Ad"; "Ac"; "Kh"; "Kd"; "Kc"; "2d"]%string ;;
      evaluate_7 cs) = Ok (6, [14; 13])
  /\ (forall cards t p,
         hand7 cards ->
         count_rank cards t = 3 -> count_rank cards p = 2 ->
         (forall r, count_rank cards r = 2 -> r <= p) ->
         evaluate_7 cards = Ok (6, [t; p])).
Proof.
  split; [|split; [reflexivity|]].
  { intros cards t1 t2.
    intros H7 H1 H2 Hlt.
    destruct (hand7_counts cards H7) as (rc & sc & E & Cr & Cs & Hsum & Hu).
    destruct H7 as (_ & Hnd & _).
    pose proof (flush_needs_five_ranks cards rc sc Hnd Cr Cs) as Hflush.
    pose proof (with_count_In cards rc 3 t1 Cr ltac:(lia) H1) as Hin1.
    pose proof (with_count_In cards rc 3 t2 Cr ltac:(lia) H2) as Hin2.
    pose proof (with_count_sorted rc 3) as Hsorted.
    unfold evaluate_7. rewrite E. cbn [bind]. cbv zeta.
    rewrite classify_ranks_filters.
    set (Q := with_count rc 4 ranks_desc) in *.
    set (T := with_count rc 3 ranks_desc) in *.
    set (P := with_count rc 2 ranks_desc) in *.
    set (K := with_count rc 1 ranks_desc) in *.
    set (U := filter (fun r => 0 <? cnt rc r) ranks_desc) in *.
    assert (HQ : 0 <= len Q) by (unfold len; lia).
    assert (HP : 0 <= len P) by (unfold len; lia).
    assert (HK : 0 <= len K) by (unfold len; lia).
    assert (HT2 : 2 <= len T).
    { destruct T as [|a [|b tl]]; unfold len; cbn [List.length]; try lia.
      - contradiction.
      - simpl in Hin1, Hin2. lia. }
    assert (HT : T = [t1; t2]) by (apply sorted_desc_pair; auto; lia).
    assert (HQ0 : Q = []) by (apply len_0_nil; lia).
    assert (Hf : find_flush_suit sc = -1).
    { destruct (Z.eq_dec (find_flush_suit sc) (-1)) as [e|n]; [exact e|].
      specialize (Hflush n). lia. }
    assert (HP0 : P = []) by (apply len_0_nil; lia).
    rewrite Hf, HT, HQ0, HP0. reflexivity. }
  intros cards t p.
  intros H7 H1 H2 Hmax.
  destruct (hand7_counts cards H7) as (rc & sc & E & Cr & Cs & Hsum & Hu).
  destruct H7 as (_ & Hnd & _).
  pose proof (flush_needs_five_ranks cards rc sc Hnd Cr Cs) as Hflush.
  pose proof (with_count_In cards rc 3 t Cr ltac:(lia) H1) as Hin1.
  pose proof (with_count_In cards rc 2 p Cr ltac:(lia) H2) as Hin2.
  pose proof (with_count_sorted rc 2) as Hsorted.
  assert (Hhead : exists tl, with_count rc 2 ranks_desc = p :: tl).
  { apply sorted_desc_head; auto.
    intros r Hr. apply Hmax. unfold with_count in Hr.
    apply filter_In in Hr. destruct Hr as [Hr Hc].
    apply Z.eqb_eq in Hc. rewrite <- Cr by now apply ranks_desc_nonneg.
    exact Hc. }
  destruct Hhead as [tl HP].
  unfold evaluate_7. rewrite E. cbn [bind]. cbv zeta.
  rewrite classify_ranks_filters.
  set (Q := with_count rc 4 ranks_desc) in *.
  set (T := with_count rc 3 ranks_desc) in *.
  set (P := with_count rc 2 ranks_desc) in *.
  set (K := with_count rc 1 ranks_desc) in *.
  set (U := filter (fun r => 0 <? cnt rc r) ranks_desc) in *.
  assert (HQ : 0 <= len Q) by (unfold len; lia).
  assert (HK : 0 <= len K) by (unfold len; lia).
  assert (HP1 : 1 <= len P) by (rewrite HP; unfold len; cbn [List.length]; lia).
  assert (HT1 : 1 <= len T).
  { destruct T; [contradiction | unfold len; cbn [List.length]; lia]. }
  assert (HT : T = [t]) by (apply sorted_desc_singleton; auto; lia).
  assert (HQ0 : Q = []) by (apply len_0_nil; lia).
  assert (Hf : find_flush_suit sc = -1).
  { destruct (Z.eq_dec (find_flush_suit sc) (-1)) as [e|n]; [exact e|].
    specialize (Hflush n). lia. }
  rewrite Hf, HT, HQ0, HP. reflexivity.
Qed.

Lemma hand7_intro (cards : list Z) :
  List.length cards = 7%nat ->
  NoDup cards ->
  forallb (fun c => (0 <=? c) && (c <? 52)) cards = true ->
  hand7 cards.
Proof.
  intros Hl Hn Hv. repeat split; auto.
  rewrite forallb_forall in Hv. apply Forall_forall. intros c Hc.
  specialize (Hv c Hc). unfold valid_card. lia.
Qed.

Ltac nodup_Z := repeat constructor; simpl; lia.

(** Witness of C2: Ah Ad Ac Kh Kd Kc 2d, and Ah Ad Ac Kh Kd 2c 3d with its
    pair of kings. *)
Lemma full_house_evaluation_witness :
  evaluate_7 [38; 25; 12; 37; 24; 11; 13] = Ok (6, [14; 13])
  /\ evaluate_7 [38; 25; 12; 37; 24; 0; 14] = Ok (6, [14; 13]).
Proof.
  split.
  - apply (proj1 full_house_evaluation [38; 25; 12; 37; 24; 11; 13] 14 13).
    + apply hand7_intro; [reflexivity | nodup_Z | reflexivity].
    + reflexivity.
    + reflexivity.
    + lia.
  - apply (proj2 (proj2 full_house_evaluation)
             [38; 25; 12; 37; 24; 0; 14] 14 13).
    + apply hand7_intro; [reflexivity | nodup_Z | reflexivity].
    + reflexivity.
    + reflexivity.
    + intros r Hr.
      destruct (Z.le_gt_cases r 13) as [Hle | Hgt]; [exact Hle|]. exfalso.
      destruct (Z.eq_dec r 14) as [-> | Hne]; [discriminate Hr|].
      unfold count_rank in Hr. cbn [filter] in Hr.
      repeat match type of Hr with
             | context [int_to_rank ?c =? r] =>
                 let v := eval vm_compute in (int_to_rank c) in
                 change (int_to_rank c) with v in Hr;
                 destruct (Z.eqb_spec v r); [lia|]
             end.
      discriminate Hr.
Defined.

(** C6: Ac 2c 3c 4c 5c 9h 9d evaluates to category 8 with tiebreak (5,).
    The ace sets bit 1 of the mask of the club ranks, the straight found on
    that mask has high card 5, and without bit 1 the mask holds no
    straight. *)
Theorem steel_wheel_straight_flush :
  parse_tokens ["Ac"; "2c"; "3c"; "4c"; "5c"; "9h"; "9d"]%string
    = Ok [12; 0; 1; 2; 3; 33; 20]
  /\ evaluate_7 [12; 0; 1; 2; 3; 33; 20] = Ok (8, [5])
  /\ Z.testbit (build_flush_mask [12; 0; 1; 2; 3; 33; 20] 0) 1 = true
  /\ straight_high_from_ranks_mask
       (build_flush_mask [12; 0; 1; 2; 3; 33; 20] 0) = 5
  /\ straight_high_from_ranks_mask
       (Z.clearbit (build_flush_mask [12; 0; 1; 2; 3; 33; 20] 0) 1) = 0.
Proof.
  repeat split; reflexivity.
Qed.


(** C10: on seven distinct cards of the deck [evaluate_7] returns: no list
    access is out of range and no maximum is taken of an empty list. The
    category is between 0 and 8 and the tiebreak tuple has the length of
    its category (five ranks for a high card or a flush, four for one pair,
    three for two pair or three of a kind, two for a full house or four of
    a kind, one for a straight or a straight flush). *)
Theorem evaluate_7_total (cards : list Z) :
  List.length cards = 7%nat -> NoDup cards -> Forall valid_card cards ->
  exists category tiebreak,
    evaluate_7 cards = Ok (category, tiebreak)
    /\ 0 <= category <= 8
    /\ List.length tiebreak = tiebreak_len category.
Proof.
  intros Hl Hn Hv. apply evaluate_7_shape. repeat split; assumption.
Qed.

(** Witness of C10: Kh 5d Jc 3s Ah 9c 8d, a high card hand. *)
Lemma evaluate_7_total_witness :
  exists category tiebreak,
    evaluate_7 [37; 16; 9; 40; 38; 7; 19] = Ok (category, tiebreak)
    /\ 0 <= category <= 8
    /\ List.length tiebreak = tiebreak_len category.
Proof.
  apply (evaluate_7_total [37; 16; 9; 40; 38; 7; 19]).
  - reflexivity.
  - nodup_Z.
  - repeat constructor; unfold valid_card; lia.
Defined.

(** ** The comparator *)

Lemma tuple_eqb_eq (a b : list Z) : tuple_eqb a b = true <-> a = b.
Proof.
  revert b. induction a as [|x a IH]; intros [|y b]; cbn [tuple_eqb];
    try (split; [discriminate | intros H; discriminate H]);
    [split; reflexivity|].
  rewrite andb_true_iff, Z.eqb_eq, IH.
  split; [intros [-> ->]; reflexivity | intros [= -> ->]; auto].
Qed.

(** Two evaluations compare equal exactly when they are the same category
    with the same tiebreak tuple. *)
Lemma compare_hands_zero_iff (a b : hand) : compare_hands a b = 0 <-> a = b.
Proof.
  destruct a as [ca ta], b as [cb tb]. unfold compare_hands. cbn [fst snd].
  destruct (Z.eqb_spec ca cb) as [->|Hne]; cbn [negb].
  - destruct (tuple_eqb ta tb) eqn:E.
    + apply tuple_eqb_eq in E. subst. split; reflexivity.
    + split.
      * destruct (tuple_gtb ta tb); discriminate.
      * intros [= ->]. assert (tuple_eqb tb tb = true) by now apply tuple_eqb_eq.
        congruence.
  - split.
    + destruct (cb <? ca); discriminate.
    + intros [= -> _]. contradiction.
Qed.

Lemma compare_hands_range (a b : hand) :
  compare_hands a b = 1 \/ compare_hands a b = 0 \/ compare_hands a b = -1.
Proof.
  unfold compare_hands.
  destruct (negb (fst a =? fst b)); [destruct (fst b <? fst a); auto|].
  destruct (tuple_eqb (snd a) (snd b)); [auto|].
  destruct (tuple_gtb (snd a) (snd b)); auto.
Qed.

(** ** One iteration on a fixed draw *)

Lemma py_slice_from_nonneg {A : Type} (l : list A) (k : Z) :
  0 <= k <= len l -> py_slice_from l k = skipn (Z.to_nat k) l.
Proof.
  intros Hk. unfold py_slice_from, clip_index, len in *.
  destruct (Z.ltb_spec k 0); [lia|]. f_equal. lia.
Qed.

Lemma py_slice_pair {A : Type} (l : list A) (i : Z) :
  0 <= i -> i * 2 + 2 <= len l ->
  py_slice l (i * 2) ((i + 1) * 2) = firstn 2 (skipn (Z.to_nat (i * 2)) l).
Proof.
  intros Hi Hl. unfold py_slice, clip_index, len in *.
  destruct (Z.ltb_spec (i * 2) 0); [lia|].
  destruct (Z.ltb_spec ((i + 1) * 2) 0); [lia|].
  replace (Z.to_nat (Z.min (i * 2) (Z.of_nat (List.length l))))
    with (Z.to_nat (i * 2)) by lia.
  f_equal. lia.
Qed.

(** The draw is the hands of the opponents, in order, then the runout. *)
Lemma draw_split (draw : list Z) (n i : Z) :
  0 <= i < n -> n * 2 <= len draw ->
  exists pre mid,
    draw = pre ++ py_slice draw (i * 2) ((i + 1) * 2) ++ mid
               ++ py_slice_from draw (n * 2)
    /\ List.length (py_slice draw (i * 2) ((i + 1) * 2)) = 2%nat.
Proof.
  intros Hi Hn.
  rewrite py_slice_pair, py_slice_from_nonneg by lia.
  set (a := Z.to_nat (i * 2)).
  set (b := Z.to_nat (n * 2)).
  exists (firstn a draw), (firstn (b - (2 + a)) (skipn (2 + a) draw)).
  split.
  - rewrite <- (firstn_skipn a draw) at 1. f_equal.
    rewrite <- (firstn_skipn 2 (skipn a draw)) at 1. f_equal.
    rewrite skipn_skipn.
    rewrite <- (firstn_skipn (b - (2 + a)) (skipn (2 + a) draw)) at 1.
    f_equal. rewrite skipn_skipn. f_equal. unfold a, b. lia.
  - rewrite length_firstn, length_skipn. unfold len, a in *. lia.
Qed.

Lemma NoDup_sub (l l' : list Z) :
  NoDup l' ->
  (forall x, (count_occ Z.eq_dec l x <= count_occ Z.eq_dec l' x)%nat) ->
  NoDup l.
Proof.
  intros Hnd Hle. apply (NoDup_count_occ Z.eq_dec). intros x.
  apply (NoDup_count_occ Z.eq_dec) with (x := x) in Hnd.
  specialize (Hle x). lia.
Qed.

Lemma deck_card_count (l : list Z) :
  NoDup l -> Forall valid_card l -> len l <= 52.
Proof.
  intros Hnd Hv.
  assert (H : (List.length l <= List.length (map Z.of_nat (seq 0 52)))%nat).
  { apply NoDup_incl_length; [exact Hnd|].
    intros c Hc. rewrite Forall_forall in Hv. specialize (Hv c Hc).
    unfold valid_card in Hv. apply in_map_iff. exists (Z.to_nat c).
    split; [lia|]. apply in_seq. lia. }
  rewrite length_map, length_seq in H. unfold len. lia.
Qed.

Lemma range_bounds (n : Z) : Forall (fun i => 0 <= i < n) (range n).
Proof.
  unfold range. apply Forall_forall. intros i Hi.
  apply in_map_iff in Hi. destruct Hi as (k & <- & Hk).
  apply in_seq in Hk. lia.
Qed.

Lemma length_range (n : Z) : 0 <= n -> len (range n) = n.
Proof.
  intros Hn. unfold range, len. rewrite length_map, length_seq. lia.
Qed.

Section Deal.

Variables hero board draw : list Z.
Variable n_opponents : Z.

Hypothesis hero_two : List.length hero = 2%nat.
Hypothesis board_five : len board <= 5.
Hypothesis opponents_nonneg : 0 <= n_opponents.
Hypothesis draw_size : len draw = n_opponents * 2 + (5 - len board).
Hypothesis deal_distinct : NoDup (hero ++ board ++ draw).
Hypothesis deal_valid : Forall valid_card (hero ++ board ++ draw).

Let full_board : list Z := board ++ py_slice_from draw (n_opponents * 2).

Lemma deal_opponents_bound : n_opponents <= 22.
Proof.
  pose proof (deck_card_count _ deal_distinct deal_valid) as H.
  unfold len in *. rewrite !length_app in H. lia.
Qed.

Lemma hero_hand7 : hand7 (hero ++ full_board).
Proof.
  unfold full_board.
  assert (Hle : n_opponents * 2 <= len draw) by lia.
  rewrite py_slice_from_nonneg by lia.
  set (b := Z.to_nat (n_opponents * 2)).
  pose proof (firstn_skipn b draw) as Hsplit.
  repeat split.
  - rewrite !length_app, length_skipn. unfold len, b in *. lia.
  - apply (NoDup_sub _ _ deal_distinct). intros x.
    assert (Hc : count_occ Z.eq_dec draw x
                 = (count_occ Z.eq_dec (firstn b draw) x
                    + count_occ Z.eq_dec (skipn b draw) x)%nat)
      by (now rewrite <- count_occ_app, Hsplit).
    rewrite !count_occ_app, Hc. lia.
  - assert (Hv : Forall valid_card (hero ++ board ++ firstn b draw ++ skipn b draw))
      by (rewrite Hsplit; exact deal_valid).
    revert Hv. rewrite !Forall_app. tauto.
Qed.

Lemma opponent_hand7 (i : Z) :
  0 <= i < n_opponents ->
  hand7 (py_slice draw (i * 2) ((i + 1) * 2) ++ full_board).
Proof.
  intros Hi. unfold full_board.
  assert (Hle : n_opponents * 2 <= len draw) by lia.
  destruct (draw_split draw n_opponents i Hi Hle) as (pre & mid & Hsplit & Hlen).
  set (oc := py_slice draw (i * 2) ((i + 1) * 2)) in *.
  assert (Hrun : len (py_slice_from draw (n_opponents * 2)) = 5 - len board).
  { rewrite py_slice_from_nonneg by lia. unfold len in *.
    rewrite length_skipn. lia. }
  set (runout := py_slice_from draw (n_opponents * 2)) in *.
  repeat split.
  - rewrite !length_app. unfold len in *. lia.
  - apply (NoDup_sub _ _ deal_distinct). intros x.
    assert (Hc : count_occ Z.eq_dec draw x
                 = count_occ Z.eq_dec (pre ++ oc ++ mid ++ runout) x)
      by (now rewrite <- Hsplit).
    rewrite !count_occ_app, Hc, !count_occ_app. lia.
  - assert (Hv : Forall valid_card (hero ++ board ++ pre ++ oc ++ mid ++ runout))
      by (rewrite <- Hsplit; exact deal_valid).
    revert Hv. rewrite !Forall_app. tauto.
Qed.

Lemma opponents_evaluate (indices : list Z) :
  Forall (fun i => 0 <= i < n_opponents) indices ->
  exists opp_evals,
    Forall2 (fun oc oe => evaluate_7 (oc ++ full_board) = Ok oe)
      (map (fun i => py_slice draw (i * 2) ((i + 1) * 2)) indices) opp_evals.
Proof.
  induction 1 as [|i rest Hi _ IH].
  - exists []. constructor.
  - destruct IH as [oes IH].
    destruct (evaluate_7_shape _ (opponent_hand7 i Hi)) as (c & tb & E & _).
    exists ((c, tb) :: oes). constructor; assumption.
Qed.

End Deal.

(** The loop over the opponents, from the evaluations of their hands. *)
Lemma scan_opponents_spec (full_board : list Z) (hero_eval : hand)
  (opp_cards : list (list Z)) (opp_evals : list hand) :
  Forall2 (fun oc oe => evaluate_7 (oc ++ full_board) = Ok oe)
    opp_cards opp_evals ->
  forall best_cmp n_best,
    scan_opponents opp_cards full_board hero_eval best_cmp n_best
    = Ok (if existsb (fun oe => 0 <? compare_hands oe hero_eval) opp_evals
          then (-1, 1)
          else
            (if existsb (fun oe => compare_hands oe hero_eval =? 0) opp_evals
             then 0 else best_cmp,
             n_best
             + len (filter (fun oe => compare_hands oe hero_eval =? 0)
                      opp_evals))).
Proof.
  induction 1 as [|oc oe ocs oes E _ IH]; intros bc nb.
  - cbn [scan_opponents existsb filter]. unfold len. cbn [List.length].
    now rewrite Z.add_0_r.
  - cbn [scan_opponents existsb filter]. rewrite E. cbn [bind].
    destruct (0 <? compare_hands oe hero_eval); cbn [orb]; [reflexivity|].
    destruct (compare_hands oe hero_eval =? 0); cbn [orb]; rewrite IH.
    + destruct (existsb _ oes); [reflexivity|].
      unfold len. cbn [List.length].
      destruct (existsb _ oes); do 2 f_equal; lia.
    + reflexivity.
Qed.

Lemma existsb_false_filter {A : Type} (f : A -> bool) (l : list A) :
  existsb f l = false -> filter f l = [].
Proof.
  induction l as [|a l IH]; cbn [existsb filter]; [reflexivity|].
  destruct (f a); cbn [orb]; [discriminate | exact IH].
Qed.

Lemma existsb_true_filter {A : Type} (f : A -> bool) (l : list A) :
  existsb f l = true -> 0 < len (filter f l).
Proof.
  induction l as [|a l IH]; cbn [existsb filter]; [discriminate|].
  destruct (f a); cbn [orb]; unfold len in *; cbn [List.length]; [lia | exact IH].
Qed.

Lemma filter_len_le {A : Type} (f : A -> bool) (l : list A) :
  len (filter f l) <= len l.
Proof.
  pose proof (filter_partition_length f l). unfold len in *. lia.
Qed.

Lemma scan_n_best (opp_cards : list (list Z)) (full_board : list Z)
  (hero_eval : hand) :
  forall best_cmp n_best best_cmp' n_best',
    scan_opponents opp_cards full_board hero_eval best_cmp n_best
    = Ok (best_cmp', n_best') ->
    1 <= n_best -> 1 <= n_best'.
Proof.
  induction opp_cards as [|oc rest IH]; intros bc nb bc' nb';
    cbn [scan_opponents].
  - intros [= <- <-]. auto.
  - destruct (evaluate_7 (oc ++ full_board)) as [oe|e]; [|discriminate].
    cbn [bind].
    destruct (0 <? compare_hands oe hero_eval).
    + intros [= <- <-]. lia.
    + destruct (compare_hands oe hero_eval =? 0); intros H Hnb;
        apply IH in H; lia.
Qed.

(** ** Floats *)

Lemma float_overflow_limit_pos : 0 < float_overflow_limit.
Proof. reflexivity. Qed.

Lemma float_exact_below_overflow : float_exact_limit < float_overflow_limit.
Proof. reflexivity. Qed.

Lemma float_exact_limit_val : float_exact_limit = 9007199254740992.
Proof. reflexivity. Qed.

Global Opaque float_overflow_limit float_exact_limit.

Lemma Qltb_lt (x y : Q) : Qltb x y = true <-> (x < y)%Q.
Proof.
  unfold Qltb. rewrite negb_true_iff.
  destruct (Qle_bool y x) eqn:E.
  - apply Qle_bool_iff in E. split; [discriminate|].
    intros H. exfalso. apply (Qlt_not_le _ _ H E).
  - split; [|reflexivity]. intros _. apply Qnot_le_lt.
    intros H. apply Qle_bool_iff in H. congruence.
Qed.




Section FloatFacts.

Variable fl : Q -> Q.
Variable fsqrt : Q -> Q.

(** Rounding is monotone, and the integers up to 2^53 are floats. *)
Hypothesis fl_mono : forall x y : Q, (x <= y)%Q -> (fl x <= fl y)%Q.
Hypothesis fl_int :
  forall n : Z, Z.abs n <= float_exact_limit ->
                (fl (inject_Z n) == inject_Z n)%Q.

Lemma fl_proper (x y : Q) : (x == y)%Q -> (fl x == fl y)%Q.
Proof.
  intros H. apply Qle_antisym; apply fl_mono; rewrite H; apply Qle_refl.
Qed.

Lemma fl_0 : (fl 0 == 0)%Q.
Proof. apply (fl_int 0). rewrite float_exact_limit_val. simpl. lia. Qed.

Lemma fl_1 : (fl 1 == 1)%Q.
Proof. apply (fl_int 1). rewrite float_exact_limit_val. simpl. lia. Qed.

Lemma fl_ge_0 (x : Q) : (0 <= x)%Q -> (0 <= fl x)%Q.
Proof.
  intros H. apply Qle_trans with (fl 0); [|now apply fl_mono].
  rewrite fl_0. apply Qle_refl.
Qed.

Lemma fl_le_1 (x : Q) : (x <= 1)%Q -> (fl x <= 1)%Q.
Proof.
  intros H. apply Qle_trans with (fl 1); [now apply fl_mono|].
  rewrite fl_1. apply Qle_refl.
Qed.

Lemma fl_exact_le (x : Q) (n : Z) :
  0 <= n <= float_exact_limit -> (x <= inject_Z n)%Q -> (fl x <= inject_Z n)%Q.
Proof.
  intros Hn Hx. rewrite <- (fl_int n) by lia. now apply fl_mono.
Qed.

Lemma fl_exact_ge (x : Q) (n : Z) :
  0 <= n <= float_exact_limit -> (inject_Z n <= x)%Q -> (inject_Z n <= fl x)%Q.
Proof.
  intros Hn Hx. rewrite <- (fl_int n) by lia. now apply fl_mono.
Qed.

Lemma int_truediv_zero_num (b : Z) :
  b <> 0 -> exists q, int_truediv fl 0 b = Ok q /\ (q == 0)%Q.
Proof.
  intros Hb. unfold int_truediv.
  destruct (Z.eqb_spec b 0) as [|_]; [contradiction|].
  assert (Hq : (inject_Z 0 / inject_Z b == 0)%Q).
  { unfold Qdiv. apply Qmult_0_l. }
  destruct (Qle_bool (inject_Z float_overflow_limit)
              (Qabs (inject_Z 0 / inject_Z b))) eqn:E.
  - exfalso. apply Qle_bool_iff in E. rewrite Hq in E.
    pose proof float_overflow_limit_pos as Hpos.
    change (Qabs 0) with (inject_Z 0) in E. rewrite <- Zle_Qle in E. lia.
  - eexists. split; [reflexivity|].
    apply Qeq_trans with (fl 0); [apply fl_proper; exact Hq | apply fl_0].
Qed.

Lemma float_of_int_negative (n : Z) :
  - float_overflow_limit < n < 0 ->
  exists y, float_of_int fl n = Ok y /\ (y < 0)%Q.
Proof.
  intros Hn. unfold float_of_int.
  destruct (Z.ltb_spec (Z.abs n) float_overflow_limit); [|lia].
  eexists. split; [reflexivity|].
  apply Qle_lt_trans with (fl (inject_Z (-1))).
  - apply fl_mono. rewrite <- Zle_Qle. lia.
  - rewrite fl_int by (rewrite float_exact_limit_val; simpl; lia).
    reflexivity.
Qed.

Lemma float_of_int_exact (n : Z) :
  0 <= n <= float_exact_limit ->
  exists y, float_of_int fl n = Ok y /\ (y == inject_Z n)%Q.
Proof.
  intros Hn. unfold float_of_int.
  pose proof float_exact_below_overflow.
  destruct (Z.ltb_spec (Z.abs n) float_overflow_limit); [|lia].
  eexists. split; [reflexivity|]. apply fl_int. lia.
Qed.

Lemma float_of_int_ge_1 (n : Z) (y : Q) :
  1 <= n -> float_of_int fl n = Ok y -> (1 <= y)%Q.
Proof.
  intros Hn. unfold float_of_int.
  destruct (Z.abs n <? float_overflow_limit); [|discriminate].
  intros [= <-]. apply Qle_trans with (fl 1).
  - rewrite fl_1. apply Qle_refl.
  - apply fl_mono. change 1%Q with (inject_Z 1). rewrite <- Zle_Qle. exact Hn.
Qed.

Lemma share_bounds (n_best : Z) (share : Q) :
  1 <= n_best -> float_div_int fl 1 n_best = Ok share ->
  (0 <= share <= 1)%Q.
Proof.
  intros Hn. unfold float_div_int.
  destruct (float_of_int fl n_best) as [y|e] eqn:Ey; [|discriminate].
  cbn [bind]. pose proof (float_of_int_ge_1 n_best y Hn Ey) as Hy.
  destruct (Qeq_bool y 0); [discriminate|]. intros [= <-].
  assert (Hpos : (0 < y)%Q) by (apply Qlt_le_trans with 1%Q; [reflexivity | exact Hy]).
  split.
  - apply fl_ge_0.
    apply Qle_shift_div_l; [exact Hpos|]. rewrite Qmult_0_l. discriminate.
  - apply fl_le_1.
    apply Qle_shift_div_r; [exact Hpos|]. rewrite Qmult_1_l. exact Hy.
Qed.

Lemma float_div_int_share (k : Z) :
  1 <= k <= float_exact_limit ->
  exists share,
    float_div_int fl 1 k = Ok share /\ (share == fl (1 / inject_Z k))%Q.
Proof.
  intros Hk. unfold float_div_int.
  destruct (float_of_int_exact k ltac:(lia)) as (y & Ey & Hy).
  rewrite Ey. cbn [bind].
  destruct (Qeq_bool y 0) eqn:E0.
  - exfalso. apply Qeq_bool_iff in E0. rewrite Hy in E0.
    change 0%Q with (inject_Z 0) in E0. apply (proj1 (inject_Z_injective k 0)) in E0. lia.
  - eexists. split; [reflexivity|]. apply fl_proper. now rewrite Hy.
Qed.

Lemma iteration_inv (hero board : list Z) (n_opponents : Z) (draw : list Z)
  (i : Z) (st st' : stats) :
  stats_inv i st -> 0 <= i -> i + 1 <= float_exact_limit ->
  iteration fl hero board n_opponents draw st = Ok st' ->
  stats_inv (i + 1) st'.
Proof.
  intros (Hsum & Hw & Ht & Hl & Hlo & Hhi) Hi Hlim. unfold iteration.
  destruct (evaluate_7 _) as [he|e]; [|discriminate]. cbn [bind].
  destruct (scan_opponents _ _ he 1 1) as [[bc nb]|e] eqn:Es; [|discriminate].
  cbn [bind].
  pose proof (scan_n_best _ _ _ _ _ _ _ Es ltac:(lia)) as Hnb.
  destruct (bc =? 1).
  - intros [= <-]. unfold stats_inv, fadd. cbn [wins ties losses equity_shares].
    repeat split; try lia.
    + apply fl_exact_ge; [lia|]. rewrite inject_Z_plus.
      apply Qplus_le_compat; [exact Hlo | apply Qle_refl].
    + apply fl_exact_le; [lia|]. rewrite inject_Z_plus.
      apply Qplus_le_compat; [exact Hhi | apply Qle_refl].
  - destruct (bc =? 0).
    + destruct (float_div_int fl 1 nb) as [share|e] eqn:Eshare; [|discriminate].
      cbn [bind]. destruct (share_bounds nb share Hnb Eshare) as [Hs0 Hs1].
      intros [= <-]. unfold stats_inv, fadd.
      cbn [wins ties losses equity_shares].
      repeat split; try lia.
      * apply fl_exact_ge; [lia|].
        rewrite <- (Qplus_0_r (inject_Z (wins st))).
        apply Qplus_le_compat; assumption.
      * apply fl_exact_le; [lia|]. rewrite inject_Z_plus.
        apply Qplus_le_compat; assumption.
    + intros [= <-]. unfold stats_inv. cbn [wins ties losses equity_shares].
      repeat split; try lia; [exact Hlo|].
      apply Qle_trans with (inject_Z i); [exact Hhi|].
      rewrite <- Zle_Qle. lia.
Qed.

(** ** The simulation loop *)

Section Runs.

Variable rng : Type.
Variable seed_rng : Z -> rng.
Variable choose : rng -> list Z -> nat -> list Z * rng.

Lemma random_sample_too_many (g : rng) (population : list Z) (k : Z) :
  len population < k -> random_sample rng choose g population k = Err ValueError.
Proof.
  intros H. unfold random_sample.
  destruct (Z.leb_spec k (len population)); [lia|].
  now rewrite andb_false_r.
Qed.

Lemma run_iterations_inv (hero board : list Z) (n_opponents : Z)
  (base_deck : list Z) (need_cards : Z) (n : nat) :
  forall (g : rng) (i : Z) (st st' : stats),
    stats_inv i st -> 0 <= i -> i + Z.of_nat n <= float_exact_limit ->
    run_iterations fl rng choose n hero board n_opponents base_deck
      need_cards g st = Ok st' ->
    stats_inv (i + Z.of_nat n) st'.
Proof.
  induction n as [|n IH]; intros g i st st' Hinv Hi Hlim;
    cbn [run_iterations].
  - intros [= <-]. now rewrite Z.add_0_r.
  - destruct (random_sample rng choose g base_deck need_cards)
      as [[draw g']|e]; [|discriminate].
    cbn [bind].
    destruct (iteration fl hero board n_opponents draw st) as [st1|e] eqn:E1;
      [|discriminate].
    cbn [bind]. intros Hrun.
    apply (iteration_inv _ _ _ _ i) in E1; [|assumption|assumption|lia].
    apply (IH g' (i + 1) st1 st') in Hrun; [|assumption|lia|lia].
    replace (i + Z.of_nat (S n)) with (i + 1 + Z.of_nat n) by lia.
    exact Hrun.
Qed.

End Runs.

End FloatFacts.

(** ** The exact instance *)

Lemma fl_exact_mono (x y : Q) : (x <= y)%Q -> (fl_exact x <= fl_exact y)%Q.
Proof. unfold fl_exact. now rewrite !Qred_correct. Qed.

Lemma fl_exact_int (n : Z) :
  Z.abs n <= float_exact_limit -> (fl_exact (inject_Z n) == inject_Z n)%Q.
Proof. intros _. unfold fl_exact. apply Qred_correct. Qed.

(** ** The claims on the simulator and the reporter *)

(** C1: on a fixed draw whose cards, with the hero's and the board's, are
    distinct cards of the deck, the hero's hand and every opponent's hand
    evaluate, and the iteration ends in one of three ways. It is a loss
    (only [losses] is incremented) exactly when some opponent's evaluation
    compares above the hero's. Otherwise, with [k] one more than the number
    of opponents whose evaluation compares equal to the hero's, it is a win
    ([wins] incremented, 1.0 added to the shares) when [k = 1], and a tie
    ([ties] incremented, the float [1.0 / k] added to the shares) when
    [k > 1]. *)
Theorem iteration_outcome (fl : Q -> Q)
  (fl_mono : forall x y : Q, (x <= y)%Q -> (fl x <= fl y)%Q)
  (fl_int : forall n : Z, Z.abs n <= float_exact_limit ->
                          (fl (inject_Z n) == inject_Z n)%Q)
  (hero board draw : list Z) (n_opponents : Z) (st : stats) :
  List.length hero = 2%nat ->
  len board <= 5 ->
  0 <= n_opponents ->
  len draw = n_opponents * 2 + (5 - len board) ->
  NoDup (hero ++ board ++ draw) ->
  Forall valid_card (hero ++ board ++ draw) ->
  let full_board := board ++ py_slice_from draw (n_opponents * 2) in
  exists hero_eval opp_evals,
    evaluate_7 (hero ++ full_board) = Ok hero_eval
    /\ Forall2 (fun oc oe => evaluate_7 (oc ++ full_board) = Ok oe)
         (opp_cards_of draw n_opponents) opp_evals
    /\ len opp_evals = n_opponents
    /\ let k := 1 + len (filter (fun oe => compare_hands oe hero_eval =? 0)
                           opp_evals) in
       ((exists oe, In oe opp_evals /\ 0 < compare_hands oe hero_eval)
        /\ iteration fl hero board n_opponents draw st
           = Ok (mkStats (wins st) (ties st) (losses st + 1)
                   (equity_shares st)))
       \/ ((forall oe, In oe opp_evals -> compare_hands oe hero_eval <= 0)
           /\ k = 1
           /\ iteration fl hero board n_opponents draw st
              = Ok (mkStats (wins st + 1) (ties st) (losses st)
                      (fadd fl (equity_shares st) 1)))
       \/ ((forall oe, In oe opp_evals -> compare_hands oe hero_eval <= 0)
           /\ 1 < k
           /\ exists share,
               float_div_int fl 1 k = Ok share
               /\ (share == fl (1 / inject_Z k))%Q
               /\ iteration fl hero board n_opponents draw st
                  = Ok (mkStats (wins st) (ties st + 1) (losses st)
                          (fadd fl (equity_shares st) share))).
Proof.
  intros H2 H5 Hn Hd Hnd Hv full_board.
  assert (Hbound : n_opponents <= 22)
    by (apply (deal_opponents_bound hero board draw n_opponents); assumption).
  assert (Hhero : hand7 (hero ++ full_board))
    by (apply (hero_hand7 hero board draw n_opponents); assumption).
  destruct (evaluate_7_shape _ Hhero) as (hc & htb & Ehero & _).
  assert (Hopps : exists opp_evals,
             Forall2 (fun oc oe => evaluate_7 (oc ++ full_board) = Ok oe)
               (opp_cards_of draw n_opponents) opp_evals).
  { apply (opponents_evaluate hero board draw n_opponents); try assumption.
    apply range_bounds. }
  destruct Hopps as (oes & Hopp).
  exists (hc, htb), oes.
  assert (Hlen : len oes = n_opponents).
  { apply Forall2_length in Hopp. unfold opp_cards_of in Hopp.
    rewrite length_map in Hopp. pose proof (length_range n_opponents Hn).
    unfold len in *. lia. }
  split; [exact Ehero|]. split; [exact Hopp|]. split; [exact Hlen|].
  cbv zeta. unfold iteration. fold full_board. rewrite Ehero. cbn [bind].
  rewrite (scan_opponents_spec _ _ _ _ Hopp).
  destruct (existsb (fun oe => 0 <? compare_hands oe (hc, htb)) oes) eqn:Eb.
  - left. split; [|reflexivity].
    apply existsb_exists in Eb. destruct Eb as (oe & Hin & Hlt).
    exists oe. split; [exact Hin | now apply Z.ltb_lt].
  - right.
    assert (Hall : forall oe, In oe oes -> compare_hands oe (hc, htb) <= 0).
    { intros oe Hin. destruct (Z.ltb_spec 0 (compare_hands oe (hc, htb)));
        [|assumption].
      exfalso. assert (existsb (fun oe => 0 <? compare_hands oe (hc, htb)) oes
                       = true); [|congruence].
      apply existsb_exists. exists oe. split; [exact Hin | now apply Z.ltb_lt]. }
    destruct (existsb (fun oe => compare_hands oe (hc, htb) =? 0) oes) eqn:Et.
    + right. split; [exact Hall|].
      pose proof (existsb_true_filter _ _ Et) as Hpos.
      pose proof (filter_len_le
                    (fun oe => compare_hands oe (hc, htb) =? 0) oes) as Hle.
      split; [lia|].
      destruct (float_div_int_share fl fl_mono fl_int
                  (1 + len (filter (fun oe => compare_hands oe (hc, htb) =? 0)
                              oes)))
        as (share & Es & Hs).
      { rewrite float_exact_limit_val. lia. }
      exists share. split; [exact Es|]. split; [exact Hs|].
      cbn [bind Z.eqb]. rewrite Es. reflexivity.
    + left. split; [exact Hall|].
      rewrite (existsb_false_filter _ _ Et). split; reflexivity.
Qed.

(** Witness of C1: Ac Kc against two opponents, the draw being the clubs
    from the two to the ten. *)
Lemma iteration_outcome_witness :
  let hero := [12; 11] in
  let board := @nil Z in
  let draw := [0; 1; 2; 3; 4; 5; 6; 7; 8] in
  let st := mkStats 0 0 0 0 in
  let full_board := board ++ py_slice_from draw (2 * 2) in
  exists hero_eval opp_evals,
    evaluate_7 (hero ++ full_board) = Ok hero_eval
    /\ Forall2 (fun oc oe => evaluate_7 (oc ++ full_board) = Ok oe)
         (opp_cards_of draw 2) opp_evals
    /\ len opp_evals = 2
    /\ let k := 1 + len (filter (fun oe => compare_hands oe hero_eval =? 0)
                           opp_evals) in
       ((exists oe, In oe opp_evals /\ 0 < compare_hands oe hero_eval)
        /\ iteration fl_exact hero board 2 draw st
           = Ok (mkStats (wins st) (ties st) (losses st + 1)
                   (equity_shares st)))
       \/ ((forall oe, In oe opp_evals -> compare_hands oe hero_eval <= 0)
           /\ k = 1
           /\ iteration fl_exact hero board 2 draw st
              = Ok (mkStats (wins st + 1) (ties st) (losses st)
                      (fadd fl_exact (equity_shares st) 1)))
       \/ ((forall oe, In oe opp_evals -> compare_hands oe hero_eval <= 0)
           /\ 1 < k
           /\ exists share,
               float_div_int fl_exact 1 k = Ok share
               /\ (share == fl_exact (1 / inject_Z k))%Q
               /\ iteration fl_exact hero board 2 draw st
                  = Ok (mkStats (wins st) (ties st + 1) (losses st)
                          (fadd fl_exact (equity_shares st) share))).
Proof.
  apply (iteration_outcome fl_exact fl_exact_mono fl_exact_int
           [12; 11] [] [0; 1; 2; 3; 4; 5; 6; 7; 8] 2 (mkStats 0 0 0 0)).
  - reflexivity.
  - unfold len; simpl; lia.
  - lia.
  - reflexivity.
  - nodup_Z.
  - repeat constructor; unfold valid_card; lia.
Defined.



(** C4, as the code has it: a call with at least one iteration that needs
    more cards than the remaining deck holds fails with the [ValueError] of
    [random.sample], raised by the first sampling, whatever the generator
    would choose: no card is drawn and no iteration is counted. *)
Theorem simulate_insufficient_cards (fl : Q -> Q) (rng : Type)
  (seed_rng : Z -> rng) (choose : rng -> list Z -> nat -> list Z * rng)
  (g : rng) (hero board : list Z) (n_opponents iterations : Z)
  (seed : option Z) :
  1 <= iterations ->
  len (deck_without (hero ++ board)) < n_opponents * 2 + (5 - len board) ->
  simulate_equity fl rng seed_rng choose g hero board n_opponents iterations
    seed = Err ValueError
  /\ forall g',
      random_sample rng choose g' (deck_without (hero ++ board))
        (n_opponents * 2 + (5 - len board)) = Err ValueError.
Proof.
  intros Hit Hneed. split.
  - unfold simulate_equity.
    destruct (Z.to_nat iterations) as [|n] eqn:En; [lia|].
    cbn [run_iterations]. rewrite random_sample_too_many by exact Hneed.
    reflexivity.
  - intros g'. now apply random_sample_too_many.
Qed.

(** Witness of C4: 24 opponents on an empty board need 53 of 50 cards. *)
Lemma simulate_insufficient_cards_witness :
  simulate_equity fl_exact unit seed_unit choose_first tt [12; 11] [] 24 1
    None = Err ValueError
  /\ forall g',
      random_sample unit choose_first g' (deck_without ([12; 11] ++ []))
        (24 * 2 + (5 - len (@nil Z))) = Err ValueError.
Proof.
  apply (simulate_insufficient_cards fl_exact unit seed_unit choose_first tt
           [12; 11] [] 24 1 None).
  - lia.
  - reflexivity.
Defined.

(** C4 as the specification words it fails: with 24 opponents on an empty
    board and -1 iterations the call needs 53 of 50 cards and returns, with
    zero counts; with 0 iterations it fails on the division that follows
    the loop. *)
Lemma negative_iterations_skip_the_sampling :
  len (deck_without ([12; 11] ++ [])) < 24 * 2 + (5 - len (@nil Z))
  /\ simulate_equity fl_exact unit seed_unit choose_first tt [12; 11] [] 24
       (-1) None = Ok (0%Q, 0%Q, 0, 0, 0)
  /\ simulate_equity fl_exact unit seed_unit choose_first tt [12; 11] [] 24
       0 None = Err ZeroDivisionError.
Proof.
  repeat split; reflexivity.
Qed.

(** C5, as the code has it: [simulate_equity] checks nothing about the
    iterations. With 0 iterations the call fails, with the
    [ZeroDivisionError] of [wins / iterations], and returns no result. With
    a negative number of iterations the loop does not run: the call returns
    zero counts and zero rates when the magnitude converts to a float, and
    fails with the [OverflowError] of [equity_shares / iterations] when it
    does not, from 2^1024 - 2^970 on. *)
Theorem simulate_nonpositive_iterations (fl : Q -> Q) (rng : Type)
  (seed_rng : Z -> rng) (choose : rng -> list Z -> nat -> list Z * rng)
  (fl_mono : forall x y : Q, (x <= y)%Q -> (fl x <= fl y)%Q)
  (fl_int : forall n : Z, Z.abs n <= float_exact_limit ->
                          (fl (inject_Z n) == inject_Z n)%Q) :
  (forall g hero board n_opponents seed,
      simulate_equity fl rng seed_rng choose g hero board n_opponents 0 seed
      = Err ZeroDivisionError)
  /\ (forall g hero board n_opponents iterations seed,
         - float_overflow_limit < iterations < 0 ->
         exists win_rate equity,
           simulate_equity fl rng seed_rng choose g hero board n_opponents
             iterations seed = Ok (win_rate, equity, 0, 0, 0)
           /\ (win_rate == 0)%Q /\ (equity == 0)%Q)
  /\ (forall g hero board n_opponents iterations seed,
         iterations <= - float_overflow_limit ->
         simulate_equity fl rng seed_rng choose g hero board n_opponents
           iterations seed = Err OverflowError).
Proof.
  split; [reflexivity|]. split.
  - intros g hero board n_opponents iterations seed.
    intros Hit. unfold simulate_equity.
    destruct iterations as [|p|p]; try lia.
    cbn [Z.to_nat run_iterations bind wins ties losses equity_shares].
    destruct (int_truediv_zero_num fl fl_mono fl_int (Z.neg p))
      as (wr & Ewr & Hwr); [lia|].
    destruct (float_of_int_negative fl fl_mono fl_int (Z.neg p) Hit)
      as (y & Ey & Hy).
    rewrite Ewr. cbn [bind]. unfold float_div_int. rewrite Ey. cbn [bind].
    destruct (Qeq_bool y 0) eqn:E0.
    + apply Qeq_bool_iff in E0. rewrite E0 in Hy. discriminate Hy.
    + do 2 eexists. split; [reflexivity|]. split; [exact Hwr|].
      apply Qeq_trans with (fl 0%Q); [|apply (fl_0 fl fl_int)].
      apply (fl_proper fl fl_mono). unfold Qdiv. apply Qmult_0_l.
  - intros g hero board n_opponents iterations seed Hit.
    pose proof float_overflow_limit_pos as Hpos.
    unfold simulate_equity.
    destruct iterations as [|p|p]; try lia.
    cbn [Z.to_nat run_iterations bind wins ties losses equity_shares].
    destruct (int_truediv_zero_num fl fl_mono fl_int (Z.neg p))
      as (wr & Ewr & Hwr); [lia|].
    rewrite Ewr. cbn [bind]. unfold float_div_int, float_of_int.
    destruct (Z.ltb_spec (Z.abs (Z.neg p)) float_overflow_limit); [lia|].
    reflexivity.
Qed.

(** Witness of C5: -1 iterations. *)
Lemma simulate_nonpositive_iterations_witness :
  exists win_rate equity,
    simulate_equity fl_exact unit seed_unit choose_first tt [12; 11] [] 2 (-1)
      None = Ok (win_rate, equity, 0, 0, 0)
    /\ (win_rate == 0)%Q /\ (equity == 0)%Q.
Proof.
  apply (proj1 (proj2 (simulate_nonpositive_iterations fl_exact unit
                         seed_unit choose_first fl_exact_mono
                         fl_exact_int))).
  split; [reflexivity | lia].
Defined.

(** C5 as the specification words it fails: with -1 iterations the call
    returns a result. *)
Lemma negative_iterations_return :
  simulate_equity fl_exact unit seed_unit choose_first tt [12; 11] [] 2 (-1)
    None = Ok (0%Q, 0%Q, 0, 0, 0).
Proof. reflexivity. Qed.





(** * Further properties of the code *)

(** ** The comparator is a total order *)

Lemma tuple_trichotomy (a b : list Z) :
  (tuple_eqb a b = true /\ tuple_gtb a b = false /\ tuple_gtb b a = false)
  \/ (tuple_eqb a b = false /\ tuple_gtb a b = true /\ tuple_gtb b a = false)
  \/ (tuple_eqb a b = false /\ tuple_gtb a b = false /\ tuple_gtb b a = true).
Proof.
  revert b. induction a as [|x a IH]; intros [|y b]; cbn [tuple_eqb tuple_gtb];
    auto.
  specialize (IH b). rewrite (Z.eqb_sym y x).
  destruct (Z.eqb_spec x y) as [->|Hne]; cbn [andb]; [exact IH|].
  destruct (Z.ltb_spec y x), (Z.ltb_spec x y); try lia; auto.
Qed.

Lemma tuple_gtb_trans (a b c : list Z) :
  tuple_gtb a b = true -> tuple_gtb b c = true -> tuple_gtb a c = true.
Proof.
  revert b c. induction a as [|x a IH]; intros [|y b] [|z c];
    cbn [tuple_gtb]; try discriminate; auto.
  destruct (Z.eqb_spec x y) as [->|Hxy].
  - destruct (Z.eqb_spec y z) as [->|Hyz]; [apply IH | auto].
  - intros Hyx. apply Z.ltb_lt in Hyx.
    destruct (Z.eqb_spec y z) as [->|Hyz].
    + intros _. destruct (Z.eqb_spec x z); [lia | now apply Z.ltb_lt].
    + intros Hzy. apply Z.ltb_lt in Hzy.
      destruct (Z.eqb_spec x z); [lia | apply Z.ltb_lt; lia].
Qed.

(** X1: swapping the two hands negates the comparison. *)
Theorem compare_hands_antisym (a b : hand) :
  compare_hands b a = - compare_hands a b.
Proof.
  unfold compare_hands. rewrite (Z.eqb_sym (fst b) (fst a)).
  destruct (Z.eqb_spec (fst a) (fst b)) as [E|Hne]; cbn [negb].
  - destruct (tuple_trichotomy (snd a) (snd b))
      as [(He & H1 & H2) | [(He & H1 & H2) | (He & H1 & H2)]].
    + apply tuple_eqb_eq in He. rewrite He.
      assert (Hr : tuple_eqb (snd b) (snd b) = true) by now apply tuple_eqb_eq.
      rewrite Hr. reflexivity.
    + destruct (tuple_eqb (snd b) (snd a)) eqn:Hb.
      * apply tuple_eqb_eq in Hb. rewrite Hb in He.
        assert (tuple_eqb (snd a) (snd a) = true) by now apply tuple_eqb_eq.
        congruence.
      * rewrite He, H1, H2. reflexivity.
    + destruct (tuple_eqb (snd b) (snd a)) eqn:Hb.
      * apply tuple_eqb_eq in Hb. rewrite Hb in He.
        assert (tuple_eqb (snd a) (snd a) = true) by now apply tuple_eqb_eq.
        congruence.
      * rewrite He, H1, H2. reflexivity.
  - destruct (Z.ltb_spec (fst a) (fst b)), (Z.ltb_spec (fst b) (fst a));
      try lia; reflexivity.
Qed.

(** X2: the comparison is transitive: a hand above a hand that is above a
    third is above the third. *)
Theorem compare_hands_trans (a b c : hand) :
  compare_hands a b = 1 -> compare_hands b c = 1 -> compare_hands a c = 1.
Proof.
  unfold compare_hands.
  destruct (Z.eqb_spec (fst a) (fst b)) as [Eab|Nab]; cbn [negb].
  - rewrite Eab.
    destruct (Z.eqb_spec (fst b) (fst c)) as [Ebc|Nbc]; cbn [negb]; [|auto].
    destruct (tuple_eqb (snd a) (snd b)) eqn:E1; [discriminate|].
    destruct (tuple_gtb (snd a) (snd b)) eqn:G1; [|discriminate].
    destruct (tuple_eqb (snd b) (snd c)) eqn:E2; [discriminate|].
    destruct (tuple_gtb (snd b) (snd c)) eqn:G2; [|discriminate].
    intros _ _.
    pose proof (tuple_gtb_trans _ _ _ G1 G2) as G.
    destruct (tuple_trichotomy (snd a) (snd c))
      as [(He & H1 & H2) | [(He & H1 & H2) | (He & H1 & H2)]];
      try congruence.
    rewrite He, H1. reflexivity.
  - destruct (Z.ltb_spec (fst b) (fst a)); [|discriminate]. intros _.
    destruct (Z.eqb_spec (fst b) (fst c)) as [Ebc|Nbc]; cbn [negb].
    + rewrite <- Ebc.
      destruct (Z.eqb_spec (fst a) (fst b)); [contradiction|]. cbn [negb].
      destruct (Z.ltb_spec (fst b) (fst a)); [reflexivity | lia].
    + destruct (Z.ltb_spec (fst c) (fst b)); [|discriminate]. intros _.
      destruct (Z.eqb_spec (fst a) (fst c)); [lia|]. cbn [negb].
      destruct (Z.ltb_spec (fst c) (fst a)); [reflexivity | lia].
Qed.

(** Witness of X2: a full house above a flush above a straight. *)
Lemma compare_hands_trans_witness :
  compare_hands (6, [14; 13]) (4, [5]) = 1.
Proof.
  apply (compare_hands_trans (6, [14; 13]) (5, [10; 8; 6; 4; 2]) (4, [5]));
    reflexivity.
Defined.

(** ** The remaining deck *)

Lemma cards_sorted (a n : nat) :
  StronglySorted Z.lt (map Z.of_nat (seq a n)).
Proof.
  revert a. induction n as [|n IH]; intros a; cbn [seq map]; constructor.
  - apply IH.
  - apply Forall_forall. intros x Hx. apply in_map_iff in Hx.
    destruct Hx as (k & <- & Hk). apply in_seq in Hk. lia.
Qed.

Lemma StronglySorted_filter_lt (g : Z -> bool) (l : list Z) :
  StronglySorted Z.lt l -> StronglySorted Z.lt (filter g l).
Proof.
  induction 1 as [|a l Hs IH Ha]; cbn [filter]; [constructor|].
  destruct (g a); [|assumption].
  constructor; [assumption|].
  rewrite Forall_forall in *. intros x Hx. apply filter_In in Hx.
  apply Ha. tauto.
Qed.

Lemma card_in_deck (c : Z) :
  In c (map Z.of_nat (seq 0 52)) <-> valid_card c.
Proof.
  unfold valid_card. rewrite in_map_iff. split.
  - intros (k & <- & Hk). apply in_seq in Hk. lia.
  - intros Hc. exists (Z.to_nat c). split; [lia|]. apply in_seq. lia.
Qed.

Lemma existsb_Zeqb_In (c : Z) (l : list Z) :
  existsb (Z.eqb c) l = true <-> In c l.
Proof.
  rewrite existsb_exists. split.
  - intros (x & Hin & Heq). apply Z.eqb_eq in Heq. now subst.
  - intros Hin. exists c. split; [assumption | apply Z.eqb_refl].
Qed.

Lemma deck_without_In (exclude : list Z) (c : Z) :
  In c (deck_without exclude) <-> valid_card c /\ ~ In c exclude.
Proof.
  unfold deck_without. rewrite filter_In, card_in_deck, negb_true_iff.
  rewrite <- existsb_Zeqb_In.
  destruct (existsb (Z.eqb c) exclude); intuition congruence.
Qed.

Lemma deck_without_sorted (exclude : list Z) :
  StronglySorted Z.lt (deck_without exclude).
Proof.
  unfold deck_without. apply StronglySorted_filter_lt, cards_sorted.
Qed.

Lemma StronglySorted_lt_NoDup (l : list Z) :
  StronglySorted Z.lt l -> NoDup l.
Proof.
  induction 1 as [|a l Hs IH Ha]; constructor; [|assumption].
  intros Hin. rewrite Forall_forall in Ha. specialize (Ha a Hin). lia.
Qed.

Lemma deck_without_NoDup (exclude : list Z) : NoDup (deck_without exclude).
Proof. apply StronglySorted_lt_NoDup, deck_without_sorted. Qed.

Lemma full_deck_length : len (map Z.of_nat (seq 0 52)) = 52.
Proof. unfold len. rewrite length_map, length_seq. reflexivity. Qed.

Lemma filter_out_length (all exclude : list Z) :
  NoDup all -> NoDup exclude -> incl exclude all ->
  len (filter (fun c => negb (existsb (Z.eqb c) exclude)) all)
  = len all - len exclude.
Proof.
  intros Hall Hnd Hincl.
  pose proof (filter_partition_length
                (fun c => negb (existsb (Z.eqb c) exclude)) all) as Hp.
  set (rest := filter
                 (fun x => negb (negb (existsb (Z.eqb x) exclude))) all) in *.
  assert (Hin : forall c, In c rest <-> In c exclude).
  { intros c. unfold rest. rewrite filter_In, negb_involutive.
    rewrite existsb_Zeqb_In. split; [tauto | auto]. }
  assert (H1 : (List.length rest <= List.length exclude)%nat).
  { apply NoDup_incl_length; [now apply NoDup_filter|].
    intros c Hc. now apply Hin. }
  assert (H2 : (List.length exclude <= List.length rest)%nat).
  { apply NoDup_incl_length; [assumption|]. intros c Hc. now apply Hin. }
  unfold len in *. lia.
Qed.

Lemma deck_without_length (exclude : list Z) :
  NoDup exclude -> Forall valid_card exclude ->
  len (deck_without exclude) = 52 - len exclude.
Proof.
  intros Hnd Hv. unfold deck_without.
  rewrite filter_out_length, full_deck_length; [reflexivity | | assumption |].
  - apply StronglySorted_lt_NoDup, cards_sorted.
  - intros c Hc. apply card_in_deck. rewrite Forall_forall in Hv. auto.
Qed.

(** X3: the remaining deck holds exactly the cards of the deck that are not
    excluded, each once and in ascending order; when the excluded cards are
    distinct cards of the deck, it has 52 cards less their number. *)
Theorem deck_without_spec (exclude : list Z) :
  (forall c, In c (deck_without exclude) <-> valid_card c /\ ~ In c exclude)
  /\ StronglySorted Z.lt (deck_without exclude)
  /\ (NoDup exclude -> Forall valid_card exclude ->
      len (deck_without exclude) = 52 - len exclude).
Proof.
  split; [apply deck_without_In|].
  split; [apply deck_without_sorted | apply deck_without_length].
Qed.

(** Witness of X3: Ac Kc and a flop of three deuces leave 47 cards. *)
Lemma deck_without_spec_witness :
  len (deck_without [12; 11; 0; 13; 26]) = 52 - len [12; 11; 0; 13; 26].
Proof.
  apply (proj2 (proj2 (deck_without_spec [12; 11; 0; 13; 26]))).
  - nodup_Z.
  - repeat constructor; unfold valid_card; lia.
Defined.

(** ** The straight detector *)

Lemma shiftl_1_testbit (r b : Z) :
  0 <= r -> Z.testbit (Z.shiftl 1 r) b = (r =? b).
Proof.
  intros Hr. rewrite Z.shiftl_1_l. now apply Z.pow2_bits_eqb.
Qed.

Lemma need_mask_testbit (high b : Z) :
  4 <= high ->
  Z.testbit (need_mask high) b = (high - 4 <=? b) && (b <=? high).
Proof.
  intros Hh. unfold need_mask, range_0_5. cbn [fold_left].
  rewrite !Z.lor_spec, !shiftl_1_testbit by lia. rewrite Z.bits_0.
  destruct (Z.eqb_spec (high - 0) b), (Z.eqb_spec (high - 1) b),
    (Z.eqb_spec (high - 2) b), (Z.eqb_spec (high - 3) b),
    (Z.eqb_spec (high - 4) b),
    (Z.leb_spec (high - 4) b), (Z.leb_spec b high);
    try lia; reflexivity.
Qed.

Lemma land_need_iff (mask high : Z) :
  4 <= high ->
  Z.land mask (need_mask high) = need_mask high <-> has_straight mask high.
Proof.
  intros Hh. unfold has_straight. split.
  - intros E d Hd.
    assert (Hb : Z.testbit (Z.land mask (need_mask high)) (high - d)
                 = Z.testbit (need_mask high) (high - d)) by now rewrite E.
    rewrite Z.land_spec, need_mask_testbit in Hb by lia.
    destruct (Z.leb_spec (high - 4) (high - d)); [|lia].
    destruct (Z.leb_spec (high - d) high); [|lia].
    cbn [andb] in Hb. now rewrite andb_true_r in Hb.
  - intros H. apply Z.bits_inj'. intros b Hb.
    rewrite Z.land_spec, need_mask_testbit by lia.
    destruct (Z.leb_spec (high - 4) b); cbn [andb];
      [|now rewrite andb_false_r].
    destruct (Z.leb_spec b high); [|now rewrite andb_false_r].
    rewrite andb_true_r. replace b with (high - (high - b)) by lia.
    apply H. lia.
Qed.

Lemma first_straight_spec (mask : Z) (highs : list Z) :
  Forall (fun h => 4 <= h) highs ->
  (first_straight highs mask = 0
   /\ forall h, In h highs -> ~ has_straight mask h)
  \/ exists before after,
      highs = before ++ first_straight highs mask :: after
      /\ has_straight mask (first_straight highs mask)
      /\ forall h, In h before -> ~ has_straight mask h.
Proof.
  induction 1 as [|high rest Hh _ IH]; cbn [first_straight].
  - left. split; [reflexivity | intros h []].
  - destruct (Z.eqb_spec (Z.land mask (need_mask high)) (need_mask high))
      as [E|N].
    + right. exists [], rest. split; [reflexivity|].
      split; [now apply land_need_iff | intros h []].
    + assert (Hno : ~ has_straight mask high)
        by (intros Hs; apply N; now apply land_need_iff).
      destruct IH as [[E0 Hall] | (before & after & Hsplit & Hhas & Hbefore)].
      * left. split; [exact E0|]. intros h [<- | Hin]; auto.
      * right. exists (high :: before), after. split; [|split].
        -- cbn [app]. now rewrite <- Hsplit.
        -- exact Hhas.
        -- intros h [<- | Hin]; auto.
Qed.

Lemma straight_high_cases (mask : Z) :
  (straight_high_from_ranks_mask mask = 0
   /\ forall h, 5 <= h <= 14 -> ~ has_straight mask h)
  \/ (5 <= straight_high_from_ranks_mask mask <= 14
      /\ has_straight mask (straight_high_from_ranks_mask mask)
      /\ forall h, straight_high_from_ranks_mask mask < h <= 14 ->
                   ~ has_straight mask h).
Proof.
  unfold straight_high_from_ranks_mask.
  destruct (first_straight_spec mask straight_highs)
    as [[E0 Hall] | (before & after & Hsplit & Hhas & Hbefore)].
  { unfold straight_highs. repeat constructor; lia. }
  - left. split; [exact E0|]. intros h Hh. apply Hall.
    unfold straight_highs. simpl. lia.
  - right. set (high := first_straight straight_highs mask) in *.
    assert (Hin : In high straight_highs)
      by (rewrite Hsplit; apply in_elt).
    assert (Hsorted : StronglySorted Z.gt (before ++ high :: after)).
    { rewrite <- Hsplit. unfold straight_highs. repeat constructor; lia. }
    split; [unfold straight_highs in Hin; simpl in Hin; lia|].
    split; [exact Hhas|].
    intros h Hh. apply Hbefore.
    assert (Hinh : In h (before ++ high :: after)).
    { rewrite <- Hsplit. unfold straight_highs in *. simpl in Hin |- *. lia. }
    apply in_app_or in Hinh. destruct Hinh as [Hb | [Heq | Ha]];
      [exact Hb | lia |].
    exfalso. clear - Hsorted Ha Hh.
    induction before as [|x before IH]; cbn [app] in Hsorted.
    + inversion Hsorted as [|? ? _ Hall]; subst.
      rewrite Forall_forall in Hall. specialize (Hall h Ha). lia.
    + inversion Hsorted; subst. auto.
Qed.

(** X4: the straight detector returns the highest rank from 14 down to 5
    whose five bits (the rank and the four below it) are all set in the
    mask, and 0 when no such rank exists. *)
Theorem straight_high_is_highest (mask : Z) :
  let high := straight_high_from_ranks_mask mask in
  (high = 0 /\ forall h, 5 <= h <= 14 -> ~ has_straight mask h)
  \/ (5 <= high <= 14 /\ has_straight mask high
      /\ forall h, high < h <= 14 -> ~ has_straight mask h).
Proof.
  cbv zeta. exact (straight_high_cases mask).
Qed.

(** ** Parsing and formatting *)

Lemma accepted_of_success (t : string) (c : Z) :
  card_str_to_int t = Ok c ->
  exists r s, strip t = String r (String s EmptyString)
              /\ In r rank_chars /\ In s suit_chars.
Proof.
  intros H. destruct (card_str_to_int_cases t) as [[Ha _] | [_ He]].
  - exact Ha.
  - rewrite He in H. discriminate H.
Qed.

Lemma accepted_card_formats (t : string) (c : Z) :
  card_str_to_int t = Ok c ->
  valid_card c /\ format_cards [c] = Ok (canonical (strip t)).
Proof.
  intros H. destruct (accepted_of_success t c H) as (r & s & Hs & Hr & Hsu).
  unfold card_str_to_int in H. rewrite Hs in H. rewrite Hs. clear Hs.
  unfold rank_chars, suit_chars in Hr, Hsu. simpl in Hr, Hsu.
  repeat destruct Hr as [Hr | Hr]; try contradiction; subst r;
    repeat destruct Hsu as [Hsu | Hsu]; try contradiction; subst s;
    vm_compute in H; injection H as <-;
    (split; [split; [discriminate | reflexivity] | reflexivity]).
Qed.

(** X5: when [card_str_to_int] accepts a token, the card is a card of the
    deck and [format_cards] writes it as the canonical form (uppercase
    rank, lowercase suit) of the stripped token. *)
Theorem parse_then_format (t : string) (c : Z) :
  card_str_to_int t = Ok c ->
  valid_card c /\ format_cards [c] = Ok (canonical (strip t)).
Proof.
  intros H. destruct (accepted_card_formats t c H) as [Hv Hf].
  split; assumption.
Qed.

(** Witness of X5: the token " kD ". *)
Lemma parse_then_format_witness :
  valid_card 24 /\ format_cards [24] = Ok (canonical (strip " kD ")).
Proof.
  apply (parse_then_format " kD " 24). reflexivity.
Defined.

Lemma card_str_to_int_valid (t : string) (c : Z) :
  card_str_to_int t = Ok c -> valid_card c.
Proof.
  intros H. now destruct (accepted_card_formats t c H).
Qed.

Lemma card_str_to_int_error (t : string) (e : exn) :
  card_str_to_int t = Err e -> e = ValueError.
Proof.
  intros H. destruct (card_str_to_int_cases t) as [[_ [c Hc]] | [_ He]];
    congruence.
Qed.

Lemma parse_tokens_result (toks : list string) :
  (exists cards, parse_tokens toks = Ok cards
                 /\ Forall valid_card cards
                 /\ List.length cards = List.length toks)
  \/ parse_tokens toks = Err ValueError.
Proof.
  induction toks as [|t rest IH]; cbn [parse_tokens].
  - left. exists []. repeat split. constructor.
  - destruct (card_str_to_int t) as [c|e] eqn:Ec; cbn [bind].
    + destruct IH as [(cs & E & Hv & Hl) | E]; rewrite E; cbn [bind].
      * left. exists (c :: cs). repeat split.
        -- constructor; [now apply (card_str_to_int_valid t) | exact Hv].
        -- cbn [List.length]. now rewrite Hl.
      * now right.
    + right. f_equal. now apply (card_str_to_int_error t).
Qed.

(** X6: [parse_cards_str] returns cards of the deck, or it raises
    [ValueError]; it raises nothing else. *)
Theorem parse_cards_str_result (cards_str : string) :
  (exists cards, parse_cards_str cards_str = Ok cards
                 /\ Forall valid_card cards)
  \/ parse_cards_str cards_str = Err ValueError.
Proof.
  unfold parse_cards_str.
  destruct (parse_tokens_result
              (filter (fun t => negb (String.eqb t EmptyString))
                 (py_split (replace_commas cards_str))))
    as [(cards & E & Hv & _) | E].
  - left. exists cards. split; assumption.
  - now right.
Qed.

(** X7: a text of white space and commas only, the empty text among them,
    parses to the empty list of cards. *)
Theorem parse_cards_str_blank (cards_str : string) :
  all_chars blank_char cards_str = true ->
  parse_cards_str cards_str = Ok [].
Proof.
  intros H. unfold parse_cards_str, py_split.
  assert (E : split_ws (replace_commas cards_str) EmptyString = []).
  { induction cards_str as [|c s IH]; [reflexivity|].
    cbn [all_chars] in H. apply andb_true_iff in H. destruct H as [Hc Hs].
    cbn [replace_commas split_ws]. unfold blank_char in Hc.
    destruct (Ascii.eqb c ",") eqn:Ecomma.
    - change (is_space " ") with true. cbn iota. now apply IH.
    - rewrite orb_false_r in Hc. rewrite Hc. now apply IH. }
  rewrite E. reflexivity.
Qed.

(** Witness of X7: commas and spaces. *)
Lemma parse_cards_str_blank_witness :
  parse_cards_str " , ,, " = Ok [].
Proof.
  apply (parse_cards_str_blank " , ,, "). reflexivity.
Defined.

(** *** From cards to text and back *)

Lemma token_chars_not_space (r s : ascii) :
  In r rank_chars -> In s suit_chars_lower ->
  is_space r = false /\ is_space s = false
  /\ Ascii.eqb r "," = false /\ Ascii.eqb s "," = false.
Proof.
  unfold rank_chars, suit_chars_lower. simpl.
  intros Hr Hs.
  repeat destruct Hr as [Hr | Hr]; try contradiction; subst r;
    repeat destruct Hs as [Hs | Hs]; try contradiction; subst s;
    repeat split; reflexivity.
Qed.

Lemma format_each_tokens (cards : list Z) :
  Forall valid_card cards ->
  exists toks,
    format_each cards = Ok toks
    /\ Forall well_formed_token toks
    /\ parse_tokens toks = Ok cards.
Proof.
  induction 1 as [|c cs Hc _ IH].
  - exists []. repeat split. constructor.
  - destruct IH as (toks & E & Hw & Hp).
    apply card_in_deck in Hc. simpl in Hc.
    cbn [format_each]. 
    repeat destruct Hc as [Hc | Hc]; try contradiction; subst c;
      (eexists; split;
       [ vm_compute py_str_getitem; cbn [bind]; rewrite E; cbn [bind];
         reflexivity
       | split;
         [ constructor; [|exact Hw];
           do 2 eexists; split; [reflexivity|]; split; simpl; tauto
         | cbn [parse_tokens];
           match goal with
           | |- context [card_str_to_int ?t] =>
               let v := eval vm_compute in (card_str_to_int t) in
               change (card_str_to_int t) with v
           end;
           cbn [bind]; rewrite Hp; reflexivity ] ]).
Qed.

Lemma replace_commas_app (a b : string) :
  replace_commas (a ++ b) = (replace_commas a ++ replace_commas b)%string.
Proof.
  induction a as [|c a IH]; cbn [append replace_commas]; [reflexivity|].
  now rewrite IH.
Qed.

Lemma join_cons (sep t y : string) (l : list string) :
  join sep (t :: y :: l) = (t ++ sep ++ join sep (y :: l))%string.
Proof. reflexivity. Qed.

Lemma replace_commas_tokens (toks : list string) :
  Forall well_formed_token toks ->
  replace_commas (join " " toks) = join " " toks.
Proof.
  induction 1 as [|t l Ht _ IH]; [reflexivity|].
  assert (Et : replace_commas t = t).
  { destruct Ht as (r & s & -> & Hr & Hs).
    destruct (token_chars_not_space r s Hr Hs) as (_ & _ & Er & Es).
    cbn [replace_commas]. now rewrite Er, Es. }
  destruct l as [|y l']; [exact Et|].
  rewrite join_cons, !replace_commas_app, Et, IH. reflexivity.
Qed.

Lemma split_ws_token (t rest : string) :
  well_formed_token t ->
  split_ws (t ++ rest) EmptyString = split_ws rest t.
Proof.
  intros (r & s & -> & Hr & Hs).
  destruct (token_chars_not_space r s Hr Hs) as (Er & Es & _ & _).
  cbn [append split_ws]. rewrite Er. cbn [append split_ws]. rewrite Es.
  reflexivity.
Qed.

Lemma py_split_tokens (toks : list string) :
  Forall well_formed_token toks ->
  py_split (join " " toks) = toks.
Proof.
  unfold py_split.
  induction 1 as [|t l Ht _ IH]; [reflexivity|].
  destruct l as [|y l'].
  - destruct Ht as (r & s & -> & Hr & Hs).
    destruct (token_chars_not_space r s Hr Hs) as (Er & Es & _ & _).
    cbn [join append split_ws]. rewrite Er. cbn [append split_ws].
    rewrite Es. reflexivity.
  - rewrite join_cons, split_ws_token by exact Ht.
    destruct Ht as (r & s & -> & _).
    set (rest := join " " (y :: l')) in *.
    cbn [append split_ws]. change (is_space " ") with true. cbn iota.
    now rewrite IH.
Qed.

Lemma filter_nonempty_tokens (toks : list string) :
  Forall well_formed_token toks ->
  filter (fun t => negb (String.eqb t EmptyString)) toks = toks.
Proof.
  induction 1 as [|t l Ht _ IH]; cbn [filter]; [reflexivity|].
  destruct Ht as (r & s & -> & _). cbn [String.eqb negb]. now rewrite IH.
Qed.

(** X8: every list of cards of the deck is formatted, and the text parses
    back to the same list. *)
Theorem format_then_parse (cards : list Z) :
  Forall valid_card cards ->
  exists text, format_cards cards = Ok text /\ parse_cards_str text = Ok cards.
Proof.
  intros Hv. destruct (format_each_tokens cards Hv) as (toks & E & Hw & Hp).
  exists (join " " toks). split.
  - unfold format_cards. rewrite E. reflexivity.
  - unfold parse_cards_str.
    rewrite replace_commas_tokens, py_split_tokens, filter_nonempty_tokens
      by exact Hw.
    exact Hp.
Qed.

(** Witness of X8: Ac Kd 2h. *)
Lemma format_then_parse_witness :
  exists text,
    format_cards [12; 24; 26] = Ok text
    /\ parse_cards_str text = Ok [12; 24; 26].
Proof.
  apply (format_then_parse [12; 24; 26]).
  repeat constructor; unfold valid_card; lia.
Defined.

(** *** The cards that [format_cards] takes *)

Lemma string_get_some (s : string) (n : nat) :
  (n < String.length s)%nat -> exists a, String.get n s = Some a.
Proof.
  revert n. induction s as [|c s IH]; intros n Hn; cbn [String.length] in Hn;
    [lia|].
  destruct n as [|n]; cbn [String.get]; [eauto|]. apply IH. lia.
Qed.

Lemma py_str_getitem_cases (s : string) (i : Z) :
  let n := Z.of_nat (String.length s) in
  (- n <= i < n -> succeeds (py_str_getitem s i))
  /\ (~ (- n <= i < n) -> py_str_getitem s i = Err IndexError).
Proof.
  cbv zeta. unfold py_str_getitem, succeeds.
  set (n := Z.of_nat (String.length s)).
  split; intros H.
  - destruct (Z.ltb_spec i 0).
    + destruct (Z.leb_spec 0 (i + n)); [|lia].
      destruct (Z.ltb_spec (i + n) n); [|lia]. cbn [andb].
      destruct (string_get_some s (Z.to_nat (i + n))) as [a Ha]; [lia|].
      rewrite Ha. eauto.
    + destruct (Z.leb_spec 0 i); [|lia].
      destruct (Z.ltb_spec i n); [|lia]. cbn [andb].
      destruct (string_get_some s (Z.to_nat i)) as [a Ha]; [lia|].
      rewrite Ha. eauto.
  - destruct (Z.ltb_spec i 0).
    + destruct (Z.leb_spec 0 (i + n)); [lia | reflexivity].
    + destruct (Z.leb_spec 0 i); [|lia].
      destruct (Z.ltb_spec i n); [lia | reflexivity].
Qed.

Lemma format_one (c : Z) :
  (-52 <= c < 52 ->
   exists r s, py_str_getitem RANKS (c mod 13) = Ok r
               /\ py_str_getitem SUITS (c / 13) = Ok s)
  /\ (~ (-52 <= c < 52) ->
      exists r, py_str_getitem RANKS (c mod 13) = Ok r
                /\ py_str_getitem SUITS (c / 13) = Err IndexError).
Proof.
  pose proof (Z.div_mod c 13 ltac:(lia)) as Hdm.
  pose proof (Z.mod_pos_bound c 13 ltac:(lia)) as Hm.
  destruct (py_str_getitem_cases RANKS (c mod 13)) as [Hr _].
  destruct (py_str_getitem_cases SUITS (c / 13)) as [Hs Hs'].
  change (Z.of_nat (String.length RANKS)) with 13 in Hr.
  change (Z.of_nat (String.length SUITS)) with 4 in Hs, Hs'.
  destruct Hr as [r Er]; [lia|].
  split; intros Hc.
  - destruct Hs as [s Es]; [lia|]. eauto.
  - exists r. split; [exact Er|]. apply Hs'. lia.
Qed.

Lemma format_each_domain (cards : list Z) :
  (Forall (fun c => -52 <= c < 52) cards -> succeeds (format_each cards))
  /\ (~ Forall (fun c => -52 <= c < 52) cards ->
      format_each cards = Err IndexError).
Proof.
  induction cards as [|c cs [IH1 IH2]].
  - split; [intros _; eexists; reflexivity|]. intros H. exfalso. apply H.
    constructor.
  - cbn [format_each]. destruct (format_one c) as [Hin Hout]. split.
    + intros H. inversion H as [|? ? Hc Hcs]; subst.
      destruct (Hin Hc) as (r & s & Er & Es). rewrite Er, Es. cbn [bind].
      destruct (IH1 Hcs) as [out Eo]. rewrite Eo. cbn [bind].
      eexists; reflexivity.
    + intros H.
      destruct (Z_le_dec (-52) c) as [Hlo|Hlo];
        [destruct (Z_lt_dec c 52) as [Hhi|Hhi]|].
      * destruct (Hin (conj Hlo Hhi)) as (r & s & Er & Es).
        rewrite Er, Es. cbn [bind]. rewrite IH2; [reflexivity|].
        intros Hcs. apply H. constructor; [lia | exact Hcs].
      * destruct Hout as (r & Er & Es); [lia|]. rewrite Er, Es. reflexivity.
      * destruct Hout as (r & Er & Es); [lia|]. rewrite Er, Es. reflexivity.
Qed.

(** X9: [format_cards] writes the lists whose codes are all from -52 to 51
    and raises [IndexError] on every other list; a negative code from -52
    to -1 is written as the card 52 above it, the suit index counting from
    the end of the suit letters. *)
Theorem format_cards_domain (cards : list Z) :
  (Forall (fun c => -52 <= c < 52) cards -> succeeds (format_cards cards))
  /\ (~ Forall (fun c => -52 <= c < 52) cards ->
      format_cards cards = Err IndexError)
  /\ (forall c, -52 <= c < 0 -> format_cards [c] = format_cards [c + 52]).
Proof.
  destruct (format_each_domain cards) as [H1 H2]. unfold format_cards.
  split; [|split].
  - intros H. destruct (H1 H) as [out E]. rewrite E. eexists; reflexivity.
  - intros H. rewrite (H2 H). reflexivity.
  - intros c Hc.
    assert (Hin : valid_card (c + 52)) by (unfold valid_card; lia).
    apply card_in_deck in Hin. simpl in Hin.
    repeat destruct Hin as [Hin | Hin]; try contradiction;
      match type of Hin with
      | ?v = _ => replace c with (v - 52) by lia
      end; reflexivity.
Qed.

(** Witness of X9: the codes -1 and 51 are both written As. *)
Lemma format_cards_domain_witness :
  succeeds (format_cards [-1; 51]) /\ format_cards [-1] = format_cards [-1 + 52].
Proof.
  split.
  - apply (proj1 (format_cards_domain [-1; 51])).
    repeat constructor; lia.
  - apply (proj2 (proj2 (format_cards_domain []))). lia.
Defined.

(** ** The normalisation of the recognised text *)

Lemma replace_10_head (d : ascii) (s : string) :
  Ascii.eqb d "0" = false ->
  exists d' s', replace_10 (String d s) = String d' s'
                /\ Ascii.eqb d' "0" = false.
Proof.
  intros Hd. cbn [replace_10].
  destruct (Ascii.eqb d "1") eqn:E1.
  - destruct s as [|e s'].
    + do 2 eexists. split; [reflexivity | exact Hd].
    + destruct (Ascii.eqb e "0").
      * exists "T"%char, (replace_10 s'). split; reflexivity.
      * exists d, (replace_10 (String e s')). split; [reflexivity | exact Hd].
  - do 2 eexists. split; [reflexivity | exact Hd].
Qed.

Lemma contains_10_cons (c : ascii) (s : string) :
  contains_10 (String c s)
  = match s with
    | String d _ => (Ascii.eqb c "1" && Ascii.eqb d "0") || contains_10 s
    | EmptyString => false
    end.
Proof. reflexivity. Qed.

Lemma replace_10_clean_n (n : nat) :
  forall s, (String.length s <= n)%nat -> contains_10 (replace_10 s) = false.
Proof.
  induction n as [|n IH]; intros s Hn.
  - destruct s; [reflexivity | cbn [String.length] in Hn; lia].
  - destruct s as [|c s']; [reflexivity|]. cbn [String.length] in Hn.
    assert (Hs' : contains_10 (replace_10 s') = false) by (apply IH; lia).
    assert (Hkeep : forall x, Ascii.eqb x "1" = false \/
                              (forall d t, s' = String d t ->
                                           Ascii.eqb d "0" = false) ->
                              contains_10 (String x (replace_10 s')) = false).
    { intros x Hx. rewrite contains_10_cons.
      destruct s' as [|d t]; [reflexivity|].
      destruct Hx as [Hx | Hx].
      - destruct (replace_10 (String d t)); [reflexivity|].
        now rewrite Hx, Hs'.
      - destruct (replace_10_head d t (Hx d t eq_refl)) as (d' & t' & E & Hd').
        rewrite E in *. now rewrite Hd', andb_false_r, Hs'. }
    cbn [replace_10]. destruct (Ascii.eqb c "1") eqn:E1.
    + destruct s' as [|d s''].
      * reflexivity.
      * destruct (Ascii.eqb d "0") eqn:E0.
        -- rewrite contains_10_cons.
           assert (Hs'' : contains_10 (replace_10 s'') = false)
             by (apply IH; cbn [String.length] in Hn; lia).
           destruct (replace_10 s''); [reflexivity | exact Hs''].
        -- apply Hkeep. right. intros d0 t0 [= <- <-]. exact E0.
    + apply Hkeep. now left.
Qed.

Lemma replace_10_unchanged_n (n : nat) :
  forall s, (String.length s <= n)%nat ->
            contains_10 s = false -> replace_10 s = s.
Proof.
  induction n as [|n IH]; intros s Hn Hc.
  - destruct s; [reflexivity | cbn [String.length] in Hn; lia].
  - destruct s as [|c s']; [reflexivity|]. cbn [String.length] in Hn.
    rewrite contains_10_cons in Hc. cbn [replace_10].
    destruct s' as [|d s''].
    + now destruct (Ascii.eqb c "1").
    + apply orb_false_iff in Hc. destruct Hc as [H10 Hrest].
      assert (E : replace_10 (String d s'') = String d s'')
        by (apply IH; [lia | exact Hrest]).
      destruct (Ascii.eqb c "1"); cbn [andb] in H10.
      * rewrite H10. now rewrite E.
      * now rewrite E.
Qed.

(** X10: the text that [normalize_card_notation] returns never holds the
    two characters 10 one after the other, and a text without them comes
    back unchanged; so normalising a second time changes nothing. *)
Theorem normalize_card_notation_spec (cards_str : string) :
  contains_10 (normalize_card_notation cards_str) = false
  /\ (contains_10 cards_str = false ->
      normalize_card_notation cards_str = cards_str)
  /\ normalize_card_notation (normalize_card_notation cards_str)
     = normalize_card_notation cards_str.
Proof.
  assert (Hclean : contains_10 (normalize_card_notation cards_str) = false).
  { unfold normalize_card_notation.
    destruct (String.eqb_spec cards_str EmptyString) as [->|_];
      [reflexivity|].
    now apply (replace_10_clean_n (String.length cards_str)). }
  assert (Hsame : forall s, contains_10 s = false ->
                            normalize_card_notation s = s).
  { intros s Hs. unfold normalize_card_notation.
    destruct (String.eqb s EmptyString); [reflexivity|].
    now apply (replace_10_unchanged_n (String.length s)). }
  split; [exact Hclean|]. split; [apply Hsame|].
  apply Hsame. exact Hclean.
Qed.

(** Witness of X10: a text without the two characters. *)
Lemma normalize_card_notation_spec_witness :
  normalize_card_notation "Ks Th" = "Ks Th"%string.
Proof.
  apply (proj1 (proj2 (normalize_card_notation_spec "Ks Th"))). reflexivity.
Defined.

(** ** The evaluator on five cards or more *)

Lemma distinct_counts (cards : list Z) :
  NoDup cards -> Forall valid_card cards ->
  exists rc sc,
    count_cards cards (repeat 0 15%nat) (repeat 0 4%nat) = Ok (rc, sc)
    /\ (forall r, 0 <= r -> cnt rc r = count_rank cards r)
    /\ (forall s, 0 <= s -> cnt sc s = count_suit cards s)
    /\ len cards = 4 * len (with_count rc 4 ranks_desc)
                   + 3 * len (with_count rc 3 ranks_desc)
                   + 2 * len (with_count rc 2 ranks_desc)
                   + len (with_count rc 1 ranks_desc)
    /\ len (filter (fun r => 0 <? cnt rc r) ranks_desc)
       = len (with_count rc 4 ranks_desc) + len (with_count rc 3 ranks_desc)
         + len (with_count rc 2 ranks_desc) + len (with_count rc 1 ranks_desc).
Proof.
  intros Hnd Hv.
  destruct (count_cards_valid cards Hv) as (rc & sc & E & Cr & Cs).
  exists rc, sc. split; [exact E|]. split; [exact Cr|]. split; [exact Cs|].
  destruct (multiplicity_split (cnt rc) ranks_desc) as [H1 H2].
  { intros r Hr. rewrite Cr by now apply ranks_desc_nonneg.
    pose proof (count_rank_nonneg cards r).
    pose proof (count_rank_le_4 cards r Hnd Hv). lia. }
  split; [|exact H2].
  unfold with_count. rewrite <- H1.
  rewrite (sum_over_ext_in (cnt rc) (count_rank cards)).
  - now rewrite sum_count_rank.
  - intros r Hr. apply Cr. now apply ranks_desc_nonneg.
Qed.

(** X11: [evaluate_7] returns on every list of five or more distinct cards
    of the deck, not only on seven: the category is between 0 and 8 and the
    tiebreak tuple has the length of its category. Four cards can be too
    few: on the four deuces the kicker of the four of a kind is the maximum
    of an empty list, a [ValueError]. *)
Theorem evaluate_7_five_or_more :
  (forall cards,
      5 <= len cards -> NoDup cards -> Forall valid_card cards ->
      exists category tiebreak,
        evaluate_7 cards = Ok (category, tiebreak)
        /\ 0 <= category <= 8
        /\ List.length tiebreak = tiebreak_len category)
  /\ evaluate_7 [0; 13; 26; 39] = Err ValueError.
Proof.
  split; [|reflexivity].
  intros cards H5 Hnd Hv.
  destruct (distinct_counts cards Hnd Hv)
    as (rc & sc & E & Cr & Cs & Hsum & Hu).
  unfold evaluate_7. rewrite E. cbn [bind]. cbv zeta.
  rewrite classify_ranks_filters.
  set (Q := with_count rc 4 ranks_desc) in *.
  set (T := with_count rc 3 ranks_desc) in *.
  set (P := with_count rc 2 ranks_desc) in *.
  set (K := with_count rc 1 ranks_desc) in *.
  set (U := filter (fun r => 0 <? cnt rc r) ranks_desc) in *.
  assert (HU : NoDup U) by (apply NoDup_filter, ranks_desc_NoDup).
  assert (HQ : 0 <= len Q) by (unfold len; lia).
  assert (HT : 0 <= len T) by (unfold len; lia).
  assert (HP : 0 <= len P) by (unfold len; lia).
  assert (HK : 0 <= len K) by (unfold len; lia).
  assert (Hflush : find_flush_suit sc <> -1 ->
            List.length (firstn 5 (sorted_desc
              (flush_ranks_of cards (find_flush_suit sc)))) = 5%nat).
  { intros Hf. destruct (first_flush_spec sc range_4 Hf) as [Hin Hc5].
    fold (find_flush_suit sc) in Hin, Hc5.
    assert (0 <= find_flush_suit sc)
      by (unfold range_4 in Hin; simpl in Hin; lia).
    rewrite Cs in Hc5 by assumption.
    rewrite <- length_flush_ranks in Hc5. unfold len in Hc5.
    rewrite length_firstn, length_sorted_desc. lia. }
  rewrite !nonempty_len.
  match goal with
  | |- context [if negb (?x =? 0) then Ok (8, _) else _] =>
      destruct (negb (x =? 0))
  end.
  { finish_shape. }
  destruct (Z.ltb_spec 0 (len Q)).
  { getitem Q 0 quad_rank.
    pose proof (drop_one_length quad_rank U HU).
    getmax (filter (fun r => negb (r =? quad_rank)) U) kicker.
    finish_shape. }
  destruct (Z.ltb_spec 0 (len T)); cbn [andb].
  - destruct (Z.ltb_spec 0 (len P)); cbn [orb].
    { getitem T 0 trip_rank.
      destruct (Z.leb_spec 2 (len T)).
      - getitem T 1 pair_rank. finish_shape.
      - getitem P 0 pair_rank. finish_shape. }
    destruct (Z.leb_spec 2 (len T)).
    { getitem T 0 trip_rank. getitem T 1 pair_rank. finish_shape. }
    destruct (Z.eqb_spec (find_flush_suit sc) (-1)) as [Hf|Hf]; cbn [negb].
    2: { do 2 eexists. split; [reflexivity|]. split; [lia|].
         now apply Hflush. }
    match goal with
    | |- context [if negb (?x =? 0) then Ok (4, _) else _] =>
        destruct (negb (x =? 0))
    end.
    { finish_shape. }
    getitem T 0 trip_rank.
    pose proof (drop_one_length trip_rank U HU).
    getitem (filter (fun r => negb (r =? trip_rank)) U) 0 k1.
    getitem (filter (fun r => negb (r =? trip_rank)) U) 1 k2.
    finish_shape.
  - destruct (Z.eqb_spec (find_flush_suit sc) (-1)) as [Hf|Hf]; cbn [negb].
    2: { do 2 eexists. split; [reflexivity|]. split; [lia|].
         now apply Hflush. }
    match goal with
    | |- context [if negb (?x =? 0) then Ok (4, _) else _] =>
        destruct (negb (x =? 0))
    end.
    { finish_shape. }
    destruct (Z.leb_spec 2 (len P)).
    { getitem P 0 p1. getitem P 1 p2.
      pose proof (drop_two_length p1 p2 U HU).
      getmax (filter (fun r => negb (r =? p1) && negb (r =? p2)) U) kicker.
      finish_shape. }
    destruct (Z.eqb_spec (len P) 1).
    { getitem P 0 p.
      pose proof (drop_one_length p U HU).
      getitem (filter (fun r => negb (r =? p)) U) 0 k1.
      getitem (filter (fun r => negb (r =? p)) U) 1 k2.
      getitem (filter (fun r => negb (r =? p)) U) 2 k3.
      finish_shape. }
    do 2 eexists. split; [reflexivity|]. split; [lia|].
    rewrite length_firstn. unfold len in *. cbn [tiebreak_len]. lia.
Qed.

(** Witness of X11: the five cards Ac Kd 9h 5s 2c. *)
Lemma evaluate_7_five_or_more_witness :
  exists category tiebreak,
    evaluate_7 [12; 24; 33; 42; 0] = Ok (category, tiebreak)
    /\ 0 <= category <= 8
    /\ List.length tiebreak = tiebreak_len category.
Proof.
  apply (proj1 evaluate_7_five_or_more [12; 24; 33; 42; 0]).
  - unfold len; simpl; lia.
  - nodup_Z.
  - repeat constructor; unfold valid_card; lia.
Defined.

(** ** The evaluation does not depend on the order of the cards *)

Lemma py_incr_result (l : list Z) (i : Z) :
  (exists l', py_incr l i = Ok l' /\ List.length l' = List.length l)
  \/ py_incr l i = Err IndexError.
Proof.
  unfold py_incr. destruct (_ && _); [left | now right].
  eexists. split; [reflexivity | apply length_set_nth].
Qed.

Lemma set_nth_incr_swap (l : list Z) (a b : nat) :
  (a < List.length l)%nat -> (b < List.length l)%nat ->
  set_nth (set_nth l a (nth a l 0 + 1)) b
    (nth b (set_nth l a (nth a l 0 + 1)) 0 + 1)
  = set_nth (set_nth l b (nth b l 0 + 1)) a
      (nth a (set_nth l b (nth b l 0 + 1)) 0 + 1).
Proof.
  intros Ha Hb. apply (nth_ext _ _ 0 0).
  - now rewrite !length_set_nth.
  - intros n _.
    rewrite !nth_set_nth by (rewrite ?length_set_nth; assumption).
    destruct (Nat.eqb_spec n a) as [Hna|Hna], (Nat.eqb_spec n b) as [Hnb|Hnb];
      subst; rewrite ?Nat.eqb_refl; try reflexivity.
    + destruct (Nat.eqb_spec a b); [lia | reflexivity].
    + destruct (Nat.eqb_spec b a); [lia | reflexivity].
Qed.

Lemma py_incr_cases (l : list Z) (i : Z) :
  (exists j, (j < List.length l)%nat
             /\ forall l', List.length l' = List.length l ->
                           py_incr l' i = Ok (set_nth l' j (nth j l' 0 + 1)))
  \/ (forall l', List.length l' = List.length l ->
                 py_incr l' i = Err IndexError).
Proof.
  set (n := Z.of_nat (List.length l)).
  set (j := if i <? 0 then i + n else i).
  destruct ((0 <=? j) && (j <? n)) eqn:E.
  - left. exists (Z.to_nat j).
    pose proof (proj1 (andb_true_iff _ _) E) as E'.
    split; [unfold n in *; lia|].
    intros l' Hl. unfold py_incr. rewrite Hl. fold n. fold j. now rewrite E.
  - right. intros l' Hl. unfold py_incr. rewrite Hl. fold n. fold j.
    now rewrite E.
Qed.

Lemma py_incr_swap (l : list Z) (a b : Z) :
  (x <- py_incr l a ;; py_incr x b) = (x <- py_incr l b ;; py_incr x a).
Proof.
  destruct (py_incr_cases l a) as [(ja & Hja & Ha) | Ha],
    (py_incr_cases l b) as [(jb & Hjb & Hb) | Hb];
    rewrite (Ha l eq_refl), (Hb l eq_refl); cbn [bind];
    rewrite ?Ha, ?Hb by apply length_set_nth; try reflexivity.
  f_equal. now apply set_nth_incr_swap.
Qed.

Lemma incr_all_perm (indices indices' : list Z) :
  Permutation indices indices' ->
  forall counts, incr_all counts indices' = incr_all counts indices.
Proof.
  induction 1 as [| x l l' _ IH | x y l | l l' l'' _ IH1 _ IH2];
    intros counts.
  - reflexivity.
  - cbn [incr_all]. destruct (py_incr counts x); cbn [bind];
      [apply IH | reflexivity].
  - cbn [incr_all].
    pose proof (py_incr_swap counts x y) as Hs.
    destruct (py_incr counts x) as [cx|ex] eqn:Ex;
      destruct (py_incr counts y) as [cy|ey] eqn:Ey; cbn [bind] in *.
    + destruct (py_incr cx y) as [cxy|e1], (py_incr cy x) as [cyx|e2];
        cbn [bind]; congruence.
    + destruct (py_incr cx y) as [cxy|e1]; cbn [bind]; congruence.
    + destruct (py_incr cy x) as [cyx|e2]; cbn [bind]; congruence.
    + destruct (py_incr_result counts x) as [(? & ? & _) | E1],
        (py_incr_result counts y) as [(? & ? & _) | E2]; congruence.
  - now rewrite IH2, IH1.
Qed.

Lemma incr_all_error (indices : list Z) :
  forall counts e, incr_all counts indices = Err e -> e = IndexError.
Proof.
  induction indices as [|i rest IH]; intros counts e; cbn [incr_all].
  - discriminate.
  - destruct (py_incr_result counts i) as [(l' & E & _) | E]; rewrite E;
      cbn [bind]; [apply IH | congruence].
Qed.

(** The counting loop, as its rank half and its suit half. *)
Lemma count_cards_halves (cards : list Z) :
  forall rc sc,
    count_cards cards rc sc
    = match incr_all rc (map int_to_rank cards),
            incr_all sc (map int_to_suit cards) with
      | Ok rc', Ok sc' => Ok (rc', sc')
      | _, _ => Err IndexError
      end.
Proof.
  induction cards as [|c cs IH]; intros rc sc;
    cbn [count_cards map incr_all]; [reflexivity|].
  destruct (py_incr_result rc (int_to_rank c)) as [(rc1 & E1 & _) | E1];
    rewrite E1; cbn [bind]; [|reflexivity].
  destruct (py_incr_result sc (int_to_suit c)) as [(sc1 & E2 & _) | E2];
    rewrite E2; cbn [bind].
  - apply IH.
  - now destruct (incr_all rc1 (map int_to_rank cs)).
Qed.

Lemma count_cards_perm (cards cards' : list Z) (rc sc : list Z) :
  Permutation cards cards' ->
  count_cards cards' rc sc = count_cards cards rc sc.
Proof.
  intros Hp. rewrite !count_cards_halves.
  rewrite (incr_all_perm (map int_to_rank cards) (map int_to_rank cards'))
    by now apply Permutation_map.
  rewrite (incr_all_perm (map int_to_suit cards) (map int_to_suit cards'))
    by now apply Permutation_map.
  reflexivity.
Qed.

Lemma filter_perm {A : Type} (f : A -> bool) (l l' : list A) :
  Permutation l l' -> Permutation (filter f l) (filter f l').
Proof.
  induction 1 as [| x l l' _ IH | x y l | l l' l'' _ IH1 _ IH2];
    cbn [filter].
  - constructor.
  - destruct (f x); [now constructor | exact IH].
  - destruct (f x), (f y); try apply Permutation_refl; apply perm_swap.
  - now apply Permutation_trans with (filter f l').
Qed.

Lemma flush_ranks_perm (cards cards' : list Z) (s : Z) :
  Permutation cards cards' ->
  Permutation (flush_ranks_of cards s) (flush_ranks_of cards' s).
Proof.
  intros Hp. unfold flush_ranks_of. now apply Permutation_map, filter_perm.
Qed.

Lemma insert_desc_swap (x y : Z) (l : list Z) :
  insert_desc x (insert_desc y l) = insert_desc y (insert_desc x l).
Proof.
  induction l as [|a l IH]; cbn [insert_desc].
  - destruct (Z.leb_spec y x), (Z.leb_spec x y); try lia;
      try reflexivity.
    now replace y with x by lia.
  - destruct (Z.leb_spec a y), (Z.leb_spec a x); cbn [insert_desc].
    + destruct (Z.leb_spec y x), (Z.leb_spec x y),
        (Z.leb_spec a x), (Z.leb_spec a y); try lia; try reflexivity.
      now replace y with x by lia.
    + destruct (Z.leb_spec y x), (Z.leb_spec a x), (Z.leb_spec a y);
        try lia; reflexivity.
    + destruct (Z.leb_spec x y), (Z.leb_spec a x), (Z.leb_spec a y);
        try lia; reflexivity.
    + destruct (Z.leb_spec a x), (Z.leb_spec a y); try lia.
      now rewrite IH.
Qed.

Lemma sorted_desc_perm (l l' : list Z) :
  Permutation l l' -> sorted_desc l = sorted_desc l'.
Proof.
  induction 1 as [| x l l' _ IH | x y l | l l' l'' _ IH1 _ IH2];
    cbn [sorted_desc].
  - reflexivity.
  - now rewrite IH.
  - apply insert_desc_swap.
  - now rewrite IH1.
Qed.

Lemma existsb_In_ext {A : Type} (f : A -> bool) (l l' : list A) :
  (forall x, In x l <-> In x l') -> existsb f l = existsb f l'.
Proof.
  intros H. destruct (existsb f l) eqn:E; symmetry.
  - apply existsb_exists in E. destruct E as (x & Hx & Hf).
    apply existsb_exists. exists x. split; [now apply H | exact Hf].
  - destruct (existsb f l') eqn:E'; [|reflexivity].
    apply existsb_exists in E'. destruct E' as (x & Hx & Hf).
    assert (existsb f l = true); [|congruence].
    apply existsb_exists. exists x. split; [now apply H | exact Hf].
Qed.

Lemma flush_fold_spec (l : list Z) :
  Forall (fun r => 0 <= r) l ->
  forall m ace b,
    0 <= b ->
    let st :=
      fold_left
        (fun (st : Z * bool) r =>
           let '(m, ace) := st in
           (Z.lor m (Z.shiftl 1 r), if r =? 14 then true else ace))
        l (m, ace) in
    Z.testbit (fst st) b = Z.testbit m b || existsb (fun r => r =? b) l
    /\ snd st = ace || existsb (fun r => r =? 14) l.
Proof.
  induction 1 as [|r l Hr _ IH]; intros m ace b Hb; cbv zeta;
    cbn [fold_left existsb].
  - now rewrite !orb_false_r.
  - destruct (IH (Z.lor m (Z.shiftl 1 r)) (if r =? 14 then true else ace)
                b Hb) as [H1 H2].
    cbv zeta in H1, H2. rewrite H1, H2.
    rewrite Z.lor_spec, shiftl_1_testbit by exact Hr.
    split; [now rewrite orb_assoc|].
    destruct (r =? 14); cbn [orb]; [now rewrite orb_true_r | reflexivity].
Qed.

Lemma build_flush_mask_perm (cards cards' : list Z) (s : Z) :
  Permutation cards cards' ->
  build_flush_mask cards' s = build_flush_mask cards s.
Proof.
  intros Hp. unfold build_flush_mask.
  set (step := fun (st : Z * bool) r =>
                 let '(m, ace) := st in
                 (Z.lor m (Z.shiftl 1 r), if r =? 14 then true else ace)).
  assert (Hpos : forall cs, Forall (fun r => 0 <= r)
                              (nodup Z.eq_dec (flush_ranks_of cs s))).
  { intros cs. apply Forall_forall. intros r Hr. apply nodup_In in Hr.
    unfold flush_ranks_of in Hr. apply in_map_iff in Hr.
    destruct Hr as (c & <- & _). pose proof (int_to_rank_range c). lia. }
  assert (Hin : forall x, In x (nodup Z.eq_dec (flush_ranks_of cards' s))
                          <-> In x (nodup Z.eq_dec (flush_ranks_of cards s))).
  { intros x. rewrite !nodup_In.
    pose proof (flush_ranks_perm cards cards' s Hp) as Hfp.
    split; intros H.
    - apply Permutation_in with (flush_ranks_of cards' s);
        [now apply Permutation_sym | exact H].
    - now apply Permutation_in with (flush_ranks_of cards s). }
  pose proof (flush_fold_spec _ (Hpos cards) 0 false) as S.
  pose proof (flush_fold_spec _ (Hpos cards') 0 false) as S'.
  cbv zeta in S, S'. fold step in S, S'.
  destruct (fold_left step (nodup Z.eq_dec (flush_ranks_of cards s))
              (0, false)) as [fm ace].
  destruct (fold_left step (nodup Z.eq_dec (flush_ranks_of cards' s))
              (0, false)) as [fm' ace'].
  cbn [fst snd] in S, S'.
  assert (Eace : ace' = ace).
  { destruct (S 0 (Z.le_refl 0)) as [_ ->].
    destruct (S' 0 (Z.le_refl 0)) as [_ ->].
    f_equal. now apply existsb_In_ext. }
  assert (Efm : fm' = fm).
  { apply Z.bits_inj'. intros b Hb.
    destruct (S b Hb) as [-> _]. destruct (S' b Hb) as [-> _].
    f_equal. now apply existsb_In_ext. }
  now rewrite Eace, Efm.
Qed.

(** X12: [evaluate_7] gives the same result, or raises the same error, on
    the same cards in any order. *)
Theorem evaluate_7_permutation (cards cards' : list Z) :
  Permutation cards cards' -> evaluate_7 cards' = evaluate_7 cards.
Proof.
  intros Hp. unfold evaluate_7.
  rewrite (count_cards_perm cards cards') by exact Hp.
  destruct (count_cards cards (repeat 0 15%nat) (repeat 0 4%nat))
    as [[rc sc]|e]; cbn [bind]; [|reflexivity].
  cbv zeta.
  rewrite (build_flush_mask_perm cards cards') by exact Hp.
  rewrite (sorted_desc_perm (flush_ranks_of cards' (find_flush_suit sc))
             (flush_ranks_of cards (find_flush_suit sc)))
    by (apply Permutation_sym; now apply flush_ranks_perm).
  reflexivity.
Qed.

(** Witness of X12: the steel wheel with its cards reversed. *)
Lemma evaluate_7_permutation_witness :
  evaluate_7 [20; 33; 3; 2; 1; 0; 12] = evaluate_7 [12; 0; 1; 2; 3; 33; 20].
Proof.
  apply (evaluate_7_permutation [12; 0; 1; 2; 3; 33; 20]
           [20; 33; 3; 2; 1; 0; 12]).
  change [20; 33; 3; 2; 1; 0; 12] with (rev [12; 0; 1; 2; 3; 33; 20]).
  apply Permutation_rev.
Defined.

(** ** Four of a kind *)

Lemma fold_max_spec (t : list Z) :
  forall x,
    In (fold_left Z.max t x) (x :: t)
    /\ forall y, In y (x :: t) -> y <= fold_left Z.max t x.
Proof.
  induction t as [|a t IH]; intros x; cbn [fold_left].
  - split; [now left|]. intros y [<- | []]. lia.
  - destruct (IH (Z.max x a)) as [Hin Hmax]. split.
    + destruct Hin as [Hin | Hin]; [|right; now right].
      rewrite <- Hin.
      destruct (Z.max_spec x a) as [[_ E] | [_ E]]; rewrite E.
      * right. now left.
      * now left.
    + intros y [Hy | [Hy | Hy]].
      * specialize (Hmax (Z.max x a) (or_introl eq_refl)). lia.
      * specialize (Hmax (Z.max x a) (or_introl eq_refl)). lia.
      * apply Hmax. now right.
Qed.

Lemma py_max_spec (l : list Z) (m : Z) :
  py_max l = Ok m -> In m l /\ forall y, In y l -> y <= m.
Proof.
  destruct l as [|x t]; cbn [py_max]; [discriminate|].
  intros [= <-]. apply fold_max_spec.
Qed.

Ltac skip_branch := intros Habs; discriminate Habs.

(** X13: on seven distinct cards of the deck, a rank held four times gives
    category 7 with that rank and, as kicker, the highest other rank of the
    hand; and category 7 is returned for no other hand. *)
Theorem four_of_a_kind (cards : list Z) :
  hand7 cards ->
  (forall q,
      count_rank cards q = 4 ->
      exists k,
        evaluate_7 cards = Ok (7, [q; k])
        /\ k <> q /\ 0 < count_rank cards k
        /\ forall r, r <> q -> 0 < count_rank cards r -> r <= k)
  /\ (forall tb,
         evaluate_7 cards = Ok (7, tb) ->
         exists q, count_rank cards q = 4).
Proof.
  intros H7.
  destruct (hand7_counts cards H7) as (rc & sc & E & Cr & Cs & Hsum & Hu).
  destruct H7 as (_ & Hnd & _).
  pose proof (flush_needs_five_ranks cards rc sc Hnd Cr Cs) as Hflush.
  unfold evaluate_7. rewrite E. cbn [bind]. cbv zeta.
  rewrite classify_ranks_filters.
  set (Q := with_count rc 4 ranks_desc) in *.
  set (T := with_count rc 3 ranks_desc) in *.
  set (P := with_count rc 2 ranks_desc) in *.
  set (K := with_count rc 1 ranks_desc) in *.
  set (U := filter (fun r => 0 <? cnt rc r) ranks_desc) in *.
  assert (HU : NoDup U) by (apply NoDup_filter, ranks_desc_NoDup).
  assert (HQ : 0 <= len Q) by (unfold len; lia).
  assert (HT : 0 <= len T) by (unfold len; lia).
  assert (HP : 0 <= len P) by (unfold len; lia).
  assert (HK : 0 <= len K) by (unfold len; lia).
  split.
  - intros q Hq.
    pose proof (with_count_In cards rc 4 q Cr ltac:(lia) Hq) as Hin.
    fold Q in Hin.
    assert (HQ1 : 1 <= len Q)
      by (destruct Q; [contradiction | unfold len; cbn [List.length]; lia]).
    assert (EQ : Q = [q]) by (apply sorted_desc_singleton; auto; lia).
    assert (Hf : find_flush_suit sc = -1).
    { destruct (Z.eq_dec (find_flush_suit sc) (-1)) as [e|n]; [exact e|].
      specialize (Hflush n). lia. }
    rewrite Hf, EQ. cbn [Z.eqb negb nonempty].
    change (py_getitem [q] 0) with (@Ok Z q). cbn [bind].
    pose proof (drop_one_length q U HU) as Hdrop.
    destruct (py_max_ok (filter (fun r => negb (r =? q)) U)) as [k Ek];
      [rewrite EQ in *; unfold len in *; cbn [List.length] in *; lia|].
    rewrite Ek. cbn [bind]. exists k. split; [reflexivity|].
    destruct (py_max_spec _ _ Ek) as [Hk Hmax].
    apply filter_In in Hk. destruct Hk as [HkU Hkq].
    apply negb_true_iff, Z.eqb_neq in Hkq.
    apply filter_In in HkU. destruct HkU as [HkR Hkc].
    apply Z.ltb_lt in Hkc. rewrite Cr in Hkc by now apply ranks_desc_nonneg.
    split; [exact Hkq|]. split; [exact Hkc|].
    intros r Hrq Hr. apply Hmax. apply filter_In. split.
    + apply filter_In. pose proof (count_rank_pos_in cards r Hr) as HrR.
      split; [exact HrR|]. apply Z.ltb_lt.
      now rewrite Cr by now apply ranks_desc_nonneg.
    + now apply negb_true_iff, Z.eqb_neq.
  - intros tb. rewrite !nonempty_len.
    match goal with
    | |- context [if negb (?x =? 0) then Ok (8, _) else _] =>
        destruct (negb (x =? 0))
    end.
    { skip_branch. }
    destruct (Z.ltb_spec 0 (len Q)) as [HQpos|HQ0].
    { intros _. destruct Q as [|q Q'] eqn:EQ;
        [unfold len in HQpos; cbn [List.length] in HQpos; lia|].
      exists q.
      assert (Hin : In q (with_count rc 4 ranks_desc))
        by (fold Q; rewrite EQ; now left).
      unfold with_count in Hin. apply filter_In in Hin.
      destruct Hin as [HqR Hc]. apply Z.eqb_eq in Hc.
      now rewrite <- Cr by now apply ranks_desc_nonneg. }
    destruct (Z.ltb_spec 0 (len T)); cbn [andb].
    + destruct (Z.ltb_spec 0 (len P)); cbn [orb].
      { getitem T 0 trip_rank.
        destruct (Z.leb_spec 2 (len T)).
        - getitem T 1 pair_rank. skip_branch.
        - getitem P 0 pair_rank. skip_branch. }
      destruct (Z.leb_spec 2 (len T)).
      { getitem T 0 trip_rank. getitem T 1 pair_rank. skip_branch. }
      destruct (negb (find_flush_suit sc =? -1)); [skip_branch|].
      match goal with
      | |- context [if negb (?x =? 0) then Ok (4, _) else _] =>
          destruct (negb (x =? 0))
      end.
      { skip_branch. }
      getitem T 0 trip_rank.
      pose proof (drop_one_length trip_rank U HU).
      getitem (filter (fun r => negb (r =? trip_rank)) U) 0 k1.
      getitem (filter (fun r => negb (r =? trip_rank)) U) 1 k2.
      skip_branch.
    + destruct (negb (find_flush_suit sc =? -1)); [skip_branch|].
      match goal with
      | |- context [if negb (?x =? 0) then Ok (4, _) else _] =>
          destruct (negb (x =? 0))
      end.
      { skip_branch. }
      destruct (Z.leb_spec 2 (len P)).
      { getitem P 0 p1. getitem P 1 p2.
        pose proof (drop_two_length p1 p2 U HU).
        getmax (filter (fun r => negb (r =? p1) && negb (r =? p2)) U) kicker.
        skip_branch. }
      destruct (Z.eqb_spec (len P) 1).
      { getitem P 0 p.
        pose proof (drop_one_length p U HU).
        getitem (filter (fun r => negb (r =? p)) U) 0 k1.
        getitem (filter (fun r => negb (r =? p)) U) 1 k2.
        getitem (filter (fun r => negb (r =? p)) U) 2 k3.
        skip_branch. }
      skip_branch.
Qed.

(** Witness of X13: Ah Ad Ac As Kh 2c 3d. *)
Lemma four_of_a_kind_witness :
  exists k,
    evaluate_7 [38; 25; 12; 51; 37; 0; 14] = Ok (7, [14; k])
    /\ k <> 14 /\ 0 < count_rank [38; 25; 12; 51; 37; 0; 14] k
    /\ forall r, r <> 14 -> 0 < count_rank [38; 25; 12; 51; 37; 0; 14] r ->
                 r <= k.
Proof.
  assert (H7 : hand7 [38; 25; 12; 51; 37; 0; 14])
    by (apply hand7_intro; [reflexivity | nodup_Z | reflexivity]).
  apply (proj1 (four_of_a_kind [38; 25; 12; 51; 37; 0; 14] H7) 14).
  reflexivity.
Defined.

(** ** Runs of the simulator on legal input *)

Lemma sampled_from (rng : Type)
  (choose : rng -> list Z -> nat -> list Z * rng)
  (g : rng) (known deck : list Z) (need : Z) :
  sampler_sound rng choose ->
  NoDup known -> Forall valid_card known ->
  NoDup deck ->
  (forall a, In a deck -> valid_card a /\ ~ In a known) ->
  0 <= need <= len deck ->
  exists draw g',
    random_sample rng choose g deck need = Ok (draw, g')
    /\ len draw = need
    /\ NoDup (known ++ draw)
    /\ Forall valid_card (known ++ draw).
Proof.
  intros Hs Hnd Hv Hdeck Hin Hneed. unfold random_sample.
  destruct (Z.leb_spec 0 need); [|lia].
  destruct (Z.leb_spec need (len deck)); [|lia].
  cbn [andb].
  destruct (Hs g deck (Z.to_nat need)) as (Hl & Hn & Hi);
    [unfold len in *; lia | exact Hdeck |].
  destruct (choose g deck (Z.to_nat need)) as [draw g'].
  cbn [fst] in Hl, Hn, Hi. exists draw, g'. split; [reflexivity|].
  split; [unfold len; lia|]. split.
  - apply NoDup_app; [exact Hnd | exact Hn |].
    intros a Ha Hd. apply Hi, Hin in Hd. tauto.
  - apply Forall_app. split; [exact Hv|].
    apply Forall_forall. intros a Ha. apply Hi, Hin in Ha. tauto.
Qed.

Lemma sampled_deal (rng : Type)
  (choose : rng -> list Z -> nat -> list Z * rng)
  (g : rng) (hero board : list Z) (need : Z) :
  sampler_sound rng choose ->
  NoDup (hero ++ board) -> Forall valid_card (hero ++ board) ->
  0 <= need <= len (deck_without (hero ++ board)) ->
  exists draw g',
    random_sample rng choose g (deck_without (hero ++ board)) need
    = Ok (draw, g')
    /\ len draw = need
    /\ NoDup (hero ++ board ++ draw)
    /\ Forall valid_card (hero ++ board ++ draw).
Proof.
  intros Hs Hnd Hv Hneed.
  destruct (sampled_from rng choose g (hero ++ board)
              (deck_without (hero ++ board)) need Hs Hnd Hv
              (deck_without_NoDup (hero ++ board))
              (fun a => proj1 (deck_without_In (hero ++ board) a)) Hneed)
    as (draw & g' & E & Hl & Hn & Hf).
  exists draw, g'. rewrite <- !app_assoc in Hn, Hf. auto.
Qed.

Lemma iteration_ok (fl : Q -> Q)
  (fl_mono : forall x y : Q, (x <= y)%Q -> (fl x <= fl y)%Q)
  (fl_int : forall n : Z, Z.abs n <= float_exact_limit ->
                          (fl (inject_Z n) == inject_Z n)%Q)
  (hero board draw : list Z) (n_opponents : Z) (st : stats) :
  List.length hero = 2%nat ->
  len board <= 5 ->
  0 <= n_opponents ->
  len draw = n_opponents * 2 + (5 - len board) ->
  NoDup (hero ++ board ++ draw) ->
  Forall valid_card (hero ++ board ++ draw) ->
  succeeds (iteration fl hero board n_opponents draw st).
Proof.
  intros H2 H5 Hn Hd Hnd Hv.
  set (full_board := board ++ py_slice_from draw (n_opponents * 2)).
  assert (Hbound : n_opponents <= 22)
    by (apply (deal_opponents_bound hero board draw n_opponents); assumption).
  assert (Hhero : hand7 (hero ++ full_board))
    by (apply (hero_hand7 hero board draw n_opponents); assumption).
  destruct (evaluate_7_shape _ Hhero) as (hc & htb & Ehero & _).
  assert (Hopps : exists opp_evals,
             Forall2 (fun oc oe => evaluate_7 (oc ++ full_board) = Ok oe)
               (opp_cards_of draw n_opponents) opp_evals).
  { apply (opponents_evaluate hero board draw n_opponents); try assumption.
    apply range_bounds. }
  destruct Hopps as (oes & Hopp).
  assert (Hlen : len oes = n_opponents).
  { apply Forall2_length in Hopp. unfold opp_cards_of in Hopp.
    rewrite length_map in Hopp. pose proof (length_range n_opponents Hn).
    unfold len in *. lia. }
  unfold iteration, succeeds. fold full_board. rewrite Ehero. cbn [bind].
  rewrite (scan_opponents_spec _ _ _ _ Hopp).
  destruct (existsb (fun oe => 0 <? compare_hands oe (hc, htb)) oes).
  - cbn [bind Z.eqb]. eexists; reflexivity.
  - destruct (existsb (fun oe => compare_hands oe (hc, htb) =? 0) oes).
    + pose proof (filter_len_le
                    (fun oe => compare_hands oe (hc, htb) =? 0) oes) as Hle.
      assert (Hge : 0 <= len (filter (fun oe => compare_hands oe (hc, htb) =? 0)
                                oes)) by (unfold len; lia).
      destruct (float_div_int_share fl fl_mono fl_int
                  (1 + len (filter (fun oe => compare_hands oe (hc, htb) =? 0)
                              oes)))
        as (share & Es & _).
      { rewrite float_exact_limit_val. lia. }
      cbn [bind Z.eqb]. rewrite Es. cbn [bind]. eexists; reflexivity.
    + cbn [bind Z.eqb]. eexists; reflexivity.
Qed.

Lemma run_iterations_ok (fl : Q -> Q) (rng : Type)
  (choose : rng -> list Z -> nat -> list Z * rng)
  (fl_mono : forall x y : Q, (x <= y)%Q -> (fl x <= fl y)%Q)
  (fl_int : forall n : Z, Z.abs n <= float_exact_limit ->
                          (fl (inject_Z n) == inject_Z n)%Q)
  (hero board : list Z) (n_opponents : Z) :
  sampler_sound rng choose ->
  List.length hero = 2%nat ->
  len board <= 5 ->
  NoDup (hero ++ board) -> Forall valid_card (hero ++ board) ->
  0 <= n_opponents ->
  n_opponents * 2 + (5 - len board) <= len (deck_without (hero ++ board)) ->
  forall (n : nat) (g : rng) (st : stats),
    succeeds (run_iterations fl rng choose n hero board n_opponents
                (deck_without (hero ++ board))
                (n_opponents * 2 + (5 - len board)) g st).
Proof.
  intros Hs H2 H5 Hnd Hv Hn Hneed.
  induction n as [|n IH]; intros g st; cbn [run_iterations].
  - eexists; reflexivity.
  - destruct (sampled_deal rng choose g hero board
                (n_opponents * 2 + (5 - len board)) Hs Hnd Hv)
      as (draw & g' & E & Hl & Hnd' & Hv'); [lia|].
    rewrite E. cbn [bind].
    destruct (iteration_ok fl fl_mono fl_int hero board draw n_opponents st
                H2 H5 Hn Hl Hnd' Hv') as [st1 E1].
    rewrite E1. cbn [bind]. apply IH.
Qed.

Lemma int_truediv_small (fl : Q -> Q) (a b : Z) :
  0 <= a <= b -> 0 < b ->
  int_truediv fl a b = Ok (fl (inject_Z a / inject_Z b)%Q).
Proof.
  intros Ha Hb. unfold int_truediv.
  destruct (Z.eqb_spec b 0); [lia|].
  destruct (Qle_bool (inject_Z float_overflow_limit)
              (Qabs (inject_Z a / inject_Z b))) eqn:E; [|reflexivity].
  exfalso. apply Qle_bool_iff in E.
  assert (Hpos : (0 < inject_Z b)%Q)
    by (change 0%Q with (inject_Z 0); rewrite <- Zlt_Qlt; lia).
  assert (H0 : (0 <= inject_Z a / inject_Z b)%Q).
  { apply Qle_shift_div_l; [exact Hpos|]. rewrite Qmult_0_l.
    change 0%Q with (inject_Z 0). rewrite <- Zle_Qle. lia. }
  assert (H1 : (inject_Z a / inject_Z b <= 1)%Q).
  { apply Qle_shift_div_r; [exact Hpos|]. rewrite Qmult_1_l.
    rewrite <- Zle_Qle. lia. }
  rewrite Qabs_pos in E by exact H0.
  pose proof float_exact_below_overflow as Hlim.
  rewrite float_exact_limit_val in Hlim.
  assert (Hc : (inject_Z float_overflow_limit <= inject_Z 1)%Q)
    by (apply Qle_trans with (inject_Z a / inject_Z b)%Q; assumption).
  rewrite <- Zle_Qle in Hc. lia.
Qed.

(** The loop and the two divisions after it on legal input. *)
Lemma simulate_equity_ok (fl : Q -> Q) (rng : Type)
  (seed_rng : Z -> rng) (choose : rng -> list Z -> nat -> list Z * rng)
  (fl_mono : forall x y : Q, (x <= y)%Q -> (fl x <= fl y)%Q)
  (fl_int : forall n : Z, Z.abs n <= float_exact_limit ->
                          (fl (inject_Z n) == inject_Z n)%Q)
  (g : rng) (hero board : list Z) (n_opponents iterations : Z)
  (seed : option Z) :
  sampler_sound rng choose ->
  List.length hero = 2%nat ->
  len board <= 5 ->
  NoDup (hero ++ board) -> Forall valid_card (hero ++ board) ->
  0 <= n_opponents ->
  n_opponents * 2 + (5 - len board) <= len (deck_without (hero ++ board)) ->
  1 <= iterations <= float_exact_limit ->
  succeeds (simulate_equity fl rng seed_rng choose g hero board n_opponents
              iterations seed).
Proof.
  intros Hs H2 H5 Hnd Hv Hn Hneed Hit. unfold simulate_equity.
  set (g0 := match seed with Some s => seed_rng s | None => g end).
  destruct (run_iterations_ok fl rng choose fl_mono fl_int hero board
              n_opponents Hs H2 H5 Hnd Hv Hn Hneed (Z.to_nat iterations) g0
              (mkStats 0 0 0 0)) as [st Erun].
  rewrite Erun. cbn [bind].
  pose proof Erun as Hinv.
  apply (run_iterations_inv fl fl_mono fl_int _ _ _ _ _ _ _ _ _ 0) in Hinv;
    [| repeat split; simpl; try lia; apply Qle_refl | lia | lia].
  rewrite Z.add_0_l, Z2Nat.id in Hinv by lia.
  destruct Hinv as (Hsum & Hw & Ht & Hl & _ & _).
  rewrite int_truediv_small by lia. cbn [bind].
  unfold float_div_int.
  destruct (float_of_int_exact fl fl_int iterations ltac:(lia))
    as (y & Ey & Hy).
  rewrite Ey. cbn [bind].
  destruct (Qeq_bool y 0) eqn:E0.
  - exfalso. apply Qeq_bool_iff in E0. rewrite Hy in E0.
    change 0%Q with (inject_Z 0) in E0.
    apply (proj1 (inject_Z_injective iterations 0)) in E0. lia.
  - eexists; reflexivity.
Qed.

(** X14: with a generator that draws distinct cards of the population, a
    call of [simulate_equity] on legal input returns a result: two hero
    cards and at most five board cards, all distinct cards of the deck, no
    more cards needed than the remaining deck holds, and between 1 and 2^53
    iterations. No iteration fails on the way. *)
Theorem simulate_equity_completes (fl : Q -> Q) (rng : Type)
  (seed_rng : Z -> rng) (choose : rng -> list Z -> nat -> list Z * rng)
  (fl_mono : forall x y : Q, (x <= y)%Q -> (fl x <= fl y)%Q)
  (fl_int : forall n : Z, Z.abs n <= float_exact_limit ->
                          (fl (inject_Z n) == inject_Z n)%Q)
  (g : rng) (hero board : list Z) (n_opponents iterations : Z)
  (seed : option Z) :
  sampler_sound rng choose ->
  List.length hero = 2%nat ->
  len board <= 5 ->
  NoDup (hero ++ board) -> Forall valid_card (hero ++ board) ->
  0 <= n_opponents ->
  n_opponents * 2 + (5 - len board) <= len (deck_without (hero ++ board)) ->
  1 <= iterations <= float_exact_limit ->
  succeeds (simulate_equity fl rng seed_rng choose g hero board n_opponents
              iterations seed).
Proof.
  exact (simulate_equity_ok fl rng seed_rng choose fl_mono fl_int g hero
           board n_opponents iterations seed).
Qed.

Lemma choose_first_sound : sampler_sound unit choose_first.
Proof.
  intros g population k Hk Hnd. unfold choose_first. cbn [fst].
  split; [rewrite length_firstn; lia|]. split.
  - rewrite <- (firstn_skipn k population) in Hnd.
    now apply NoDup_app_remove_r in Hnd.
  - intros a Ha. rewrite <- (firstn_skipn k population).
    apply in_or_app. now left.
Qed.

(** Witness of X14: Ac Kc against two opponents, three iterations. *)
Lemma simulate_equity_completes_witness :
  succeeds (simulate_equity fl_exact unit seed_unit choose_first tt
              [12; 11] [] 2 3 None).
Proof.
  apply (simulate_equity_completes fl_exact unit seed_unit choose_first
           fl_exact_mono fl_exact_int tt [12; 11] [] 2 3 None).
  - exact choose_first_sound.
  - reflexivity.
  - unfold len; simpl; lia.
  - nodup_Z.
  - repeat constructor; unfold valid_card; lia.
  - lia.
  - rewrite deck_without_length;
      [unfold len; simpl; lia | nodup_Z
      | repeat constructor; unfold valid_card; lia].
  - rewrite float_exact_limit_val. lia.
Defined.

(** *** No opponent *)

Lemma iteration_no_opponent (fl : Q -> Q) (hero board draw : list Z)
  (st : stats) :
  List.length hero = 2%nat ->
  len board <= 5 ->
  len draw = 5 - len board ->
  NoDup (hero ++ board ++ draw) ->
  Forall valid_card (hero ++ board ++ draw) ->
  iteration fl hero board 0 draw st
  = Ok (mkStats (wins st + 1) (ties st) (losses st)
          (fadd fl (equity_shares st) 1)).
Proof.
  intros H2 H5 Hd Hnd Hv.
  assert (Hhero : hand7 (hero ++ board ++ py_slice_from draw (0 * 2)))
    by (apply (hero_hand7 hero board draw 0); try assumption; lia).
  destruct (evaluate_7_shape _ Hhero) as (hc & htb & Ehero & _).
  unfold iteration. rewrite Ehero. reflexivity.
Qed.

Lemma run_no_opponent (fl : Q -> Q) (rng : Type)
  (choose : rng -> list Z -> nat -> list Z * rng)
  (fl_mono : forall x y : Q, (x <= y)%Q -> (fl x <= fl y)%Q)
  (fl_int : forall n : Z, Z.abs n <= float_exact_limit ->
                          (fl (inject_Z n) == inject_Z n)%Q)
  (hero board : list Z) :
  sampler_sound rng choose ->
  List.length hero = 2%nat ->
  len board <= 5 ->
  NoDup (hero ++ board) -> Forall valid_card (hero ++ board) ->
  forall (n : nat) (g : rng) (st : stats),
    0 <= wins st -> wins st + Z.of_nat n <= float_exact_limit ->
    (equity_shares st == inject_Z (wins st))%Q ->
    exists st',
      run_iterations fl rng choose n hero board 0
        (deck_without (hero ++ board)) (0 * 2 + (5 - len board)) g st
      = Ok st'
      /\ wins st' = wins st + Z.of_nat n
      /\ ties st' = ties st /\ losses st' = losses st
      /\ (equity_shares st' == inject_Z (wins st'))%Q.
Proof.
  intros Hs H2 H5 Hnd Hv.
  assert (Hdeck : len (deck_without (hero ++ board)) = 52 - len (hero ++ board))
    by now apply deck_without_length.
  assert (Hknown : len (hero ++ board) = 2 + len board)
    by (unfold len; rewrite length_app; lia).
  assert (Hb0 : 0 <= len board) by (unfold len; lia).
  induction n as [|n IH]; intros g st Hw Hlim Hsh; cbn [run_iterations].
  - exists st. rewrite Z.add_0_r. repeat split; auto.
  - destruct (sampled_deal rng choose g hero board (0 * 2 + (5 - len board))
                Hs Hnd Hv)
      as (draw & g' & E & Hl & Hnd' & Hv'); [lia|].
    rewrite E. cbn [bind].
    rewrite (iteration_no_opponent fl hero board draw st H2 H5) by
      (assumption || lia).
    cbn [bind].
    destruct (IH g' (mkStats (wins st + 1) (ties st) (losses st)
                       (fadd fl (equity_shares st) 1)))
      as (st' & Erun & Ew & Et & El & Es);
      cbn [wins ties losses equity_shares] in *; try lia.
    { unfold fadd. rewrite <- (fl_int (wins st + 1)) by lia.
      apply (fl_proper fl fl_mono). rewrite Hsh, inject_Z_plus. reflexivity. }
    exists st'. split; [exact Erun|]. repeat split; try assumption. lia.
Qed.

(** X15: without opponents, on a legal hero hand and board and with a
    generator that draws distinct cards, every iteration is a win: the call
    returns [wins = iterations], [ties = losses = 0] and both rates equal
    to 1. *)
Theorem simulate_equity_no_opponent (fl : Q -> Q) (rng : Type)
  (seed_rng : Z -> rng) (choose : rng -> list Z -> nat -> list Z * rng)
  (fl_mono : forall x y : Q, (x <= y)%Q -> (fl x <= fl y)%Q)
  (fl_int : forall n : Z, Z.abs n <= float_exact_limit ->
                          (fl (inject_Z n) == inject_Z n)%Q)
  (g : rng) (hero board : list Z) (iterations : Z) (seed : option Z) :
  sampler_sound rng choose ->
  List.length hero = 2%nat ->
  len board <= 5 ->
  NoDup (hero ++ board) -> Forall valid_card (hero ++ board) ->
  1 <= iterations <= float_exact_limit ->
  exists win_rate equity,
    simulate_equity fl rng seed_rng choose g hero board 0 iterations seed
    = Ok (win_rate, equity, iterations, 0, 0)
    /\ (win_rate == 1)%Q /\ (equity == 1)%Q.
Proof.
  intros Hs H2 H5 Hnd Hv Hit. unfold simulate_equity.
  set (g0 := match seed with Some s => seed_rng s | None => g end).
  destruct (run_no_opponent fl rng choose fl_mono fl_int hero board
              Hs H2 H5 Hnd Hv (Z.to_nat iterations) g0 (mkStats 0 0 0 0))
    as (st & Erun & Ew & Et & El & Es);
    cbn [wins ties losses equity_shares]; try lia; [reflexivity|].
  cbn [wins ties losses equity_shares] in Ew, Et, El.
  rewrite Erun. cbn [bind].
  rewrite Z.add_0_l, Z2Nat.id in Ew by lia.
  rewrite Ew in Es. rewrite Ew, Et, El.
  rewrite int_truediv_small by lia. cbn [bind].
  unfold float_div_int.
  destruct (float_of_int_exact fl fl_int iterations ltac:(lia))
    as (y & Ey & Hy).
  rewrite Ey. cbn [bind].
  assert (Hne : ~ (inject_Z iterations == 0)%Q).
  { intros E0. change 0%Q with (inject_Z 0) in E0.
    apply (proj1 (inject_Z_injective iterations 0)) in E0. lia. }
  destruct (Qeq_bool y 0) eqn:E0.
  - exfalso. apply Qeq_bool_iff in E0. rewrite Hy in E0. now apply Hne.
  - do 2 eexists. split; [reflexivity|]. split.
    + apply Qeq_trans with (fl 1%Q); [|apply (fl_1 fl fl_int)].
      apply (fl_proper fl fl_mono). unfold Qdiv. now apply Qmult_inv_r.
    + apply Qeq_trans with (fl 1%Q); [|apply (fl_1 fl fl_int)].
      apply (fl_proper fl fl_mono). rewrite Hy, Es. unfold Qdiv.
      now apply Qmult_inv_r.
Qed.

(** Witness of X15: Ac Kc on a flop of three deuces, four iterations. *)
Lemma simulate_equity_no_opponent_witness :
  exists win_rate equity,
    simulate_equity fl_exact unit seed_unit choose_first tt
      [12; 11] [0; 13; 26] 0 4 None
    = Ok (win_rate, equity, 4, 0, 0)
    /\ (win_rate == 1)%Q /\ (equity == 1)%Q.
Proof.
  apply (simulate_equity_no_opponent fl_exact unit seed_unit choose_first
           fl_exact_mono fl_exact_int tt [12; 11] [0; 13; 26] 4 None).
  - exact choose_first_sound.
  - reflexivity.
  - unfold len; simpl; lia.
  - nodup_Z.
  - repeat constructor; unfold valid_card; lia.
  - rewrite float_exact_limit_val. lia.
Defined.

(** ** The confidence interval of the reporter *)

Lemma py_fmax_0_bounds (x p : Q) :
  (0 <= p)%Q -> (x <= p)%Q -> (0 <= py_fmax 0 x)%Q /\ (py_fmax 0 x <= p)%Q.
Proof.
  intros Hp Hx. unfold py_fmax. destruct (Qltb 0 x) eqn:E.
  - apply Qltb_lt in E. split; [now apply Qlt_le_weak | exact Hx].
  - split; [apply Qle_refl | exact Hp].
Qed.

Lemma py_fmin_1_bounds (x p : Q) :
  (p <= 1)%Q -> (p <= x)%Q -> (p <= py_fmin 1 x)%Q /\ (py_fmin 1 x <= 1)%Q.
Proof.
  intros Hp Hx. unfold py_fmin. destruct (Qltb x 1) eqn:E.
  - apply Qltb_lt in E. split; [exact Hx | now apply Qlt_le_weak].
  - split; [exact Hp | apply Qle_refl].
Qed.

(** X16: with [n >= 1] small enough to convert to a float, a float [p]
    between 0 and 1 and a square root that is never negative, the closure
    [ci] raises nothing and returns an interval that contains [p] and lies
    within [0, 1]. *)
Theorem ci_interval (fl fsqrt : Q -> Q)
  (fl_mono : forall x y : Q, (x <= y)%Q -> (fl x <= fl y)%Q)
  (fl_int : forall n : Z, Z.abs n <= float_exact_limit ->
                          (fl (inject_Z n) == inject_Z n)%Q)
  (fsqrt_pos : forall x : Q, (0 <= x)%Q -> (0 <= fsqrt x)%Q)
  (n : Z) (p : Q) :
  (fl p == p)%Q -> (0 <= p <= 1)%Q ->
  1 <= n < float_overflow_limit ->
  exists lo hi,
    ci fl fsqrt n p = Ok (lo, hi)
    /\ (0 <= lo)%Q /\ (lo <= p)%Q /\ (p <= hi)%Q /\ (hi <= 1)%Q.
Proof.
  intros Hp [H0 H1] Hn. unfold ci.
  destruct (0 <? n) eqn:En; [|apply Z.ltb_ge in En; lia].
  unfold float_div_int, float_of_int.
  destruct (Z.abs n <? float_overflow_limit) eqn:Ea;
    [|apply Z.ltb_ge in Ea; lia].
  cbn [bind].
  assert (Hy : (1 <= fl (inject_Z n))%Q).
  { apply Qle_trans with (fl 1%Q).
    - rewrite (fl_1 fl fl_int). apply Qle_refl.
    - apply fl_mono. change 1%Q with (inject_Z 1).
      rewrite <- Zle_Qle. lia. }
  assert (Hy0 : (0 < fl (inject_Z n))%Q)
    by (apply Qlt_le_trans with 1%Q; [reflexivity | exact Hy]).
  destruct (Qeq_bool (fl (inject_Z n)) 0) eqn:E0.
  { exfalso. apply Qeq_bool_iff in E0. rewrite E0 in Hy0.
    discriminate Hy0. }
  cbn [bind].
  set (x := fl (fmul fl p (fsub fl 1 p) / fl (inject_Z n))%Q).
  assert (Hx : (0 <= x)%Q).
  { unfold x. apply (fl_ge_0 fl fl_mono fl_int).
    apply Qle_shift_div_l; [exact Hy0|]. rewrite Qmult_0_l.
    unfold fmul. apply (fl_ge_0 fl fl_mono fl_int).
    apply Qmult_le_0_compat; [exact H0|].
    unfold fsub. apply (fl_ge_0 fl fl_mono fl_int).
    unfold Qminus. apply (proj1 (Qle_minus_iff p 1)). exact H1. }
  destruct (Qltb x 0) eqn:Ex.
  { exfalso. apply Qltb_lt in Ex. apply (Qlt_not_le _ _ Ex Hx). }
  cbn [bind].
  set (t := fmul fl (fl (196 # 100)) (fsqrt x)).
  assert (Ht : (0 <= t)%Q).
  { unfold t, fmul. apply (fl_ge_0 fl fl_mono fl_int).
    apply Qmult_le_0_compat; [|now apply fsqrt_pos].
    apply (fl_ge_0 fl fl_mono fl_int). discriminate. }
  do 2 eexists. split; [reflexivity|].
  assert (Hlo : (fsub fl p t <= p)%Q).
  { unfold fsub. apply Qle_trans with (fl p); [|rewrite Hp; apply Qle_refl].
    apply fl_mono. apply (proj2 (Qle_minus_iff (p - t) p)).
    setoid_replace (p + - (p - t))%Q with t by ring. exact Ht. }
  assert (Hhi : (p <= fadd fl p t)%Q).
  { unfold fadd. apply Qle_trans with (fl p); [rewrite Hp; apply Qle_refl|].
    apply fl_mono. apply (proj2 (Qle_minus_iff p (p + t))).
    setoid_replace (p + t + - p)%Q with t by ring. exact Ht. }
  destruct (py_fmax_0_bounds _ _ H0 Hlo) as [L1 L2].
  destruct (py_fmin_1_bounds _ _ H1 Hhi) as [U1 U2].
  auto.
Qed.

(** Witness of X16: p = 1 after four iterations. *)
Lemma ci_interval_witness :
  exists lo hi,
    ci fl_exact fsqrt_id 4 1 = Ok (lo, hi)
    /\ (0 <= lo)%Q /\ (lo <= 1)%Q /\ (1 <= hi)%Q /\ (hi <= 1)%Q.
Proof.
  apply (ci_interval fl_exact fsqrt_id fl_exact_mono fl_exact_int
           (fun x H => H) 4 1).
  - reflexivity.
  - split; discriminate.
  - split; [lia|].
    apply Z.lt_trans with float_exact_limit;
      [rewrite float_exact_limit_val; lia | exact float_exact_below_overflow].
Defined.

(** ** Flushes and straights *)

(** The branch that [evaluate_7] takes on seven cards of the deck, by the
    flush suit and the two straight detections. With a flush suit there are
    five ranks at least, which leaves no room for four of a kind or a full
    house. *)
Lemma evaluate_7_branches (cards : list Z) (c : Z) (tb : list Z) :
  hand7 cards ->
  evaluate_7 cards = Ok (c, tb) ->
  exists rc sc,
    count_cards cards (repeat 0 15%nat) (repeat 0 4%nat) = Ok (rc, sc)
    /\ (forall r, 0 <= r -> cnt rc r = count_rank cards r)
    /\ (forall s, 0 <= s -> cnt sc s = count_suit cards s)
    /\ ((find_flush_suit sc <> -1
         /\ ((c = 8
              /\ tb = [straight_high_from_ranks_mask
                         (build_flush_mask cards (find_flush_suit sc))]
              /\ straight_high_from_ranks_mask
                   (build_flush_mask cards (find_flush_suit sc)) <> 0)
             \/ (c = 5
                 /\ straight_high_from_ranks_mask
                      (build_flush_mask cards (find_flush_suit sc)) = 0
                 /\ tb = firstn 5 (sorted_desc
                            (flush_ranks_of cards (find_flush_suit sc))))))
        \/ (find_flush_suit sc = -1
            /\ ((c = 4
                 /\ tb = [straight_high_from_ranks_mask (build_rank_mask rc)]
                 /\ straight_high_from_ranks_mask (build_rank_mask rc) <> 0)
                \/ (c <> 4 /\ c <> 5 /\ c <> 8
                    /\ (c = 7 \/ c = 6
                        \/ straight_high_from_ranks_mask
                             (build_rank_mask rc) = 0))))).
Proof.
  intros H7.
  destruct (hand7_counts cards H7) as (rc & sc & E & Cr & Cs & Hsum & Hu).
  destruct H7 as (_ & Hnd & _).
  pose proof (flush_needs_five_ranks cards rc sc Hnd Cr Cs) as Hflush.
  intros Hev. exists rc, sc.
  split; [exact E|]. split; [exact Cr|]. split; [exact Cs|].
  revert Hev.
  unfold evaluate_7. rewrite E. cbn [bind]. cbv zeta.
  rewrite classify_ranks_filters.
  set (Q := with_count rc 4 ranks_desc) in *.
  set (T := with_count rc 3 ranks_desc) in *.
  set (P := with_count rc 2 ranks_desc) in *.
  set (K := with_count rc 1 ranks_desc) in *.
  set (U := filter (fun r => 0 <? cnt rc r) ranks_desc) in *.
  set (SF := straight_high_from_ranks_mask
               (build_flush_mask cards (find_flush_suit sc))).
  set (ST := straight_high_from_ranks_mask (build_rank_mask rc)).
  assert (HU : NoDup U) by (apply NoDup_filter, ranks_desc_NoDup).
  assert (HQ : 0 <= len Q) by (unfold len; lia).
  assert (HT : 0 <= len T) by (unfold len; lia).
  assert (HP : 0 <= len P) by (unfold len; lia).
  assert (HK : 0 <= len K) by (unfold len; lia).
  rewrite !nonempty_len.
  destruct (Z.eqb_spec (find_flush_suit sc) (-1)) as [Hf|Hf]; cbn [negb].
  - (* no flush suit *)
    cbn [Z.eqb negb].
    assert (Hother : forall k t, k <> 4 -> k <> 5 -> k <> 8 ->
              k = 7 \/ k = 6 \/ ST = 0 ->
              Ok (k, t) = Ok (c, tb) ->
              find_flush_suit sc <> -1 /\
              (c = 8 /\ tb = [SF] /\ SF <> 0
               \/ c = 5 /\ SF = 0
                  /\ tb = firstn 5 (sorted_desc
                             (flush_ranks_of cards (find_flush_suit sc)))) \/
              find_flush_suit sc = -1 /\
              (c = 4 /\ tb = [ST] /\ ST <> 0
               \/ c <> 4 /\ c <> 5 /\ c <> 8 /\ (c = 7 \/ c = 6 \/ ST = 0))).
    { intros k t H4 H5 H8 Hk [= <- <-]. right. split; [exact Hf|].
      right. auto. }
    assert (Hstraight : ST <> 0 -> Ok (4, [ST]) = Ok (c, tb) ->
              find_flush_suit sc <> -1 /\
              (c = 8 /\ tb = [SF] /\ SF <> 0
               \/ c = 5 /\ SF = 0
                  /\ tb = firstn 5 (sorted_desc
                             (flush_ranks_of cards (find_flush_suit sc)))) \/
              find_flush_suit sc = -1 /\
              (c = 4 /\ tb = [ST] /\ ST <> 0
               \/ c <> 4 /\ c <> 5 /\ c <> 8 /\ (c = 7 \/ c = 6 \/ ST = 0))).
    { intros N [= <- <-]. right. split; [exact Hf|]. left. auto. }
    destruct (Z.ltb_spec 0 (len Q)).
    { getitem Q 0 quad_rank.
      pose proof (drop_one_length quad_rank U HU).
      getmax (filter (fun r => negb (r =? quad_rank)) U) kicker.
      apply Hother; auto; lia. }
    destruct (Z.ltb_spec 0 (len T)); cbn [andb].
    + destruct (Z.ltb_spec 0 (len P)); cbn [orb].
      { getitem T 0 trip_rank.
        destruct (Z.leb_spec 2 (len T)).
        - getitem T 1 pair_rank. apply Hother; auto; lia.
        - getitem P 0 pair_rank. apply Hother; auto; lia. }
      destruct (Z.leb_spec 2 (len T)).
      { getitem T 0 trip_rank. getitem T 1 pair_rank. apply Hother; auto; lia. }
      destruct (Z.eqb_spec ST 0) as [E0|N0]; cbn [negb];
        [|now apply Hstraight].
      getitem T 0 trip_rank.
      pose proof (drop_one_length trip_rank U HU).
      getitem (filter (fun r => negb (r =? trip_rank)) U) 0 k1.
      getitem (filter (fun r => negb (r =? trip_rank)) U) 1 k2.
      apply Hother; auto; lia.
    + destruct (Z.eqb_spec ST 0) as [E0|N0]; cbn [negb];
        [|now apply Hstraight].
      destruct (Z.leb_spec 2 (len P)).
      { getitem P 0 p1. getitem P 1 p2.
        pose proof (drop_two_length p1 p2 U HU).
        getmax (filter (fun r => negb (r =? p1) && negb (r =? p2)) U) kicker.
        apply Hother; auto; lia. }
      destruct (Z.eqb_spec (len P) 1).
      { getitem P 0 p.
        pose proof (drop_one_length p U HU).
        getitem (filter (fun r => negb (r =? p)) U) 0 k1.
        getitem (filter (fun r => negb (r =? p)) U) 1 k2.
        getitem (filter (fun r => negb (r =? p)) U) 2 k3.
        apply Hother; auto; lia. }
      apply Hother; auto; lia.
  - (* a flush suit *)
    specialize (Hflush Hf). fold U in Hflush.
    fold SF.
    destruct (Z.eqb_spec SF 0) as [E0|N0]; cbn [negb].
    + destruct (Z.ltb_spec 0 (len Q)); [exfalso; lia|].
      destruct (Z.ltb_spec 0 (len T)); cbn [andb].
      * destruct (Z.ltb_spec 0 (len P)); cbn [orb]; [exfalso; lia|].
        destruct (Z.leb_spec 2 (len T)); [exfalso; lia|].
        intros [= <- <-]. left. split; [exact Hf|]. right. auto.
      * intros [= <- <-]. left. split; [exact Hf|]. right. auto.
    + intros [= <- <-]. left. split; [exact Hf|]. left. auto.
Qed.

Lemma first_flush_none (sc : list Z) (s : Z) :
  find_flush_suit sc = -1 -> 0 <= s <= 3 -> cnt sc s < 5.
Proof.
  unfold find_flush_suit, range_4. cbn [first_flush].
  destruct (Z.leb_spec 5 (cnt sc 0)); [discriminate|].
  destruct (Z.leb_spec 5 (cnt sc 1)); [discriminate|].
  destruct (Z.leb_spec 5 (cnt sc 2)); [discriminate|].
  destruct (Z.leb_spec 5 (cnt sc 3)); [discriminate|].
  intros _ Hs.
  assert (Hcase : s = 0 \/ s = 1 \/ s = 2 \/ s = 3) by lia.
  destruct Hcase as [-> | [-> | [-> | ->]]]; assumption.
Qed.

Lemma count_suit_pos_range (cards : list Z) (s : Z) :
  Forall valid_card cards -> 0 < count_suit cards s -> 0 <= s <= 3.
Proof.
  intros Hv. unfold count_suit, len. intros H.
  destruct (filter (fun c => int_to_suit c =? s) cards) as [|c l] eqn:E;
    [simpl in H; lia|].
  assert (Hin : In c (filter (fun c => int_to_suit c =? s) cards))
    by (rewrite E; now left).
  apply filter_In in Hin. destruct Hin as [Hc Hs]. apply Z.eqb_eq in Hs.
  subst s. apply int_to_suit_range.
  rewrite Forall_forall in Hv. now apply Hv.
Qed.

(** The cards of two suits are different cards. *)
Lemma count_suit_two (cards : list Z) (s s' : Z) :
  s <> s' -> count_suit cards s + count_suit cards s' <= len cards.
Proof.
  intros Hne. induction cards as [|c cs IH].
  - unfold count_suit, len. simpl. lia.
  - rewrite !count_suit_cons.
    replace (len (c :: cs)) with (len cs + 1)
      by (unfold len; cbn [List.length]; lia).
    destruct (Z.eqb_spec s (int_to_suit c)), (Z.eqb_spec s' (int_to_suit c));
      lia.
Qed.

(** Among seven cards, the flush suit that the loop finds is the one suit
    with five cards or more. *)
Lemma flush_suit_unique (cards sc : list Z) (s : Z) :
  hand7 cards ->
  (forall s, 0 <= s -> cnt sc s = count_suit cards s) ->
  5 <= count_suit cards s ->
  find_flush_suit sc = s.
Proof.
  intros (Hl & _ & Hv) Cs H5.
  assert (Hs : 0 <= s <= 3) by (apply (count_suit_pos_range cards); [auto|lia]).
  destruct (Z.eq_dec (find_flush_suit sc) (-1)) as [Hf|Hf].
  - pose proof (first_flush_none sc s Hf Hs) as Hlt.
    rewrite Cs in Hlt by lia. lia.
  - destruct (first_flush_spec sc range_4 Hf) as [Hin Hc].
    fold (find_flush_suit sc) in Hin, Hc.
    assert (0 <= find_flush_suit sc)
      by (unfold range_4 in Hin; simpl in Hin; lia).
    rewrite Cs in Hc by assumption.
    destruct (Z.eq_dec (find_flush_suit sc) s) as [e|n]; [exact e|].
    pose proof (count_suit_two cards (find_flush_suit sc) s n) as H2.
    unfold len in H2. rewrite Hl in H2. lia.
Qed.

Lemma flush_suit_found (cards sc : list Z) :
  (forall s, 0 <= s -> cnt sc s = count_suit cards s) ->
  find_flush_suit sc <> -1 ->
  5 <= count_suit cards (find_flush_suit sc).
Proof.
  intros Cs Hf.
  destruct (first_flush_spec sc range_4 Hf) as [Hin Hc].
  fold (find_flush_suit sc) in Hin, Hc.
  assert (0 <= find_flush_suit sc)
    by (unfold range_4 in Hin; simpl in Hin; lia).
  now rewrite Cs in Hc.
Qed.

(** X17: on seven distinct cards of the deck, [evaluate_7] returns a flush
    or a straight flush (category 5 or 8) exactly when five or more of the
    cards are of one suit. *)
Theorem flush_evaluation (cards : list Z) (c : Z) (tb : list Z) :
  hand7 cards ->
  evaluate_7 cards = Ok (c, tb) ->
  (c = 5 \/ c = 8) <-> exists s, 5 <= count_suit cards s.
Proof.
  intros H7 Hev.
  destruct (evaluate_7_branches cards c tb H7 Hev)
    as (rc & sc & _ & _ & Cs & Hbr).
  split.
  - intros Hc. exists (find_flush_suit sc).
    destruct Hbr as [[Hf _] | [_ Hno]].
    + now apply flush_suit_found.
    + exfalso. destruct Hno as [(-> & _) | (H4 & H5 & H8 & _)]; lia.
  - intros [s Hs].
    pose proof (flush_suit_unique cards sc s H7 Cs Hs) as Efs.
    assert (Hrange : 0 <= s <= 3).
    { destruct H7 as (_ & _ & Hv).
      apply (count_suit_pos_range cards); [auto | lia]. }
    destruct Hbr as [[_ [(-> & _) | (-> & _)]] | [Hf _]]; auto. lia.
Qed.

(** Witness of X17: Ac Kc 9c 5c 2c Qh Jd, a flush. *)
Lemma flush_evaluation_witness :
  (5 = 5 \/ 5 = 8)
  <-> exists s, 5 <= count_suit [12; 11; 7; 3; 0; 36; 22] s.
Proof.
  apply (flush_evaluation [12; 11; 7; 3; 0; 36; 22] 5 [14; 13; 9; 5; 2]).
  - apply hand7_intro; [reflexivity | nodup_Z | reflexivity].
  - reflexivity.
Defined.

(** *** The masks *)

Lemma rank_mask_fold (rc : list Z) (l : list Z) :
  Forall (fun r => 0 <= r) l ->
  forall m b,
    0 <= b ->
    Z.testbit
      (fold_left
         (fun m r => if 0 <? cnt rc r then Z.lor m (Z.shiftl 1 r) else m)
         l m) b
    = Z.testbit m b || existsb (fun r => (0 <? cnt rc r) && (r =? b)) l.
Proof.
  induction 1 as [|r l Hr _ IH]; intros m b Hb; cbn [fold_left existsb].
  - now rewrite orb_false_r.
  - rewrite IH by exact Hb.
    destruct (0 <? cnt rc r); cbn [andb orb]; [|reflexivity].
    rewrite Z.lor_spec, shiftl_1_testbit by exact Hr.
    now rewrite orb_assoc.
Qed.

Lemma count_rank_low (cards : list Z) (r : Z) :
  r < 2 -> count_rank cards r = 0.
Proof.
  intros Hr. pose proof (count_rank_nonneg cards r) as H0.
  destruct (Z.eq_dec (count_rank cards r) 0) as [e|n]; [exact e|].
  assert (Hin : In r ranks_desc) by (apply (count_rank_pos_in cards); lia).
  unfold ranks_desc in Hin. simpl in Hin. lia.
Qed.

(** The bits of the rank mask are the ranks held, with bit 1 for the ace. *)
Lemma build_rank_mask_spec (cards rc : list Z) :
  (forall r, 0 <= r -> cnt rc r = count_rank cards r) ->
  forall b, 0 <= b ->
    Z.testbit (build_rank_mask rc) b = true <-> rank_present cards b.
Proof.
  intros Cr b Hb. unfold build_rank_mask, rank_present.
  assert (Hasc : Forall (fun r => 0 <= r) ranks_asc)
    by (unfold ranks_asc; repeat constructor; lia).
  assert (Hfold : forall m,
            Z.testbit
              (fold_left
                 (fun m r =>
                    if 0 <? cnt rc r then Z.lor m (Z.shiftl 1 r) else m)
                 ranks_asc m) b = true
            <-> Z.testbit m b = true \/ 0 < count_rank cards b).
  { intros m. rewrite (rank_mask_fold rc ranks_asc Hasc m b Hb).
    rewrite orb_true_iff, existsb_exists. split.
    - intros [H | (r & Hin & Hr)]; [now left | right].
      apply andb_true_iff in Hr. destruct Hr as [Hc Hrb].
      apply Z.eqb_eq in Hrb. subst r. apply Z.ltb_lt in Hc.
      now rewrite Cr in Hc.
    - intros [H | H]; [now left | right].
      exists b. split.
      + pose proof (count_rank_pos_in cards b H) as Hin.
        unfold ranks_desc in Hin. unfold ranks_asc. simpl in Hin |- *. lia.
      + rewrite Cr by exact Hb. apply andb_true_iff. split.
        * now apply Z.ltb_lt.
        * apply Z.eqb_refl. }
  pose proof (count_rank_nonneg cards 14) as H14.
  destruct (Z.eqb_spec (cnt rc 14) 0) as [E|N]; cbn [negb];
    rewrite Cr in * by lia.
  - rewrite Hfold, Z.bits_0. split.
    + intros [H | H]; [discriminate | now left].
    + intros [H | (_ & H)]; [now right | lia].
  - rewrite Z.lor_spec, orb_true_iff, Hfold, Z.bits_0,
      shiftl_1_testbit, Z.eqb_eq by lia.
    split.
    + intros [[H | H] | H]; [discriminate | now left |].
      right. split; lia.
    + intros [H | (H1 & _)]; [left; now right | now right].
Qed.

Lemma count_rank_pos_iff (cards : list Z) (r : Z) :
  0 < count_rank cards r <-> In r (map int_to_rank cards).
Proof.
  split.
  - unfold count_rank, len. intros H.
    destruct (filter (fun c => int_to_rank c =? r) cards) as [|c l] eqn:E;
      [simpl in H; lia|].
    assert (Hin : In c (filter (fun c => int_to_rank c =? r) cards))
      by (rewrite E; now left).
    apply filter_In in Hin. destruct Hin as [Hc Hr]. apply Z.eqb_eq in Hr.
    apply in_map_iff. now exists c.
  - intros H. apply in_map_iff in H. destruct H as (c & <- & Hc).
    now apply count_rank_pos.
Qed.

(** The bits of the flush mask are the ranks held in the flush suit, with
    bit 1 for its ace. *)
Lemma build_flush_mask_spec (cards : list Z) (s : Z) :
  forall b, 0 <= b ->
    Z.testbit (build_flush_mask cards s) b = true
    <-> rank_present (suited cards s) b.
Proof.
  intros b Hb. unfold build_flush_mask, rank_present.
  assert (Hpos : Forall (fun r => 0 <= r)
                   (nodup Z.eq_dec (flush_ranks_of cards s))).
  { apply Forall_forall. intros r Hr. apply nodup_In in Hr.
    unfold flush_ranks_of in Hr. apply in_map_iff in Hr.
    destruct Hr as (c & <- & _). pose proof (int_to_rank_range c). lia. }
  pose proof (flush_fold_spec _ Hpos 0 false b Hb) as S.
  cbv zeta in S.
  destruct (fold_left _ (nodup Z.eq_dec (flush_ranks_of cards s)) (0, false))
    as [fm ace].
  cbn [fst snd] in S. destruct S as [Sm Sa].
  rewrite Z.bits_0 in Sm. cbn [orb] in Sm, Sa.
  assert (Hex : forall x,
            existsb (fun r => r =? x)
              (nodup Z.eq_dec (flush_ranks_of cards s)) = true
            <-> 0 < count_rank (suited cards s) x).
  { intros x. rewrite existsb_exists, count_rank_pos_iff.
    fold (flush_ranks_of cards s). split.
    - intros (r & Hin & Hr). apply Z.eqb_eq in Hr. subst r.
      now apply nodup_In in Hin.
    - intros Hin. exists x. split; [now apply nodup_In | apply Z.eqb_refl]. }
  destruct ace.
  - rewrite Z.lor_spec, orb_true_iff, Sm, Hex, shiftl_1_testbit, Z.eqb_eq
      by lia.
    split.
    + intros [H | H]; [now left|]. right. split; [lia|].
      apply Hex. now symmetry.
    + intros [H | (H1 & _)]; [now left | right; lia].
  - rewrite Sm, Hex. split; [now left|].
    intros [H | (_ & H)]; [exact H|].
    apply Hex in H. congruence.
Qed.

Lemma has_straight_run (mask : Z) (cards : list Z) (h : Z) :
  (forall b, 0 <= b -> Z.testbit mask b = true <-> rank_present cards b) ->
  5 <= h ->
  has_straight mask h <-> run_of_five cards h.
Proof.
  intros Hbits Hh. unfold has_straight, run_of_five. split.
  - intros H d Hd. apply Hbits; [lia | now apply H].
  - intros H d Hd. apply Hbits; [lia | now apply H].
Qed.

(** The detector on a mask that stands for the ranks of some cards. *)
Lemma straight_high_run (mask : Z) (cards : list Z) :
  (forall b, 0 <= b -> Z.testbit mask b = true <-> rank_present cards b) ->
  (straight_high_from_ranks_mask mask = 0
   /\ forall h, 5 <= h <= 14 -> ~ run_of_five cards h)
  \/ (5 <= straight_high_from_ranks_mask mask <= 14
      /\ run_of_five cards (straight_high_from_ranks_mask mask)
      /\ forall h, straight_high_from_ranks_mask mask < h <= 14 ->
                   ~ run_of_five cards h).
Proof.
  intros Hbits.
  destruct (straight_high_cases mask) as [[E0 Hno] | (Hr & Hhas & Hno)].
  - left. split; [exact E0|]. intros h Hh Hrun.
    apply (Hno h Hh). apply (has_straight_run mask cards h Hbits); [lia|auto].
  - right. split; [exact Hr|]. split.
    + apply (has_straight_run mask cards _ Hbits); [lia | exact Hhas].
    + intros h Hh Hrun. apply (Hno h Hh).
      apply (has_straight_run mask cards h Hbits); [lia | auto].
Qed.

(** X18: on seven distinct cards of the deck, category 4 comes with the
    highest rank that tops five ranks in a row among the cards (the ace
    also counting as rank 1) and with no suit held five times; and cards
    that hold five ranks in a row never evaluate below category 4. *)
Theorem straight_evaluation (cards : list Z) :
  hand7 cards ->
  (forall tb,
      evaluate_7 cards = Ok (4, tb) ->
      exists h,
        tb = [h] /\ 5 <= h <= 14 /\ run_of_five cards h
        /\ (forall h', h < h' <= 14 -> ~ run_of_five cards h')
        /\ forall s, count_suit cards s < 5)
  /\ (forall c tb h,
         evaluate_7 cards = Ok (c, tb) ->
         5 <= h <= 14 -> run_of_five cards h -> 4 <= c).
Proof.
  intros H7. split.
  - intros tb Hev.
    destruct (evaluate_7_branches cards 4 tb H7 Hev)
      as (rc & sc & _ & Cr & Cs & Hbr).
    destruct Hbr as [[_ [(H & _) | (H & _)]] | [Hf Hst]]; try discriminate H.
    destruct Hst as [(_ & -> & N) | (H & _)]; [|contradiction].
    exists (straight_high_from_ranks_mask (build_rank_mask rc)).
    split; [reflexivity|].
    destruct (straight_high_run (build_rank_mask rc) cards
                (build_rank_mask_spec cards rc Cr))
      as [[E0 _] | (Hr & Hrun & Hno)]; [contradiction|].
    split; [exact Hr|]. split; [exact Hrun|]. split; [exact Hno|].
    intros s.
    destruct (Z.lt_ge_cases (count_suit cards s) 5) as [Hlt|Hge];
      [exact Hlt|].
    pose proof (flush_suit_unique cards sc s H7 Cs Hge) as Efs.
    destruct H7 as (_ & _ & Hv).
    pose proof (count_suit_pos_range cards s Hv ltac:(lia)). lia.
  - intros c tb h Hev Hh Hrun.
    destruct (evaluate_7_branches cards c tb H7 Hev)
      as (rc & sc & _ & Cr & _ & Hbr).
    destruct Hbr as [[_ [(-> & _) | (-> & _)]] | [_ Hst]]; try lia.
    destruct Hst as [(-> & _) | (_ & _ & _ & [-> | [-> | E0]])]; try lia.
    exfalso.
    destruct (straight_high_run (build_rank_mask rc) cards
                (build_rank_mask_spec cards rc Cr))
      as [[_ Hno] | (Hr & _)]; [|lia].
    exact (Hno h Hh Hrun).
Qed.

(** Witness of X18: 9c 8d 7h 6s 5c Kd 2h, a nine-high straight. *)
Lemma straight_evaluation_witness :
  exists h,
    [9] = [h] /\ 5 <= h <= 14
    /\ run_of_five [7; 19; 31; 43; 3; 24; 26] h
    /\ (forall h', h < h' <= 14 ->
                   ~ run_of_five [7; 19; 31; 43; 3; 24; 26] h')
    /\ forall s, count_suit [7; 19; 31; 43; 3; 24; 26] s < 5.
Proof.
  assert (H7 : hand7 [7; 19; 31; 43; 3; 24; 26])
    by (apply hand7_intro; [reflexivity | nodup_Z | reflexivity]).
  apply (proj1 (straight_evaluation [7; 19; 31; 43; 3; 24; 26] H7) [9]).
  reflexivity.
Defined.

(** X19: on seven distinct cards of the deck, [evaluate_7] returns category
    8 with the rank [h] exactly when some suit is held five times or more
    and [h] is the highest rank that tops five ranks in a row within that
    suit (its ace also counting as rank 1). *)
Theorem straight_flush_evaluation (cards : list Z) (tb : list Z) :
  hand7 cards ->
  evaluate_7 cards = Ok (8, tb)
  <-> exists s h,
        5 <= count_suit cards s /\ tb = [h] /\ 5 <= h <= 14
        /\ run_of_five (suited cards s) h
        /\ forall h', h < h' <= 14 -> ~ run_of_five (suited cards s) h'.
Proof.
  intros H7. split.
  - intros Hev.
    destruct (evaluate_7_branches cards 8 tb H7 Hev)
      as (rc & sc & _ & _ & Cs & Hbr).
    destruct Hbr as [[Hf [(_ & -> & N) | (H & _)]] | [_ Hst]];
      [| discriminate H
       | destruct Hst as [(H & _) | (_ & _ & H & _)];
         [discriminate H | contradiction]].
    exists (find_flush_suit sc),
      (straight_high_from_ranks_mask
         (build_flush_mask cards (find_flush_suit sc))).
    split; [now apply flush_suit_found|]. split; [reflexivity|].
    destruct (straight_high_run
                (build_flush_mask cards (find_flush_suit sc))
                (suited cards (find_flush_suit sc))
                (build_flush_mask_spec cards (find_flush_suit sc)))
      as [[E0 _] | (Hr & Hrun & Hno)]; [contradiction|].
    auto.
  - intros (s & h & Hs & -> & Hh & Hrun & Hno).
    destruct (evaluate_7_shape cards H7) as (c & tb & Hev & _).
    destruct (evaluate_7_branches cards c tb H7 Hev)
      as (rc & sc & _ & _ & Cs & Hbr).
    pose proof (flush_suit_unique cards sc s H7 Cs Hs) as Efs.
    rewrite Efs in Hbr.
    destruct (straight_high_run (build_flush_mask cards s) (suited cards s)
                (build_flush_mask_spec cards s))
      as [[E0 Hnone] | (Hr & Hrun' & Hno')].
    { exfalso. exact (Hnone h Hh Hrun). }
    assert (Eh : straight_high_from_ranks_mask (build_flush_mask cards s) = h).
    { destruct (Z.lt_trichotomy
                  (straight_high_from_ranks_mask (build_flush_mask cards s)) h)
        as [Hlt | [e | Hgt]]; [|exact e|].
      - exfalso. apply (Hno' h); [lia | exact Hrun].
      - exfalso. apply (Hno _ (conj Hgt (proj2 Hr))). exact Hrun'. }
    rewrite Eh in Hbr.
    destruct Hbr as [[_ [(-> & -> & _) | (_ & E0 & _)]] | [Hf _]].
    + exact Hev.
    + lia.
    + destruct H7 as (_ & _ & Hv).
      pose proof (count_suit_pos_range cards s Hv ltac:(lia)). lia.
Qed.

(** Witness of X19: Ac 2c 3c 4c 5c 9h 9d, the steel wheel. *)
Lemma straight_flush_evaluation_witness :
  evaluate_7 [12; 0; 1; 2; 3; 33; 20] = Ok (8, [5])
  <-> exists s h,
        5 <= count_suit [12; 0; 1; 2; 3; 33; 20] s /\ [5] = [h]
        /\ 5 <= h <= 14
        /\ run_of_five (suited [12; 0; 1; 2; 3; 33; 20] s) h
        /\ forall h', h < h' <= 14 ->
                      ~ run_of_five (suited [12; 0; 1; 2; 3; 33; 20] s) h'.
Proof.
  apply (straight_flush_evaluation [12; 0; 1; 2; 3; 33; 20] [5]).
  apply hand7_intro; [reflexivity | nodup_Z | reflexivity].
Defined.

(** ** The input checks of [main] *)

Lemma nodup_length_NoDup (l : list Z) :
  List.length (nodup Z.eq_dec l) = List.length l <-> NoDup l.
Proof.
  split.
  - induction l as [|a l IH]; cbn [nodup]; intros H; [constructor|].
    destruct (in_dec Z.eq_dec a l) as [Hin|Hnin].
    + exfalso.
      assert (Hle : (List.length (nodup Z.eq_dec l) <= List.length l)%nat).
      { apply NoDup_incl_length; [apply NoDup_nodup|].
        intros x Hx. now apply nodup_In in Hx. }
      cbn [List.length] in H. lia.
    + cbn [List.length] in H. constructor; [exact Hnin|].
      apply IH. lia.
  - intros H. now rewrite nodup_fixed_point.
Qed.

Lemma parse_cards_str_valid (cards_str : string) (cards : list Z) :
  parse_cards_str cards_str = Ok cards -> Forall valid_card cards.
Proof.
  unfold parse_cards_str. intros H.
  destruct (parse_tokens_result
              (filter (fun t => negb (String.eqb t EmptyString))
                 (py_split (replace_commas cards_str))))
    as [(cs & E & Hv & _) | E]; rewrite E in H.
  - now injection H as <-.
  - discriminate H.
Qed.

Lemma parse_cards_str_error (cards_str : string) (e : exn) :
  parse_cards_str cards_str = Err e -> e = ValueError.
Proof.
  unfold parse_cards_str. intros H.
  destruct (parse_tokens_result
              (filter (fun t => negb (String.eqb t EmptyString))
                 (py_split (replace_commas cards_str))))
    as [(cs & E & _) | E]; rewrite E in H.
  - discriminate H.
  - now injection H as <-.
Qed.

(** X20: [main] passes on to the simulation exactly the texts that parse to
    two hero cards and at most five board cards, all different. On every
    other pair of texts it stops: with the [ValueError] of the parser, and
    no other exception, when the hero text or else the board text does not
    parse; and otherwise with [SystemExit], on the first of its three
    checks that fails, with the message of that check. *)
Theorem main_inputs_accepted (hero_str board_str : string) :
  (forall hero board,
      main_inputs hero_str board_str = Accepted (hero, board)
      <-> parse_cards_str hero_str = Ok hero
          /\ parse_cards_str board_str = Ok board
          /\ List.length hero = 2%nat /\ len board <= 5
          /\ NoDup (hero ++ board))
  /\ (forall e,
         main_inputs hero_str board_str = Uncaught e
         <-> e = ValueError
             /\ (parse_cards_str hero_str = Err ValueError
                 \/ (succeeds (parse_cards_str hero_str)
                     /\ parse_cards_str board_str = Err ValueError)))
  /\ (forall msg,
         main_inputs hero_str board_str = SystemExit msg
         <-> exists hero board,
               parse_cards_str hero_str = Ok hero
               /\ parse_cards_str board_str = Ok board
               /\ ((List.length hero <> 2%nat
                    /\ msg = "Hero must have exactly 2 cards"%string)
                   \/ (List.length hero = 2%nat /\ 5 < len board
                       /\ msg = "Board cannot exceed 5 cards"%string)
                   \/ (List.length hero = 2%nat /\ len board <= 5
                       /\ ~ NoDup (hero ++ board)
                       /\ msg = "Duplicate cards detected in hero/board inputs"%string))).
Proof.
  unfold main_inputs.
  destruct (parse_cards_str hero_str) as [h|e] eqn:Eh.
  2: { pose proof (parse_cards_str_error hero_str e Eh) as ->.
       split; [|split].
       - intros hero board.
         split; [discriminate | intros (H & _); discriminate H].
       - intros e. split.
         + intros [= <-]. split; [reflexivity | now left].
         + intros (-> & _). reflexivity.
       - intros msg. split; [discriminate|].
         intros (hero & board & H & _). discriminate H. }
  destruct (parse_cards_str board_str) as [b|e] eqn:Eb.
  2: { pose proof (parse_cards_str_error board_str e Eb) as ->.
       split; [|split].
       - intros hero board.
         split; [discriminate | intros (_ & H & _); discriminate H].
       - intros e. split.
         + intros [= <-]. split; [reflexivity|]. right.
           split; [eexists; reflexivity | reflexivity].
         + intros (-> & _). reflexivity.
       - intros msg. split; [discriminate|].
         intros (hero & board & _ & H & _). discriminate H. }
  assert (Hset : len (nodup Z.eq_dec (h ++ b)) = len h + len b
                 <-> NoDup (h ++ b)).
  { rewrite <- nodup_length_NoDup. unfold len. rewrite (length_app h b).
    lia. }
  assert (Hno : forall e : exn,
            ~ (e = ValueError
               /\ (@Ok (list Z) h = Err ValueError
                   \/ (succeeds (@Ok (list Z) h)
                       /\ @Ok (list Z) b = Err ValueError)))).
  { intros e (_ & [H | (_ & H)]); discriminate H. }
  destruct (Z.eqb_spec (len h) 2) as [H2|H2]; cbn [negb].
  2: { assert (H2' : List.length h <> 2%nat) by (unfold len in H2; lia).
       split; [|split].
       - intros hero board. split; [discriminate|].
         intros ([= ->] & _ & Hl & _). contradiction.
       - intros e. split; [discriminate | intros H; destruct (Hno e H)].
       - intros msg. split.
         + intros [= <-]. exists h, b. auto.
         + intros (hero & board & [= <-] & [= <-] & Hc).
           destruct Hc as [(_ & ->) | [(Hl & _) | (Hl & _)]];
             [reflexivity | contradiction | contradiction]. }
  assert (H2' : List.length h = 2%nat) by (unfold len in H2; lia).
  destruct (Z.ltb_spec 5 (len b)) as [H5|H5].
  { split; [|split].
    - intros hero board. split; [discriminate|].
      intros (_ & [= ->] & _ & Hl & _). lia.
    - intros e. split; [discriminate | intros H; destruct (Hno e H)].
    - intros msg. split.
      + intros [= <-]. exists h, b. auto 10.
      + intros (hero & board & [= <-] & [= <-] & Hc).
        destruct Hc as [(Hl & _) | [(_ & _ & ->) | (_ & Hl & _)]];
          [contradiction | reflexivity | lia]. }
  destruct (Z.eqb_spec (len (nodup Z.eq_dec (h ++ b))) (len h + len b))
    as [Hd|Hd]; cbn [negb].
  - apply Hset in Hd. split; [|split].
    + intros hero board. split.
      * intros [= <- <-]. auto.
      * intros ([= <-] & [= <-] & _). reflexivity.
    + intros e. split; [discriminate | intros H; destruct (Hno e H)].
    + intros msg. split; [discriminate|].
      intros (hero & board & [= <-] & [= <-] & Hc).
      destruct Hc as [(Hl & _) | [(_ & Hl & _) | (_ & _ & Hn & _)]];
        [contradiction | lia | contradiction].
  - assert (Hdup : ~ NoDup (h ++ b)) by (intros H; apply Hd, Hset, H).
    split; [|split].
    + intros hero board. split; [discriminate|].
      intros ([= <-] & [= <-] & _ & _ & Hnd). contradiction.
    + intros e. split; [discriminate | intros H; destruct (Hno e H)].
    + intros msg. split.
      * intros [= <-]. exists h, b. auto 10.
      * intros (hero & board & [= <-] & [= <-] & Hc).
        destruct Hc as [(Hl & _) | [(_ & Hl & _) | (_ & _ & _ & ->)]];
          [contradiction | lia | reflexivity].
Qed.

(** X21: what [main] accepts, [simulate_equity] completes on: with at most
    22 opponents, between 1 and 2^53 iterations and a generator that draws
    distinct cards, the call that [main] makes after its checks returns a
    result. The remaining deck has 45 cards at least, enough for 22
    opponents and the board. *)
Theorem main_simulation_completes (fl : Q -> Q) (rng : Type)
  (seed_rng : Z -> rng) (choose : rng -> list Z -> nat -> list Z * rng)
  (fl_mono : forall x y : Q, (x <= y)%Q -> (fl x <= fl y)%Q)
  (fl_int : forall n : Z, Z.abs n <= float_exact_limit ->
                          (fl (inject_Z n) == inject_Z n)%Q)
  (g : rng) (hero_str board_str : string) (hero board : list Z)
  (n_opponents iterations : Z) (seed : option Z) :
  sampler_sound rng choose ->
  main_inputs hero_str board_str = Accepted (hero, board) ->
  0 <= n_opponents <= 22 ->
  1 <= iterations <= float_exact_limit ->
  succeeds (simulate_equity fl rng seed_rng choose g hero board n_opponents
              iterations seed).
Proof.
  intros Hs Hmain Hn Hit. unfold main_inputs in Hmain.
  destruct (parse_cards_str hero_str) as [h|e] eqn:Eh; [|discriminate].
  destruct (parse_cards_str board_str) as [b|e] eqn:Eb; [|discriminate].
  destruct (Z.eqb_spec (len h) 2) as [H2|H2]; cbn [negb] in Hmain;
    [|discriminate].
  destruct (Z.ltb_spec 5 (len b)) as [H5|H5]; [discriminate|].
  destruct (Z.eqb_spec (len (nodup Z.eq_dec (h ++ b))) (len h + len b))
    as [Hd|Hd]; cbn [negb] in Hmain; [|discriminate].
  injection Hmain as <- <-.
  assert (Hnd : NoDup (h ++ b)).
  { apply nodup_length_NoDup. unfold len in Hd. rewrite (length_app h b).
    lia. }
  assert (Hv : Forall valid_card (h ++ b)).
  { apply Forall_app. split.
    - now apply (parse_cards_str_valid hero_str).
    - now apply (parse_cards_str_valid board_str). }
  apply (simulate_equity_ok fl rng seed_rng choose fl_mono fl_int);
    try assumption; try lia.
  - unfold len in H2. lia.
  - rewrite (deck_without_length (h ++ b) Hnd Hv).
    unfold len in *. rewrite (length_app h b). lia.
Qed.

(** Witness of X21: the default texts of [main], Jd 4h on 5c 3c 3s, with
    two opponents and three iterations. *)
Lemma main_simulation_completes_witness :
  succeeds (simulate_equity fl_exact unit seed_unit choose_first tt
              [22; 28] [3; 1; 40] 2 3 None).
Proof.
  apply (main_simulation_completes fl_exact unit seed_unit choose_first
           fl_exact_mono fl_exact_int tt "Jd 4h" "5c 3c 3s"
           [22; 28] [3; 1; 40] 2 3 None).
  - exact choose_first_sound.
  - reflexivity.
  - lia.
  - rewrite float_exact_limit_val. lia.
Defined.

(** ** The categories below the straight *)

Lemma py_getitem_0 {A : Type} (x : A) (l : list A) :
  py_getitem (x :: l) 0 = Ok x.
Proof.
  unfold py_getitem. cbn [List.length].
  destruct (Z.ltb_spec 0 0); [lia|].
  destruct (Z.leb_spec 0 0); [|lia].
  destruct (Z.ltb_spec 0 (Z.of_nat (S (List.length l)))); [|lia].
  reflexivity.
Qed.

Lemma py_getitem_1 {A : Type} (x y : A) (l : list A) :
  py_getitem (x :: y :: l) 1 = Ok y.
Proof.
  unfold py_getitem. cbn [List.length].
  destruct (Z.ltb_spec 1 0); [lia|].
  destruct (Z.leb_spec 0 1); [|lia].
  destruct (Z.ltb_spec 1 (Z.of_nat (S (S (List.length l))))); [|lia].
  reflexivity.
Qed.

Lemma py_getitem_2 {A : Type} (x y z : A) (l : list A) :
  py_getitem (x :: y :: z :: l) 2 = Ok z.
Proof.
  unfold py_getitem. cbn [List.length].
  destruct (Z.ltb_spec 2 0); [lia|].
  destruct (Z.leb_spec 0 2); [|lia].
  destruct (Z.ltb_spec 2 (Z.of_nat (S (S (S (List.length l)))))); [|lia].
  reflexivity.
Qed.

(** What [evaluate_7] returns below the straight, on seven cards of the
    deck, in terms of the lists of the classification loop. *)
Lemma evaluate_7_low (cards : list Z) (c : Z) (tb : list Z) :
  hand7 cards ->
  evaluate_7 cards = Ok (c, tb) ->
  c <= 3 ->
  exists rc,
    (forall r, 0 <= r -> cnt rc r = count_rank cards r)
    /\ with_count rc 4 ranks_desc = []
    /\ ((c = 3
         /\ exists t k1 k2 rest,
             with_count rc 3 ranks_desc = [t]
             /\ with_count rc 2 ranks_desc = []
             /\ filter (fun r => negb (r =? t))
                  (filter (fun r => 0 <? cnt rc r) ranks_desc)
                = k1 :: k2 :: rest
             /\ tb = [t; k1; k2])
        \/ (c = 2
            /\ with_count rc 3 ranks_desc = []
            /\ exists p1 p2 rest k,
                with_count rc 2 ranks_desc = p1 :: p2 :: rest
                /\ py_max (filter (fun r => negb (r =? p1) && negb (r =? p2))
                             (filter (fun r => 0 <? cnt rc r) ranks_desc))
                   = Ok k
                /\ tb = [p1; p2; k])
        \/ (c = 1
            /\ with_count rc 3 ranks_desc = []
            /\ exists p k1 k2 k3 rest,
                with_count rc 2 ranks_desc = [p]
                /\ filter (fun r => negb (r =? p))
                     (filter (fun r => 0 <? cnt rc r) ranks_desc)
                   = k1 :: k2 :: k3 :: rest
                /\ tb = [p; k1; k2; k3])
        \/ (c = 0
            /\ with_count rc 3 ranks_desc = []
            /\ with_count rc 2 ranks_desc = []
            /\ tb = firstn 5 (filter (fun r => 0 <? cnt rc r) ranks_desc)
            /\ List.length tb = 5%nat)).
Proof.
  intros H7 Hev Hc.
  destruct (evaluate_7_branches cards c tb H7 Hev)
    as (rc & sc & E & Cr & Cs & Hbr).
  assert (Hf : find_flush_suit sc = -1).
  { destruct Hbr as [[_ [(-> & _) | (-> & _)]] | [Hf _]]; [lia | lia | auto]. }
  assert (E0 : straight_high_from_ranks_mask (build_rank_mask rc) = 0).
  { destruct Hbr as [[Hn _] | [_ [(-> & _) | (_ & _ & _ & H)]]];
      [contradiction | lia |].
    destruct H as [-> | [-> | H]]; [lia | lia | exact H]. }
  clear Hbr.
  destruct (hand7_counts cards H7) as (rc' & sc' & E' & _ & _ & Hsum & Hu).
  rewrite E in E'. injection E' as <- <-.
  exists rc. split; [exact Cr|].
  unfold evaluate_7 in Hev. rewrite E in Hev. cbn [bind] in Hev.
  cbv zeta in Hev.
  rewrite classify_ranks_filters, Hf, E0 in Hev.
  cbn [Z.eqb Pos.eqb negb] in Hev.
  set (Q := with_count rc 4 ranks_desc) in *.
  set (T := with_count rc 3 ranks_desc) in *.
  set (P := with_count rc 2 ranks_desc) in *.
  set (K := with_count rc 1 ranks_desc) in *.
  set (U := filter (fun r => 0 <? cnt rc r) ranks_desc) in *.
  assert (HU : NoDup U) by (apply NoDup_filter, ranks_desc_NoDup).
  assert (HK : 0 <= len K) by (unfold len; lia).
  destruct Q as [|q Q'] eqn:EQ; cbn [nonempty] in Hev.
  2: { rewrite py_getitem_0 in Hev. cbn [bind] in Hev.
       destruct (py_max _) in Hev; cbn [bind] in Hev;
         [injection Hev as <- _; lia | discriminate Hev]. }
  split; [reflexivity|].
  destruct T as [|t [|t' T']] eqn:ET; cbn [nonempty andb] in Hev.
  - (* no trips *)
    destruct P as [|p1 [|p2 P']] eqn:EP.
    + (* high card *)
      replace (2 <=? len (@nil Z)) with false in Hev by reflexivity.
      replace (len (@nil Z) =? 1) with false in Hev by reflexivity.
      assert (Hl5 : List.length (firstn 5 U) = 5%nat).
      { rewrite length_firstn. unfold len in *. cbn [List.length] in *. lia. }
      injection Hev as <- <-. right. right. right.
      split; [reflexivity|]. split; [reflexivity|]. split; [reflexivity|].
      split; [reflexivity | exact Hl5].
    + (* one pair *)
      replace (2 <=? len [p1]) with false in Hev by reflexivity.
      replace (len [p1] =? 1) with true in Hev by reflexivity.
      rewrite py_getitem_0 in Hev. cbn [bind] in Hev.
      pose proof (drop_one_length p1 U HU) as Hdrop.
      destruct (filter (fun r => negb (r =? p1)) U) as [|k1 [|k2 [|k3 F]]]
        eqn:EF;
        try (exfalso; unfold len in *; cbn [List.length] in *; lia).
      rewrite py_getitem_0, py_getitem_1, py_getitem_2 in Hev.
      cbn [bind] in Hev.
      injection Hev as <- <-. right. right. left.
      split; [reflexivity|]. split; [reflexivity|].
      exists p1, k1, k2, k3, F. auto.
    + (* two pair *)
      replace (2 <=? len (p1 :: p2 :: P')) with true in Hev
        by (symmetry; apply Z.leb_le; unfold len; cbn [List.length]; lia).
      rewrite py_getitem_0, py_getitem_1 in Hev. cbn [bind] in Hev.
      destruct (py_max (filter (fun r => negb (r =? p1) && negb (r =? p2)) U))
        as [k|e] eqn:Ek; cbn [bind] in Hev; [|discriminate Hev].
      injection Hev as <- <-. right. left.
      split; [reflexivity|]. split; [reflexivity|].
      exists p1, p2, P', k. auto.
  - (* one rank held three times *)
    replace (2 <=? len [t]) with false in Hev by reflexivity.
    destruct P as [|p P'] eqn:EP; cbn [nonempty orb] in Hev.
    2: { rewrite !py_getitem_0 in Hev. cbn [bind] in Hev.
         injection Hev as <- _. lia. }
    rewrite py_getitem_0 in Hev. cbn [bind] in Hev.
    pose proof (drop_one_length t U HU) as Hdrop.
    destruct (filter (fun r => negb (r =? t)) U) as [|k1 [|k2 F]] eqn:EF;
      try (exfalso; unfold len in *; cbn [List.length] in *; lia).
    rewrite py_getitem_0, py_getitem_1 in Hev. cbn [bind] in Hev.
    injection Hev as <- <-. left.
    split; [reflexivity|].
    exists t, k1, k2, F. auto.
  - (* two ranks held three times *)
    replace (2 <=? len (t :: t' :: T')) with true in Hev
      by (symmetry; apply Z.leb_le; unfold len; cbn [List.length]; lia).
    rewrite orb_true_r in Hev.
    rewrite py_getitem_0, py_getitem_1 in Hev. cbn [bind] in Hev.
    injection Hev as <- _. lia.
Qed.

Lemma with_count_iff (cards rc : list Z) (k r : Z) :
  (forall r, 0 <= r -> cnt rc r = count_rank cards r) ->
  0 < k ->
  In r (with_count rc k ranks_desc) <-> count_rank cards r = k.
Proof.
  intros Cr Hk. split.
  - unfold with_count. intros H. apply filter_In in H.
    destruct H as [Hin Hc]. apply Z.eqb_eq in Hc.
    now rewrite <- Cr by now apply ranks_desc_nonneg.
  - now apply with_count_In.
Qed.

Lemma held_iff (cards rc : list Z) (r : Z) :
  (forall r, 0 <= r -> cnt rc r = count_rank cards r) ->
  In r (filter (fun r => 0 <? cnt rc r) ranks_desc)
  <-> 0 < count_rank cards r.
Proof.
  intros Cr. rewrite filter_In. split.
  - intros [Hin Hc]. apply Z.ltb_lt in Hc.
    now rewrite Cr in Hc by now apply ranks_desc_nonneg.
  - intros H. pose proof (count_rank_pos_in cards r H) as Hin.
    split; [exact Hin|]. apply Z.ltb_lt.
    now rewrite Cr by now apply ranks_desc_nonneg.
Qed.

(** Each rank is held by none, one, two, three or four of seven cards. *)
Lemma count_rank_cases (cards rc : list Z) (r : Z) :
  hand7 cards ->
  (forall r, 0 <= r -> cnt rc r = count_rank cards r) ->
  count_rank cards r = 0
  \/ In r (with_count rc 1 ranks_desc) \/ In r (with_count rc 2 ranks_desc)
  \/ In r (with_count rc 3 ranks_desc) \/ In r (with_count rc 4 ranks_desc).
Proof.
  intros (_ & Hnd & Hv) Cr.
  pose proof (count_rank_nonneg cards r) as H0.
  pose proof (count_rank_le_4 cards r Hnd Hv) as H4.
  assert (Hc : count_rank cards r = 0 \/ count_rank cards r = 1
               \/ count_rank cards r = 2 \/ count_rank cards r = 3
               \/ count_rank cards r = 4) by lia.
  destruct Hc as [H | [H | [H | [H | H]]]]; [now left | right ..].
  - left. apply (with_count_iff cards); [auto | lia | auto].
  - right. left. apply (with_count_iff cards); [auto | lia | auto].
  - right. right. left. apply (with_count_iff cards); [auto | lia | auto].
  - right. right. right. apply (with_count_iff cards); [auto | lia | auto].
Qed.

(** The head of a descending list is made of its highest elements. *)
Lemma sorted_prefix_top (pre rest : list Z) :
  StronglySorted Z.gt (pre ++ rest) ->
  StronglySorted Z.gt pre
  /\ forall r, In r (pre ++ rest) -> ~ In r pre ->
               forall k, In k pre -> r < k.
Proof.
  induction pre as [|a pre IH]; cbn [app]; intros Hs.
  - split; [constructor | intros r _ _ k []].
  - inversion Hs as [|? ? Hs' Ha]; subst.
    destruct (IH Hs') as [Hpre Htop].
    rewrite Forall_forall in Ha. split.
    + constructor; [exact Hpre|]. apply Forall_forall.
      intros x Hx. apply Ha. apply in_or_app. now left.
    + intros r Hr Hnot k Hk.
      assert (Hra : r <> a) by (intros ->; apply Hnot; now left).
      assert (Hrp : ~ In r pre) by (intros H; apply Hnot; now right).
      destruct Hr as [Hr | Hr]; [congruence|].
      destruct Hk as [<- | Hk].
      * specialize (Ha r Hr). lia.
      * now apply (Htop r).
Qed.

Lemma held_sorted (rc : list Z) (g : Z -> bool) :
  StronglySorted Z.gt
    (filter g (filter (fun r => 0 <? cnt rc r) ranks_desc)).
Proof.
  apply StronglySorted_filter, StronglySorted_filter, ranks_desc_sorted.
Qed.

(** The first kickers of a filtered list of the ranks held. *)
Lemma highest_of_filter (cards rc excl : list Z) (g : Z -> bool)
  (pre rest : list Z) :
  (forall r, 0 <= r -> cnt rc r = count_rank cards r) ->
  (forall r, g r = true <-> ~ In r excl) ->
  filter g (filter (fun r => 0 <? cnt rc r) ranks_desc) = pre ++ rest ->
  highest_ranks cards excl pre.
Proof.
  intros Cr Hg EF.
  pose proof (held_sorted rc g) as Hs. rewrite EF in Hs.
  destruct (sorted_prefix_top pre rest Hs) as [Hpre Htop].
  assert (Hmem : forall r, In r (pre ++ rest)
                           <-> 0 < count_rank cards r /\ ~ In r excl).
  { intros r. rewrite <- EF, filter_In, (held_iff cards rc r Cr), Hg.
    tauto. }
  split; [exact Hpre|]. split.
  - intros k Hk. apply Hmem. apply in_or_app. now left.
  - intros r Hr Hex Hnot k Hk. apply (Htop r); auto.
    apply Hmem. auto.
Qed.

Lemma negb_eqb_excl1 (t r : Z) :
  negb (r =? t) = true <-> ~ In r [t].
Proof.
  rewrite negb_true_iff, Z.eqb_neq. simpl. split.
  - intros H [e | []]. congruence.
  - intros H e. apply H. left. congruence.
Qed.

Lemma negb_eqb_excl2 (p1 p2 r : Z) :
  negb (r =? p1) && negb (r =? p2) = true <-> ~ In r [p1; p2].
Proof.
  rewrite andb_true_iff, !negb_true_iff, !Z.eqb_neq. simpl. split.
  - intros [H1 H2] [e | [e | []]]; congruence.
  - intros H. split; intros e; apply H; [left | right; left]; congruence.
Qed.

(** X22: on seven distinct cards of the deck, category 3 comes with the one
    rank held three times, no other rank held twice or more, and as
    kickers the two highest other ranks of the hand, the higher first. *)
Theorem three_of_a_kind (cards tb : list Z) :
  hand7 cards ->
  evaluate_7 cards = Ok (3, tb) ->
  exists t k1 k2,
    tb = [t; k1; k2]
    /\ count_rank cards t = 3
    /\ (forall r, r <> t -> count_rank cards r <= 1)
    /\ highest_ranks cards [t] [k1; k2].
Proof.
  intros H7 Hev.
  destruct (evaluate_7_low cards 3 tb H7 Hev ltac:(lia))
    as (rc & Cr & EQ & Hcases).
  destruct Hcases
    as [(_ & t & k1 & k2 & rest & ET & EP & EF & ->)
       | [(H & _) | [(H & _) | (H & _)]]]; try discriminate H.
  exists t, k1, k2. split; [reflexivity|]. split; [|split].
  - apply (with_count_iff cards rc 3 t Cr); [lia|]. rewrite ET. now left.
  - intros r Hr.
    destruct (count_rank_cases cards rc r H7 Cr)
      as [H | [H | [H | [H | H]]]].
    + lia.
    + apply (with_count_iff cards rc 1 r Cr) in H; lia.
    + rewrite EP in H. contradiction.
    + rewrite ET in H. destruct H as [-> | []]. congruence.
    + rewrite EQ in H. contradiction.
  - apply (highest_of_filter cards rc [t] (fun r => negb (r =? t))
             [k1; k2] rest Cr); [|exact EF].
    intros r. apply negb_eqb_excl1.
Qed.

(** Witness of X22: 9c 9d 9h Ks Qc 5d 2h. *)
Lemma three_of_a_kind_witness :
  exists t k1 k2,
    [9; 13; 12] = [t; k1; k2]
    /\ count_rank [7; 20; 33; 50; 10; 16; 26] t = 3
    /\ (forall r, r <> t -> count_rank [7; 20; 33; 50; 10; 16; 26] r <= 1)
    /\ highest_ranks [7; 20; 33; 50; 10; 16; 26] [t] [k1; k2].
Proof.
  apply (three_of_a_kind [7; 20; 33; 50; 10; 16; 26] [9; 13; 12]).
  - apply hand7_intro; [reflexivity | nodup_Z | reflexivity].
  - reflexivity.
Defined.

(** X23: on seven distinct cards of the deck, category 2 comes with the two
    highest ranks held twice, the higher first, no rank held three times
    or more, and as kicker the highest other rank of the hand, which is
    the rank of a third pair when that is above the odd card. *)
Theorem two_pair (cards tb : list Z) :
  hand7 cards ->
  evaluate_7 cards = Ok (2, tb) ->
  exists p1 p2 k,
    tb = [p1; p2; k]
    /\ p2 < p1
    /\ count_rank cards p1 = 2 /\ count_rank cards p2 = 2
    /\ (forall r, count_rank cards r <= 2)
    /\ (forall r, count_rank cards r = 2 -> r = p1 \/ r <= p2)
    /\ highest_ranks cards [p1; p2] [k].
Proof.
  intros H7 Hev.
  destruct (evaluate_7_low cards 2 tb H7 Hev ltac:(lia))
    as (rc & Cr & EQ & Hcases).
  destruct Hcases
    as [(H & _)
       | [(_ & ET & p1 & p2 & rest & k & EP & Ek & ->)
         | [(H & _) | (H & _)]]]; try discriminate H.
  pose proof (with_count_sorted rc 2) as HsP. rewrite EP in HsP.
  inversion HsP as [|? ? HsP' H1]; subst.
  inversion HsP' as [|? ? _ H2]; subst.
  rewrite Forall_forall in H1, H2.
  exists p1, p2, k. split; [reflexivity|].
  split; [specialize (H1 p2 (or_introl eq_refl)); lia|].
  split; [|split; [|split; [|split]]].
  - apply (with_count_iff cards rc 2 p1 Cr); [lia|]. rewrite EP. now left.
  - apply (with_count_iff cards rc 2 p2 Cr); [lia|]. rewrite EP.
    right. now left.
  - intros r.
    destruct (count_rank_cases cards rc r H7 Cr)
      as [H | [H | [H | [H | H]]]].
    + lia.
    + apply (with_count_iff cards rc 1 r Cr) in H; lia.
    + apply (with_count_iff cards rc 2 r Cr) in H; lia.
    + rewrite ET in H. contradiction.
    + rewrite EQ in H. contradiction.
  - intros r Hr.
    apply (with_count_iff cards rc 2 r Cr) in Hr; [|lia].
    rewrite EP in Hr. destruct Hr as [<- | [<- | Hr]].
    + now left.
    + right. lia.
    + right. specialize (H2 r Hr). lia.
  - destruct (py_max_spec _ _ Ek) as [Hk Hmax].
    assert (Hmem : forall r,
              In r (filter (fun r => negb (r =? p1) && negb (r =? p2))
                      (filter (fun r => 0 <? cnt rc r) ranks_desc))
              <-> 0 < count_rank cards r /\ ~ In r [p1; p2]).
    { intros r. rewrite filter_In, (held_iff cards rc r Cr),
        negb_eqb_excl2. tauto. }
    split; [repeat constructor|]. split.
    + intros k' [<- | []]. now apply Hmem.
    + intros r Hr Hex Hnot k' [<- | []].
      assert (r <= k) by (apply Hmax, Hmem; auto).
      assert (r <> k) by (intros ->; apply Hnot; now left).
      lia.
Qed.

(** Witness of X23: Ks Kd 7h 7c 3s 3d Ac, three pairs and the ace. *)
Lemma two_pair_witness :
  exists p1 p2 k,
    [13; 7; 14] = [p1; p2; k]
    /\ p2 < p1
    /\ count_rank [50; 24; 31; 5; 40; 14; 12] p1 = 2
    /\ count_rank [50; 24; 31; 5; 40; 14; 12] p2 = 2
    /\ (forall r, count_rank [50; 24; 31; 5; 40; 14; 12] r <= 2)
    /\ (forall r, count_rank [50; 24; 31; 5; 40; 14; 12] r = 2 ->
                  r = p1 \/ r <= p2)
    /\ highest_ranks [50; 24; 31; 5; 40; 14; 12] [p1; p2] [k].
Proof.
  apply (two_pair [50; 24; 31; 5; 40; 14; 12] [13; 7; 14]).
  - apply hand7_intro; [reflexivity | nodup_Z | reflexivity].
  - reflexivity.
Defined.

(** X24: on seven distinct cards of the deck, category 1 comes with the one
    rank held twice, every other rank held once at most, and as kickers
    the three highest other ranks of the hand, highest first. *)
Theorem one_pair (cards tb : list Z) :
  hand7 cards ->
  evaluate_7 cards = Ok (1, tb) ->
  exists p k1 k2 k3,
    tb = [p; k1; k2; k3]
    /\ count_rank cards p = 2
    /\ (forall r, r <> p -> count_rank cards r <= 1)
    /\ highest_ranks cards [p] [k1; k2; k3].
Proof.
  intros H7 Hev.
  destruct (evaluate_7_low cards 1 tb H7 Hev ltac:(lia))
    as (rc & Cr & EQ & Hcases).
  destruct Hcases
    as [(H & _)
       | [(H & _)
         | [(_ & ET & p & k1 & k2 & k3 & rest & EP & EF & ->)
           | (H & _)]]]; try discriminate H.
  exists p, k1, k2, k3. split; [reflexivity|]. split; [|split].
  - apply (with_count_iff cards rc 2 p Cr); [lia|]. rewrite EP. now left.
  - intros r Hr.
    destruct (count_rank_cases cards rc r H7 Cr)
      as [H | [H | [H | [H | H]]]].
    + lia.
    + apply (with_count_iff cards rc 1 r Cr) in H; lia.
    + rewrite EP in H. destruct H as [-> | []]. congruence.
    + rewrite ET in H. contradiction.
    + rewrite EQ in H. contradiction.
  - apply (highest_of_filter cards rc [p] (fun r => negb (r =? p))
             [k1; k2; k3] rest Cr); [|exact EF].
    intros r. apply negb_eqb_excl1.
Qed.

(** Witness of X24: Ah Ad Ks 9c 7d 4h 2s. *)
Lemma one_pair_witness :
  exists p k1 k2 k3,
    [14; 13; 9; 7] = [p; k1; k2; k3]
    /\ count_rank [38; 25; 50; 7; 18; 28; 39] p = 2
    /\ (forall r, r <> p -> count_rank [38; 25; 50; 7; 18; 28; 39] r <= 1)
    /\ highest_ranks [38; 25; 50; 7; 18; 28; 39] [p] [k1; k2; k3].
Proof.
  apply (one_pair [38; 25; 50; 7; 18; 28; 39] [14; 13; 9; 7]).
  - apply hand7_intro; [reflexivity | nodup_Z | reflexivity].
  - reflexivity.
Defined.

(** X25: on seven distinct cards of the deck, category 0 comes with seven
    different ranks and, as tiebreak, the five highest of them, highest
    first. *)
Theorem high_card (cards tb : list Z) :
  hand7 cards ->
  evaluate_7 cards = Ok (0, tb) ->
  List.length tb = 5%nat
  /\ (forall r, count_rank cards r <= 1)
  /\ highest_ranks cards [] tb.
Proof.
  intros H7 Hev.
  destruct (evaluate_7_low cards 0 tb H7 Hev ltac:(lia))
    as (rc & Cr & EQ & Hcases).
  destruct Hcases
    as [(H & _) | [(H & _) | [(H & _) | (_ & ET & EP & Etb & Hlen)]]];
    try discriminate H.
  split; [exact Hlen|]. split.
  - intros r.
    destruct (count_rank_cases cards rc r H7 Cr)
      as [H | [H | [H | [H | H]]]].
    + lia.
    + apply (with_count_iff cards rc 1 r Cr) in H; lia.
    + rewrite EP in H. contradiction.
    + rewrite ET in H. contradiction.
    + rewrite EQ in H. contradiction.
  - rewrite Etb.
    apply (highest_of_filter cards rc [] (fun _ => true)
             (firstn 5 (filter (fun r => 0 <? cnt rc r) ranks_desc))
             (skipn 5 (filter (fun r => 0 <? cnt rc r) ranks_desc)) Cr).
    + intros r. split; [intros _ [] | reflexivity].
    + rewrite firstn_skipn. apply forallb_filter_id.
      apply forallb_forall. reflexivity.
Qed.

(** Witness of X25: Ac Kd 9h 7s 5c 3d 2h. *)
Lemma high_card_witness :
  List.length [14; 13; 9; 7; 5] = 5%nat
  /\ (forall r, count_rank [12; 24; 33; 44; 3; 14; 26] r <= 1)
  /\ highest_ranks [12; 24; 33; 44; 3; 14; 26] [] [14; 13; 9; 7; 5].
Proof.
  apply (high_card [12; 24; 33; 44; 3; 14; 26] [14; 13; 9; 7; 5]).
  - apply hand7_intro; [reflexivity | nodup_Z | reflexivity].
  - reflexivity.
Defined.

(** *** The tiebreak of the flush *)

Lemma insert_desc_In (x z : Z) (l : list Z) :
  In z (insert_desc x l) <-> z = x \/ In z l.
Proof.
  induction l as [|y t IH]; cbn [insert_desc].
  - simpl. split; intros [H | H]; auto.
  - destruct (y <=? x).
    + simpl. split; intros [H | H]; auto.
    + simpl. rewrite IH. split; intros H; tauto.
Qed.

Lemma sorted_desc_In (z : Z) (l : list Z) :
  In z (sorted_desc l) <-> In z l.
Proof.
  induction l as [|x t IH]; cbn [sorted_desc]; [reflexivity|].
  rewrite insert_desc_In, IH. simpl. split; intros [H | H]; auto.
Qed.

Lemma insert_desc_sorted (x : Z) (l : list Z) :
  StronglySorted Z.gt l -> ~ In x l ->
  StronglySorted Z.gt (insert_desc x l).
Proof.
  induction 1 as [|y t Hs IH Hy]; cbn [insert_desc]; intros Hx.
  - repeat constructor.
  - assert (Hxy : x <> y) by (intros ->; apply Hx; now left).
    assert (Hxt : ~ In x t) by (intros H; apply Hx; now right).
    rewrite Forall_forall in Hy.
    destruct (Z.leb_spec y x).
    + constructor; [now constructor; [|apply Forall_forall] |].
      apply Forall_forall. intros z [<- | Hz]; [lia|].
      specialize (Hy z Hz). lia.
    + constructor; [now apply IH|].
      apply Forall_forall. intros z Hz. apply insert_desc_In in Hz.
      destruct Hz as [-> | Hz]; [lia | now apply Hy].
Qed.

Lemma sorted_desc_sorted (l : list Z) :
  NoDup l -> StronglySorted Z.gt (sorted_desc l).
Proof.
  induction 1 as [|x t Hx Hnd IH]; cbn [sorted_desc]; [constructor|].
  apply insert_desc_sorted; [exact IH|].
  now rewrite sorted_desc_In.
Qed.

(** The cards of one suit have different ranks. *)
Lemma flush_ranks_NoDup (cards : list Z) (s : Z) :
  NoDup cards -> NoDup (flush_ranks_of cards s).
Proof.
  intros Hnd. unfold flush_ranks_of. apply NoDup_map_NoDup_ForallPairs.
  - intros x y Hx Hy Hxy.
    apply filter_In in Hx, Hy.
    destruct Hx as [_ Hx], Hy as [_ Hy].
    apply Z.eqb_eq in Hx, Hy.
    rewrite (card_of_rank_suit x), (card_of_rank_suit y). lia.
  - now apply NoDup_filter.
Qed.

(** X26: on seven distinct cards of the deck, category 5 comes with a suit
    held five times or more and, as tiebreak, the five highest ranks of
    the cards of that suit, highest first; the cards of the other suits
    play no part in it. *)
Theorem flush_tiebreak (cards tb : list Z) :
  hand7 cards ->
  evaluate_7 cards = Ok (5, tb) ->
  exists s,
    5 <= count_suit cards s
    /\ List.length tb = 5%nat
    /\ highest_ranks (suited cards s) [] tb.
Proof.
  intros H7 Hev.
  destruct (evaluate_7_branches cards 5 tb H7 Hev)
    as (rc & sc & _ & _ & Cs & Hbr).
  destruct Hbr as [[Hf [(H & _) | (_ & _ & Etb)]] | [_ Hst]];
    [ discriminate H | |
      destruct Hst as [(H & _) | (_ & H & _)];
      [discriminate H | contradiction] ].
  set (s := find_flush_suit sc) in *.
  pose proof (flush_suit_found cards sc Cs Hf) as H5. fold s in H5.
  exists s. split; [exact H5|].
  destruct H7 as (_ & Hnd & _).
  pose proof (sorted_desc_sorted _ (flush_ranks_NoDup cards s Hnd)) as Hs.
  set (L := sorted_desc (flush_ranks_of cards s)) in *.
  assert (HL : 5 <= len L).
  { unfold L, len. rewrite length_sorted_desc.
    fold (len (flush_ranks_of cards s)). now rewrite length_flush_ranks. }
  rewrite <- (firstn_skipn 5 L) in Hs.
  destruct (sorted_prefix_top _ _ Hs) as [Hpre Htop].
  rewrite firstn_skipn in Htop.
  assert (Hmem : forall r, In r L <-> 0 < count_rank (suited cards s) r).
  { intros r. unfold L. rewrite sorted_desc_In, count_rank_pos_iff.
    reflexivity. }
  rewrite Etb. split; [|split; [exact Hpre | split]].
  - rewrite length_firstn. unfold len in HL. lia.
  - intros k Hk. split; [|intros []].
    apply Hmem. rewrite <- (firstn_skipn 5 L). apply in_or_app. now left.
  - intros r Hr _ Hnot k Hk. apply (Htop r); auto. now apply Hmem.
Qed.

(** Witness of X26: Ac Kc 9c 5c 2c Qh Jd. *)
Lemma flush_tiebreak_witness :
  exists s,
    5 <= count_suit [12; 11; 7; 3; 0; 36; 22] s
    /\ List.length [14; 13; 9; 5; 2] = 5%nat
    /\ highest_ranks (suited [12; 11; 7; 3; 0; 36; 22] s) []
         [14; 13; 9; 5; 2].
Proof.
  apply (flush_tiebreak [12; 11; 7; 3; 0; 36; 22] [14; 13; 9; 5; 2]).
  - apply hand7_intro; [reflexivity | nodup_Z | reflexivity].
  - reflexivity.
Defined.

(** ** From the notation to the ranks of the evaluator *)

(** X27: the card that [card_str_to_int] returns decodes, with
    [int_to_rank] and [int_to_suit], to the position of the rank character
    in [RANKS] plus 2 and to the position of the suit character in
    [SUITS]: the deuce is rank 2, the ace rank 14, and the suits c, d, h, s
    are 0 to 3. *)
Theorem card_str_to_int_decodes (t : string) (c : Z) :
  card_str_to_int t = Ok c ->
  exists r s,
    strip t = String r (String s EmptyString)
    /\ str_index (upper r) RANKS = Some (Z.to_nat (int_to_rank c - 2))
    /\ str_index (lower s) SUITS = Some (Z.to_nat (int_to_suit c)).
Proof.
  intros H. destruct (accepted_of_success t c H) as (r & s & Hs & Hr & Hsu).
  exists r, s. split; [exact Hs|].
  unfold card_str_to_int in H. rewrite Hs in H. clear Hs.
  unfold rank_chars, suit_chars in Hr, Hsu. simpl in Hr, Hsu.
  repeat destruct Hr as [Hr | Hr]; try contradiction; subst r;
    repeat destruct Hsu as [Hsu | Hsu]; try contradiction; subst s;
    vm_compute in H; injection H as <-; split; reflexivity.
Qed.

(** Witness of X27: the ace of spades, card 51, of rank 14 and suit 3. *)
Lemma card_str_to_int_decodes_witness :
  exists r s,
    strip "As" = String r (String s EmptyString)
    /\ str_index (upper r) RANKS = Some (Z.to_nat (int_to_rank 51 - 2))
    /\ str_index (lower s) SUITS = Some (Z.to_nat (int_to_suit 51)).
Proof.
  apply (card_str_to_int_decodes "As" 51). reflexivity.
Defined.

(** ** Beyond 2^53 iterations *)









